(** * OAPS behavioural monitoring and risk scoring engine

    A shallow embedding of the monitoring core of the OAPS proctoring
    application:

    - [lib/utils/constants.ts]          thresholds, cooldowns, risk weights
    - [lib/ai/gaze-tracker.ts]          angle based gaze classification
    - [lib/ai/object-detector.ts]       prohibited object filter
    - [hooks/useMonitoring.ts]          the unified inference loop [aiLoop]
    - [lib/utils/risk-calculator.ts]    saturated risk score
    - [lib/utils/metrics-aggregator.ts] projections of the event log

    Clock readings ([Date.now()]) and event counts are integers and are
    modelled in [Z].  Measurements that the code only compares (confidences,
    angles, detector scores) are JavaScript numbers: they are modelled by
    [number], an exact rational or [NaN], with the comparison rules of
    JavaScript (every comparison against [NaN] is false).  The focus
    ratio of the time-quality record, whose digits are published, is
    computed with the operations of [Double], which round each result to
    a binary64 number. *)

From Stdlib Require Import ZArith QArith Qabs Qround Lia Lqa Bool List String Ascii.
From stdpp Require Import gmap strings list fin_maps pretty.
Import ListNotations.

Local Open Scope string_scope.
Local Open Scope Z_scope.

(** ** JavaScript numbers and values *)

Module Js.

Inductive number : Type :=
| Num (q : Q)
| NaN.

Definition ofZ (z : Z) : number := Num (inject_Z z).

(** [a < b], [a <= b], [a > b], [a >= b]: false as soon as one side is NaN. *)
Definition lt (a b : number) : bool :=
  match a, b with
  | Num x, Num y => negb (Qle_bool y x)
  | _, _ => false
  end.

Definition le (a b : number) : bool :=
  match a, b with
  | Num x, Num y => Qle_bool x y
  | _, _ => false
  end.

Definition gt (a b : number) : bool := lt b a.
Definition ge (a b : number) : bool := le b a.

(** [Math.abs] *)
Definition Math_abs (a : number) : number :=
  match a with
  | Num x => Num (Qabs x)
  | NaN => NaN
  end.

(** [Math.max]: NaN as soon as one argument is NaN. *)
Definition Math_max (a b : number) : number :=
  match a, b with
  | Num x, Num y => if Qle_bool x y then Num y else Num x
  | _, _ => NaN
  end.

(** Rounding of a rational to the nearest integer, ties towards
    positive infinity, as [Math.round] does. *)
Definition Qround (q : Q) : Z := Qfloor (q + (1 # 2)).

Definition Math_round (a : number) : number :=
  match a with
  | Num x => ofZ (Qround x)
  | NaN => NaN
  end.

Definition neg (a : number) : number :=
  match a with
  | Num x => Num (- x)
  | NaN => NaN
  end.

Definition mul (a b : number) : number :=
  match a, b with
  | Num x, Num y => Num (Qred (x * y))
  | _, _ => NaN
  end.

(** Division.  Every divisor in the modelled code is a non-zero
    constant ([1000], [100], [10]) or a total guarded by [> 0]; a zero
    divisor, which JavaScript maps to an infinity or to NaN, is mapped
    to NaN here. *)
Definition div (a b : number) : number :=
  match a, b with
  | Num x, Num y => if Qeq_bool y 0 then NaN else Num (Qred (x / y))
  | _, _ => NaN
  end.

(** Strict equality [a === b] of two numbers: false on NaN. *)
Definition eqb (a b : number) : bool :=
  match a, b with
  | Num x, Num y => Qeq_bool x y
  | _, _ => false
  end.

(** The remainder [a % b] of non-NaN numbers, with the sign of the
    dividend (truncated division). *)
Definition Qtrunc (q : Q) : Z :=
  if Qle_bool 0 q then Qfloor q else Qceiling q.

Definition Qrem (a b : Q) : Q := a - b * inject_Z (Qtrunc (a / b)).

(** The values a field of type [unknown] can hold, as far as the
    code inspects them with [typeof]. *)
Inductive value : Type :=
| VUndefined
| VNumber (n : number)
| VString (s : string)
| VBool (b : bool)
| VArray (l : list number).

(** [typeof v === "number"] *)
Definition is_number (v : value) : bool :=
  match v with
  | VNumber _ => true
  | _ => false
  end.

End Js.

Abbreviation number := Js.number.
Abbreviation Num := Js.Num.
Abbreviation NaN := Js.NaN.

(** ** Arithmetic rounded to a double *)

(** Where the digits a computation produces are what a claim is about,
    the operation is followed by the rounding the machine does: to the
    nearest binary64 number, ties to the even significand, gradual
    underflow included.  No result in reach of the modelled code has
    the magnitude [2^1024] from which a double becomes an infinity. *)
Module Double.

(** The integer nearest to [a / b] for [0 < b], ties to the even one. *)
Definition roundHalfEven (a b : Z) : Z :=
  let q := a / b in
  match 2 * (a mod b) ?= b with
  | Lt => q
  | Gt => q + 1
  | Eq => if Z.even q then q else q + 1
  end.

(** The exponent of the last bit of the significand of [n / d], for
    [0 < n]: 52 below the exponent of [n / d], and [-1074] at least. *)
Definition ulpExponent (n : Z) (d : positive) : Z :=
  Z.max (Z.log2 (n * 2 ^ 1100 / Zpos d) - 1152) (-1074).

Definition roundPositive (n : Z) (d : positive) : Q :=
  let e := ulpExponent n d in
  if e <=? 0
  then inject_Z (roundHalfEven (n * 2 ^ (- e)) (Zpos d)) / inject_Z (2 ^ (- e))
  else inject_Z (roundHalfEven n (Zpos d * 2 ^ e) * 2 ^ e).

Definition round (q : Q) : Q :=
  match Qnum q with
  | Z0 => 0
  | Zpos _ => roundPositive (Qnum q) (Qden q)
  | Zneg _ => - roundPositive (- Qnum q) (Qden q)
  end.

Definition rounded (a : number) : number :=
  match a with
  | Num x => Num (Qred (round x))
  | NaN => NaN
  end.

(** [a / b] and [a * b] on doubles. *)
Definition div (a b : number) : number := rounded (Js.div a b).
Definition mul (a b : number) : number := rounded (Js.mul a b).

End Double.

(** ** Constants ([lib/utils/constants.ts]) *)

Definition CONFIDENCE_THRESHOLD : number := Num (65 # 100).
Definition INFERENCE_FPS : Q := 10.
Definition INFERENCE_INTERVAL_MS : Q := 1000 / INFERENCE_FPS.

Definition SUSTAIN_DURATION_MS : Z := 2500.
Definition GAZE_COOLDOWN_MS : Z := 5000.
Definition MIN_FACE_CONFIDENCE : number := Num (6 # 10).
Definition FACE_ABSENCE_SUSTAIN_MS : Z := 2500.
Definition FACE_ABSENCE_COOLDOWN_MS : Z := 5000.

Definition MAX_YAW_NORMAL : number := Js.ofZ 18.
Definition MAX_PITCH_NORMAL : number := Js.ofZ 22.
Definition STRONG_YAW_DEG : number := Js.ofZ 25.
Definition STRONG_PITCH_UP_DEG : number := Js.ofZ 30.
Definition STRONG_PITCH_DOWN_DEG : number := Js.ofZ 35.
Definition CENTERED_SUSTAIN_DURATION_MS : Z := 3500.

Definition PROHIBITED_LABELS : gset string :=
  list_to_set
    ["cell phone"; "book"; "laptop"; "remote"; "keyboard"; "mouse";
     "tablet"; "paper"; "notepad"].

Definition OBJECT_DETECTION_COOLDOWN_MS : Z := 5000.

Record RiskWeight := { weight : Z; cap : Z }.

Module RISK_WEIGHTS.
Definition gazeDeviation : RiskWeight := {| weight := 8; cap := 5 |}.
Definition faceAbsence : RiskWeight := {| weight := 15; cap := 3 |}.
Definition objectDetection : RiskWeight := {| weight := 20; cap := 3 |}.
Definition tabSwitch : RiskWeight := {| weight := 6; cap := 5 |}.
End RISK_WEIGHTS.

Module RISK_THRESHOLDS.
Definition medium : Z := 35.
Definition high : Z := 70.
End RISK_THRESHOLDS.

(** ** Risk calculator ([lib/utils/risk-calculator.ts]) *)

Record RiskInput := {
  gazeDeviationCount : Z;
  faceAbsenceCount : Z;
  objectDetectionCount : Z;
  tabSwitchCount : Z;
  sessionDurationMs : number
}.

Inductive RiskLevel := Low | Medium | High.

Record RiskOutput := { score : Z; level : RiskLevel }.

Definition impact (count : Z) (w : RiskWeight) : Z :=
  Z.min count (cap w) * weight w.

Definition rawRisk (input : RiskInput) : Z :=
  let gazeImpact := impact (gazeDeviationCount input) RISK_WEIGHTS.gazeDeviation in
  let absenceImpact := impact (faceAbsenceCount input) RISK_WEIGHTS.faceAbsence in
  let objectImpact := impact (objectDetectionCount input) RISK_WEIGHTS.objectDetection in
  let tabImpact := impact (tabSwitchCount input) RISK_WEIGHTS.tabSwitch in
  gazeImpact + absenceImpact + objectImpact + tabImpact.

Definition calculateRiskScore (input : RiskInput) : RiskOutput :=
  let raw := rawRisk input in
  let score := Z.min 100 (Z.max 0 (Js.Qround (inject_Z raw))) in
  let level :=
    if RISK_THRESHOLDS.high <=? score then High
    else if RISK_THRESHOLDS.medium <=? score then Medium
    else Low in
  {| score := score; level := level |}.

(** ** Session events ([store/sessionStore.ts]) *)

Inductive Severity := normal | warning | suspicious.

Module SessionEvent.
Record t := {
  id : string;
  type : string;
  timestamp : Z;
  severity : Severity;
  metadata : option (gmap string Js.value)
}.
End SessionEvent.

(** [addEvent]: the log is extended at its end. *)
Definition addEvent (events : list SessionEvent.t) (event : SessionEvent.t)
  : list SessionEvent.t :=
  events ++ [event].

(** ** Metrics aggregator ([lib/utils/metrics-aggregator.ts]) *)

Definition countEventsByType (events : list SessionEvent.t) (type : string) : Z :=
  Z.of_nat
    (length (List.filter (fun e => String.eqb (SessionEvent.type e) type) events)).

(** [e.metadata?.durationMs] *)
Definition metadata_durationMs (e : SessionEvent.t) : Js.value :=
  match SessionEvent.metadata e with
  | Some m => default Js.VUndefined (m !! "durationMs")
  | None => Js.VUndefined
  end.

Definition longestDuration (events : list SessionEvent.t) (type : string) : number :=
  fold_left
    (fun longest e =>
       match metadata_durationMs e with
       | Js.VNumber d =>
           if String.eqb (SessionEvent.type e) type
           then Js.Math_max longest d
           else longest
       | _ => longest
       end)
    events (Js.ofZ 0).

Definition buildRiskInput (events : list SessionEvent.t) (sessionDurationMs : number)
  : RiskInput :=
  {| gazeDeviationCount := countEventsByType events "GAZE_AWAY";
     faceAbsenceCount := countEventsByType events "FACE_ABSENT";
     objectDetectionCount := countEventsByType events "OBJECT_DETECTED";
     tabSwitchCount := countEventsByType events "TAB_SWITCH";
     sessionDurationMs := sessionDurationMs |}.

Module GeminiPayload.
Record t := {
  sessionDurationSec : number;
  focusRatio : number;
  gazeIncidents : Z;
  longestGazeAwaySec : number;
  faceAbsenceEvents : Z;
  objectIncidents : Z;
  tabSwitches : Z;
  riskScore : Z
}.

(** Field-wise equality, numbers compared by value. *)
Definition eqb (a b : t) : bool :=
  Js.eqb (sessionDurationSec a) (sessionDurationSec b)
  && Js.eqb (focusRatio a) (focusRatio b)
  && (gazeIncidents a =? gazeIncidents b)
  && Js.eqb (longestGazeAwaySec a) (longestGazeAwaySec b)
  && (faceAbsenceEvents a =? faceAbsenceEvents b)
  && (objectIncidents a =? objectIncidents b)
  && (tabSwitches a =? tabSwitches b)
  && (riskScore a =? riskScore b).
End GeminiPayload.

Definition buildGeminiPayload
  (events : list SessionEvent.t) (sessionDurationMs focusRatio : number)
  : GeminiPayload.t :=
  {| GeminiPayload.sessionDurationSec :=
       Js.Math_round (Js.div sessionDurationMs (Js.ofZ 1000));
     GeminiPayload.focusRatio :=
       Js.div (Js.Math_round (Js.mul focusRatio (Js.ofZ 100))) (Js.ofZ 100);
     GeminiPayload.gazeIncidents := countEventsByType events "GAZE_AWAY";
     GeminiPayload.longestGazeAwaySec :=
       Js.div
         (Js.Math_round (Js.div (longestDuration events "GAZE_AWAY") (Js.ofZ 100)))
         (Js.ofZ 10);
     GeminiPayload.faceAbsenceEvents := countEventsByType events "FACE_ABSENT";
     GeminiPayload.objectIncidents := countEventsByType events "OBJECT_DETECTED";
     GeminiPayload.tabSwitches := countEventsByType events "TAB_SWITCH";
     GeminiPayload.riskScore :=
       score (calculateRiskScore (buildRiskInput events sessionDurationMs)) |}.

(** ** Gaze classification ([lib/ai/gaze-tracker.ts]) *)

Record GazeVector := { x : number; y : number }.

Module GazeResult.
Record t := {
  gaze : GazeVector;
  isLookingAway : bool;
  faceDetectionConfidence : number;
  faceDetected : bool;
  timestamp : Z;
  maxDeviation : number;
  yawDeg : number;
  pitchDeg : number;
  rollDeg : number;
  inSafeZone : bool;
  isStrongDeviation : bool;
  isCentered : bool
}.
End GazeResult.

Definition isInSafeZone (yawDeg pitchDeg : number) : bool :=
  Js.le (Js.Math_abs yawDeg) MAX_YAW_NORMAL
  && Js.le (Js.Math_abs pitchDeg) MAX_PITCH_NORMAL.

Definition isStrongDeviationCheck (yawDeg pitchDeg : number) : bool :=
  if Js.gt (Js.Math_abs yawDeg) STRONG_YAW_DEG then true
  else if Js.lt pitchDeg (Js.neg STRONG_PITCH_UP_DEG) then true
  else if Js.gt pitchDeg STRONG_PITCH_DOWN_DEG then true
  else false.

(** One face reported by the landmark model, with the measurements the
    module derives from its landmarks by trigonometry
    ([deriveGazeVector], [estimateHeadPose], [isFaceCentered]); those
    are taken as measured inputs. *)
Record FacePrediction := {
  probability : option number;
  derivedGaze : GazeVector;
  headYawDeg : number;
  headPitchDeg : number;
  headRollDeg : number;
  faceCentered : bool
}.

Definition NO_FACE_RESULT (confidence : number) (now : Z) : GazeResult.t :=
  {| GazeResult.gaze := {| x := Js.ofZ 0; y := Js.ofZ 0 |};
     GazeResult.isLookingAway := false;
     GazeResult.faceDetectionConfidence := confidence;
     GazeResult.faceDetected := false;
     GazeResult.timestamp := now;
     GazeResult.maxDeviation := Js.ofZ 0;
     GazeResult.yawDeg := Js.ofZ 0;
     GazeResult.pitchDeg := Js.ofZ 0;
     GazeResult.rollDeg := Js.ofZ 0;
     GazeResult.inSafeZone := false;
     GazeResult.isStrongDeviation := false;
     GazeResult.isCentered := false |}.

(** The body of [runGazeInference] once the model has answered: pick
    the most probable face, drop it below [MIN_FACE_CONFIDENCE],
    otherwise classify its head pose. *)
Definition runGazeInference (now : Z) (predictions : list FacePrediction)
  : GazeResult.t :=
  match predictions with
  | [] => NO_FACE_RESULT (Js.ofZ 0) now
  | first :: _ =>
      let best :=
        fold_left
          (fun a b =>
             if Js.gt (default (Js.ofZ 0) (probability b))
                      (default (Js.ofZ 0) (probability a))
             then b else a)
          predictions first in
      let confidence := default (Js.ofZ 1) (probability best) in
      if Js.lt confidence MIN_FACE_CONFIDENCE
      then NO_FACE_RESULT confidence now
      else
        let gaze := derivedGaze best in
        {| GazeResult.gaze := gaze;
           GazeResult.isLookingAway := false;
           GazeResult.faceDetectionConfidence := confidence;
           GazeResult.faceDetected := true;
           GazeResult.timestamp := now;
           GazeResult.maxDeviation :=
             Js.Math_max (Js.Math_abs (x gaze)) (Js.Math_abs (y gaze));
           GazeResult.yawDeg := headYawDeg best;
           GazeResult.pitchDeg := headPitchDeg best;
           GazeResult.rollDeg := headRollDeg best;
           GazeResult.inSafeZone := isInSafeZone (headYawDeg best) (headPitchDeg best);
           GazeResult.isStrongDeviation :=
             isStrongDeviationCheck (headYawDeg best) (headPitchDeg best);
           GazeResult.isCentered := faceCentered best |}
  end.

(** ** Object detection filter ([lib/ai/object-detector.ts]) *)

Record RawPrediction := {
  class : string;
  rawScore : Js.value;
  rawBbox : list number
}.

Module DetectedObject.
Record t := {
  label : string;
  score : number;
  bbox : list number
}.
End DetectedObject.

Module ObjectDetectionResult.
Record t := {
  detections : list DetectedObject.t;
  timestamp : Z
}.
End ObjectDetectionResult.

Definition isProhibitedHit (p : RawPrediction) : bool :=
  match rawScore p with
  | Js.VNumber s =>
      Js.ge s CONFIDENCE_THRESHOLD && bool_decide (class p ∈ PROHIBITED_LABELS)
  | _ => false
  end.

Definition toDetectedObject (p : RawPrediction) : DetectedObject.t :=
  {| DetectedObject.label := class p;
     DetectedObject.score :=
       match rawScore p with Js.VNumber s => s | _ => NaN end;
     DetectedObject.bbox := rawBbox p |}.

Definition runObjectDetection (now : Z) (rawPredictions : list RawPrediction)
  : ObjectDetectionResult.t :=
  {| ObjectDetectionResult.detections :=
       map toDetectedObject (List.filter isProhibitedHit rawPredictions);
     ObjectDetectionResult.timestamp := now |}.

(** ** The monitoring hook ([hooks/useMonitoring.ts]) *)

Inductive GazeState := NORMAL | MONITORING_DEVIATION | ALERT_ACTIVE | ABSENT.

Record TimeQualityMetrics := {
  focusedTimeMs : Z;
  minorMovementTimeMs : Z;
  deviationTimeMs : Z;
  absenceTimeMs : Z;
  totalSessionTimeMs : Z;
  focusRatio : number
}.

Definition INITIAL_TIME_QUALITY : TimeQualityMetrics :=
  {| focusedTimeMs := 0;
     minorMovementTimeMs := 0;
     deviationTimeMs := 0;
     absenceTimeMs := 0;
     totalSessionTimeMs := 0;
     focusRatio := Js.ofZ 1 |}.

(** The mutable cells ([useRef]) read and written by a measurement
    tick.  A [number | null] cell is an [option]. *)
Record Refs := {
  gazeStateRef : GazeState;
  deviationStartRef : option Z;
  lastGazeAlertTimeRef : Z;
  absenceStartRef : option Z;
  lastFaceAbsentTimeRef : Z;
  isFaceAbsentLoggedRef : bool;
  tqFocusedRef : Z;
  tqMinorRef : Z;
  tqDeviationRef : Z;
  tqAbsenceRef : Z;
  longestGazeAwayRef : Z
}.

(** The values written by the reset effect at session end. *)
Definition initialRefs : Refs :=
  {| gazeStateRef := NORMAL;
     deviationStartRef := None;
     lastGazeAlertTimeRef := 0;
     absenceStartRef := None;
     lastFaceAbsentTimeRef := 0;
     isFaceAbsentLoggedRef := false;
     tqFocusedRef := 0;
     tqMinorRef := 0;
     tqDeviationRef := 0;
     tqAbsenceRef := 0;
     longestGazeAwayRef := 0 |}.

(** The whole state the inference loop works on: the cells above, the
    remaining cells of the loop, the React state it publishes and the
    event log of the store. *)
Record Monitor := {
  refs : Refs;
  objectCooldownMap : gmap string Z;
  lastFrameTimeRef : Z;
  lastGazeInferenceRef : Q;
  lastObjInferenceRef : Q;
  gazeState : GazeState;
  timeQuality : TimeQualityMetrics;
  lastGazeResult : option GazeResult.t;
  lastObjectResult : option ObjectDetectionResult.t;
  events : list SessionEvent.t
}.

(** What one animation frame reads from its environment: the frame
    time handed to the callback, the clock, whether the session is
    active, and what each model answers should the loop ask for it
    ([None] when the video or the model is not ready or the model call
    fails, in which case the inference function returns [null]),
    together with the clock readings taken inside the inference
    functions. *)
Record Frame := {
  now : Q;
  frameNow : Z;
  isSessionActive : bool;
  facePredictions : option (list FacePrediction);
  gazeClock : Z;
  rawPredictions : option (list RawPrediction);
  objectClock : Z
}.

(** The face-present test, negated: the condition of the absence branch. *)
Definition faceAbsent (result : GazeResult.t) : bool :=
  negb (GazeResult.faceDetected result)
  || Js.lt (GazeResult.faceDetectionConfidence result) MIN_FACE_CONFIDENCE.

Section Monitoring.

(** [createEventId()] reads the clock and a random source.  It is kept
    abstract, as a function of the clock reading of the tick. *)
Variable createEventId : Z -> string.

Definition faceAbsentEvent (frameNow absenceDuration : Z) : SessionEvent.t :=
  {| SessionEvent.id := createEventId frameNow;
     SessionEvent.type := "FACE_ABSENT";
     SessionEvent.timestamp := frameNow;
     SessionEvent.severity := suspicious;
     SessionEvent.metadata :=
       Some {[ "durationMs" := Js.VNumber (Js.ofZ absenceDuration) ]} |}.

Definition gazeAwayEvent (frameNow durationMs : Z) (result : GazeResult.t)
  : SessionEvent.t :=
  {| SessionEvent.id := createEventId frameNow;
     SessionEvent.type := "GAZE_AWAY";
     SessionEvent.timestamp := frameNow;
     SessionEvent.severity := warning;
     SessionEvent.metadata :=
       Some (list_to_map
         [ ("durationMs", Js.VNumber (Js.ofZ durationMs));
           ("gazeX", Js.VNumber (x (GazeResult.gaze result)));
           ("gazeY", Js.VNumber (y (GazeResult.gaze result)));
           ("yawDeg", Js.VNumber (GazeResult.yawDeg result));
           ("pitchDeg", Js.VNumber (GazeResult.pitchDeg result));
           ("maxDeviation", Js.VNumber (GazeResult.maxDeviation result)) ]) |}.

Definition objectDetectedEvent (frameNow : Z) (det : DetectedObject.t)
  : SessionEvent.t :=
  {| SessionEvent.id := createEventId frameNow;
     SessionEvent.type := "OBJECT_DETECTED";
     SessionEvent.timestamp := frameNow;
     SessionEvent.severity := suspicious;
     SessionEvent.metadata :=
       Some (list_to_map
         [ ("label", Js.VString (DetectedObject.label det));
           ("score", Js.VNumber (DetectedObject.score det));
           ("bbox", Js.VArray (DetectedObject.bbox det)) ]) |}.

(** *** Face absence branch *)

Definition absenceTick (s : Refs) (frameNow deltaMs : Z)
  : Refs * list SessionEvent.t :=
  (* [!absenceStartRef.current]: [null] and [0] are both falsy *)
  let absenceStart :=
    match absenceStartRef s with
    | Some t => if t =? 0 then frameNow else t
    | None => frameNow
    end in
  let absenceDuration := frameNow - absenceStart in
  let fire :=
    (FACE_ABSENCE_SUSTAIN_MS <=? absenceDuration)
    && negb (isFaceAbsentLoggedRef s)
    && (FACE_ABSENCE_COOLDOWN_MS <=? frameNow - lastFaceAbsentTimeRef s) in
  ({| gazeStateRef := ABSENT;
      deviationStartRef := deviationStartRef s;
      lastGazeAlertTimeRef := lastGazeAlertTimeRef s;
      absenceStartRef := Some absenceStart;
      lastFaceAbsentTimeRef := if fire then frameNow else lastFaceAbsentTimeRef s;
      isFaceAbsentLoggedRef := if fire then true else isFaceAbsentLoggedRef s;
      tqFocusedRef := tqFocusedRef s;
      tqMinorRef := tqMinorRef s;
      tqDeviationRef := tqDeviationRef s;
      tqAbsenceRef := tqAbsenceRef s + deltaMs;
      longestGazeAwayRef := longestGazeAwayRef s |},
   if fire then [faceAbsentEvent frameNow absenceDuration] else []).

(** *** Gaze state machine (face present) *)

Definition presentTick (s : Refs) (frameNow deltaMs : Z) (result : GazeResult.t)
  : Refs * list SessionEvent.t :=
  if GazeResult.inSafeZone result then
    (* Gate 1: safe zone *)
    ({| gazeStateRef := NORMAL;
        deviationStartRef := None;
        lastGazeAlertTimeRef := lastGazeAlertTimeRef s;
        absenceStartRef := None;
        lastFaceAbsentTimeRef := lastFaceAbsentTimeRef s;
        isFaceAbsentLoggedRef := false;
        tqFocusedRef := tqFocusedRef s + deltaMs;
        tqMinorRef := tqMinorRef s;
        tqDeviationRef := tqDeviationRef s;
        tqAbsenceRef := tqAbsenceRef s;
        longestGazeAwayRef := longestGazeAwayRef s |}, [])
  else if negb (GazeResult.isStrongDeviation result) then
    (* Gate 2: minor movement *)
    ({| gazeStateRef := NORMAL;
        deviationStartRef := None;
        lastGazeAlertTimeRef := lastGazeAlertTimeRef s;
        absenceStartRef := None;
        lastFaceAbsentTimeRef := lastFaceAbsentTimeRef s;
        isFaceAbsentLoggedRef := false;
        tqFocusedRef := tqFocusedRef s;
        tqMinorRef := tqMinorRef s + deltaMs;
        tqDeviationRef := tqDeviationRef s;
        tqAbsenceRef := tqAbsenceRef s;
        longestGazeAwayRef := longestGazeAwayRef s |}, [])
  else
    (* Gate 3: strong deviation *)
    let entering :=
      match gazeStateRef s with NORMAL => true | _ => false end in
    let state1 := if entering then MONITORING_DEVIATION else gazeStateRef s in
    let deviationStart := if entering then Some frameNow else deviationStartRef s in
    let sustained := frameNow - default frameNow deviationStart in
    let requiredSustain :=
      if GazeResult.isCentered result
      then CENTERED_SUSTAIN_DURATION_MS
      else SUSTAIN_DURATION_MS in
    let fire :=
      match state1 with
      | MONITORING_DEVIATION =>
          (requiredSustain <=? sustained)
          && (GAZE_COOLDOWN_MS <=? frameNow - lastGazeAlertTimeRef s)
      | _ => false
      end in
    ({| gazeStateRef := if fire then ALERT_ACTIVE else state1;
        deviationStartRef := deviationStart;
        lastGazeAlertTimeRef := if fire then frameNow else lastGazeAlertTimeRef s;
        absenceStartRef := None;
        lastFaceAbsentTimeRef := lastFaceAbsentTimeRef s;
        isFaceAbsentLoggedRef := false;
        tqFocusedRef := tqFocusedRef s;
        tqMinorRef := tqMinorRef s;
        tqDeviationRef := tqDeviationRef s + deltaMs;
        tqAbsenceRef := tqAbsenceRef s;
        longestGazeAwayRef :=
          if fire && (longestGazeAwayRef s <? sustained)
          then sustained
          else longestGazeAwayRef s |},
     if fire then [gazeAwayEvent frameNow sustained result] else []).

(** One processed measurement: the body of [if (result) { ... }]. *)
Definition gazeTick (s : Refs) (frameNow deltaMs : Z) (result : GazeResult.t)
  : Refs * list SessionEvent.t :=
  if faceAbsent result
  then absenceTick s frameNow deltaMs
  else presentTick s frameNow deltaMs result.

(** *** Object cooldown loop *)

Definition objectTick (frameNow : Z)
  (acc : gmap string Z * list SessionEvent.t) (det : DetectedObject.t)
  : gmap string Z * list SessionEvent.t :=
  let lastFor := default 0 (acc.1 !! DetectedObject.label det) in
  if OBJECT_DETECTION_COOLDOWN_MS <=? frameNow - lastFor
  then (<[DetectedObject.label det := frameNow]> acc.1,
        (acc.2 ++ [objectDetectedEvent frameNow det])%list)
  else acc.

Definition objectLoop (frameNow : Z) (cooldown : gmap string Z)
  (detections : list DetectedObject.t) : gmap string Z * list SessionEvent.t :=
  fold_left (objectTick frameNow) detections (cooldown, []).

(** *** The unified inference loop [aiLoop] *)

(** The overlay copy of a result: [isLookingAway] follows the state. *)
Definition displayResult (result : GazeResult.t) (state : GazeState)
  : GazeResult.t :=
  {| GazeResult.gaze := GazeResult.gaze result;
     GazeResult.isLookingAway :=
       match state with
       | ALERT_ACTIVE | MONITORING_DEVIATION => true
       | _ => false
       end;
     GazeResult.faceDetectionConfidence := GazeResult.faceDetectionConfidence result;
     GazeResult.faceDetected := GazeResult.faceDetected result;
     GazeResult.timestamp := GazeResult.timestamp result;
     GazeResult.maxDeviation := GazeResult.maxDeviation result;
     GazeResult.yawDeg := GazeResult.yawDeg result;
     GazeResult.pitchDeg := GazeResult.pitchDeg result;
     GazeResult.rollDeg := GazeResult.rollDeg result;
     GazeResult.inSafeZone := GazeResult.inSafeZone result;
     GazeResult.isStrongDeviation := GazeResult.isStrongDeviation result;
     GazeResult.isCentered := GazeResult.isCentered result |}.

(** Gaze inference, throttled to [INFERENCE_INTERVAL_MS]. *)
Definition gazeStep (f : Frame) (deltaMs : Z) (m : Monitor) : Monitor :=
  if Qle_bool INFERENCE_INTERVAL_MS (now f - lastGazeInferenceRef m) then
    match facePredictions f with
    | Some predictions =>
        let result := runGazeInference (gazeClock f) predictions in
        let out := gazeTick (refs m) (frameNow f) deltaMs result in
        {| refs := out.1;
           objectCooldownMap := objectCooldownMap m;
           lastFrameTimeRef := lastFrameTimeRef m;
           lastGazeInferenceRef := now f;
           lastObjInferenceRef := lastObjInferenceRef m;
           gazeState := gazeStateRef out.1;
           timeQuality := timeQuality m;
           lastGazeResult := Some (displayResult result (gazeStateRef out.1));
           lastObjectResult := lastObjectResult m;
           events := fold_left addEvent out.2 (events m) |}
    | None =>
        {| refs := refs m;
           objectCooldownMap := objectCooldownMap m;
           lastFrameTimeRef := lastFrameTimeRef m;
           lastGazeInferenceRef := now f;
           lastObjInferenceRef := lastObjInferenceRef m;
           gazeState := gazeState m;
           timeQuality := timeQuality m;
           lastGazeResult := lastGazeResult m;
           lastObjectResult := lastObjectResult m;
           events := events m |}
    end
  else m.

(** Object inference, staggered by a factor [1.5]. *)
Definition objectStep (f : Frame) (m : Monitor) : Monitor :=
  let staggeredInterval := (INFERENCE_INTERVAL_MS * (3 # 2))%Q in
  if Qle_bool staggeredInterval (now f - lastObjInferenceRef m) then
    match rawPredictions f with
    | Some predictions =>
        let result := runObjectDetection (objectClock f) predictions in
        let out :=
          objectLoop (frameNow f) (objectCooldownMap m)
            (ObjectDetectionResult.detections result) in
        {| refs := refs m;
           objectCooldownMap := out.1;
           lastFrameTimeRef := lastFrameTimeRef m;
           lastGazeInferenceRef := lastGazeInferenceRef m;
           lastObjInferenceRef := now f;
           gazeState := gazeState m;
           timeQuality := timeQuality m;
           lastGazeResult := lastGazeResult m;
           lastObjectResult := Some result;
           events := fold_left addEvent out.2 (events m) |}
    | None =>
        {| refs := refs m;
           objectCooldownMap := objectCooldownMap m;
           lastFrameTimeRef := lastFrameTimeRef m;
           lastGazeInferenceRef := lastGazeInferenceRef m;
           lastObjInferenceRef := now f;
           gazeState := gazeState m;
           timeQuality := timeQuality m;
           lastGazeResult := lastGazeResult m;
           lastObjectResult := lastObjectResult m;
           events := events m |}
    end
  else m.

(** The record handed to [setTimeQuality].  The buckets are whole
    numbers of milliseconds; the quotient, the product and the last
    quotient of the focus ratio are each rounded to a double, as the
    machine does. *)
Definition timeQualityOf (s : Refs) : TimeQualityMetrics :=
  let totalMs := tqFocusedRef s + tqMinorRef s + tqDeviationRef s + tqAbsenceRef s in
  {| focusedTimeMs := tqFocusedRef s;
     minorMovementTimeMs := tqMinorRef s;
     deviationTimeMs := tqDeviationRef s;
     absenceTimeMs := tqAbsenceRef s;
     totalSessionTimeMs := totalMs;
     focusRatio :=
       Double.div
         (Js.Math_round
            (Double.mul
               (Double.div (Js.ofZ (tqFocusedRef s + tqMinorRef s)) (Js.ofZ totalMs))
               (Js.ofZ 100)))
         (Js.ofZ 100) |}.

Definition timeQualityStep (f : Frame) (m : Monitor) : Monitor :=
  let s := refs m in
  let totalMs := tqFocusedRef s + tqMinorRef s + tqDeviationRef s + tqAbsenceRef s in
  if (0 <? totalMs) && negb (Qle_bool 1 (Js.Qrem (now f) 4)) then
    {| refs := refs m;
       objectCooldownMap := objectCooldownMap m;
       lastFrameTimeRef := lastFrameTimeRef m;
       lastGazeInferenceRef := lastGazeInferenceRef m;
       lastObjInferenceRef := lastObjInferenceRef m;
       gazeState := gazeState m;
       timeQuality := timeQualityOf s;
       lastGazeResult := lastGazeResult m;
       lastObjectResult := lastObjectResult m;
       events := events m |}
  else m.

Definition aiLoop (f : Frame) (m : Monitor) : Monitor :=
  if negb (isSessionActive f) then m
  else
    let deltaMs := frameNow f - lastFrameTimeRef m in
    let m0 :=
      {| refs := refs m;
         objectCooldownMap := objectCooldownMap m;
         lastFrameTimeRef := frameNow f;
         lastGazeInferenceRef := lastGazeInferenceRef m;
         lastObjInferenceRef := lastObjInferenceRef m;
         gazeState := gazeState m;
         timeQuality := timeQuality m;
         lastGazeResult := lastGazeResult m;
         lastObjectResult := lastObjectResult m;
         events := events m |} in
    timeQualityStep f (objectStep f (gazeStep f deltaMs m0)).

(** Frames are processed one at a time, in arrival order. *)
Definition runFrames (m : Monitor) (frames : list Frame) : Monitor :=
  fold_left (fun m f => aiLoop f m) frames m.

(** ** Runs of measurement ticks *)

Record Tick := {
  tickNow : Z;
  tickDelta : Z;
  tickResult : GazeResult.t
}.

Definition stepTick (acc : Refs * list SessionEvent.t) (tk : Tick)
  : Refs * list SessionEvent.t :=
  let out := gazeTick acc.1 (tickNow tk) (tickDelta tk) (tickResult tk) in
  (out.1, (acc.2 ++ out.2)%list).

Definition runTicks (s : Refs) (ticks : list Tick) : Refs * list SessionEvent.t :=
  fold_left stepTick ticks (s, []).

(** The three kinds of face-present measurement, in the order of the gates. *)
Definition safeZoneTick (result : GazeResult.t) : bool :=
  negb (faceAbsent result) && GazeResult.inSafeZone result.

Definition minorMovementTick (result : GazeResult.t) : bool :=
  negb (faceAbsent result)
  && negb (GazeResult.inSafeZone result)
  && negb (GazeResult.isStrongDeviation result).

Definition strongDeviationTick (result : GazeResult.t) : bool :=
  negb (faceAbsent result)
  && negb (GazeResult.inSafeZone result)
  && GazeResult.isStrongDeviation result.

Definition requiredSustainOf (result : GazeResult.t) : Z :=
  if GazeResult.isCentered result
  then CENTERED_SUSTAIN_DURATION_MS
  else SUSTAIN_DURATION_MS.

(** A tick of a deviation episode started at [start] is due for an
    alert when the deviation has been sustained long enough and the
    cooldown since the last alert, at [lastAlert], has elapsed. *)
Definition gazeDue (start lastAlert : Z) (tk : Tick) : bool :=
  (requiredSustainOf (tickResult tk) <=? tickNow tk - start)
  && (GAZE_COOLDOWN_MS <=? tickNow tk - lastAlert).

(** A tick of an absence episode started at [start] is due for a
    [FACE_ABSENT] event. *)
Definition absenceDue (start lastEmitted : Z) (tk : Tick) : bool :=
  (FACE_ABSENCE_SUSTAIN_MS <=? tickNow tk - start)
  && (FACE_ABSENCE_COOLDOWN_MS <=? tickNow tk - lastEmitted).

End Monitoring.

(** ** Notions used to state the properties *)

(** Two risk inputs that agree on the four event counts (their
    durations may differ). *)
Definition sameCounts (a b : RiskInput) : Prop :=
  gazeDeviationCount a = gazeDeviationCount b
  /\ faceAbsenceCount a = faceAbsenceCount b
  /\ objectDetectionCount a = objectDetectionCount b
  /\ tabSwitchCount a = tabSwitchCount b.

(** A count [c'] obtained from [c] by leaving it alone or, when [c] has
    already reached the cap [k], by raising it. *)
Definition raisedBeyondCap (k c c' : Z) : Prop :=
  c' = c \/ (k <= c /\ c <= c').

Definition withGaze (g : Z) (input : RiskInput) : RiskInput :=
  {| gazeDeviationCount := g;
     faceAbsenceCount := faceAbsenceCount input;
     objectDetectionCount := objectDetectionCount input;
     tabSwitchCount := tabSwitchCount input;
     sessionDurationMs := sessionDurationMs input |}.

Definition allCounts (c : Z) (duration : number) : RiskInput :=
  {| gazeDeviationCount := c;
     faceAbsenceCount := c;
     objectDetectionCount := c;
     tabSwitchCount := c;
     sessionDurationMs := duration |}.

(** The event log of the worked aggregation example. *)
Definition exampleEvents : list SessionEvent.t :=
  [ {| SessionEvent.id := "e1";
       SessionEvent.type := "GAZE_AWAY";
       SessionEvent.timestamp := 1000;
       SessionEvent.severity := warning;
       SessionEvent.metadata :=
         Some {[ "durationMs" := Js.VNumber (Js.ofZ 3000) ]} |};
    {| SessionEvent.id := "e2";
       SessionEvent.type := "FACE_ABSENT";
       SessionEvent.timestamp := 2000;
       SessionEvent.severity := suspicious;
       SessionEvent.metadata :=
         Some {[ "durationMs" := Js.VNumber (Js.ofZ 2500) ]} |};
    {| SessionEvent.id := "e3";
       SessionEvent.type := "TAB_SWITCH";
       SessionEvent.timestamp := 3000;
       SessionEvent.severity := warning;
       SessionEvent.metadata := None |} ].

Definition examplePayload : GeminiPayload.t :=
  {| GeminiPayload.sessionDurationSec := Js.ofZ 120;
     GeminiPayload.focusRatio := Num (88 # 100);
     GeminiPayload.gazeIncidents := 1;
     GeminiPayload.longestGazeAwaySec := Js.ofZ 3;
     GeminiPayload.faceAbsenceEvents := 1;
     GeminiPayload.objectIncidents := 0;
     GeminiPayload.tabSwitches := 1;
     GeminiPayload.riskScore := 29 |}.

(** What the comparisons of the classifier mean on the rationals: a
    number is a rational within, or beyond, a bound.  NaN is neither. *)
Definition absAtMost (a : number) (bound : Q) : Prop :=
  exists q, a = Num q /\ (- bound <= q <= bound)%Q.

Definition absAbove (a : number) (bound : Q) : Prop :=
  exists q, a = Num q /\ (q < - bound \/ bound < q)%Q.

Definition isBelow (a : number) (bound : Q) : Prop :=
  exists q, a = Num q /\ (q < bound)%Q.

Definition isAbove (a : number) (bound : Q) : Prop :=
  exists q, a = Num q /\ (bound < q)%Q.

(** A face prediction with the given confidence and head pose. *)
Definition measuredFace (confidence yaw pitch : number) (centered : bool)
  : FacePrediction :=
  {| probability := Some confidence;
     derivedGaze := {| x := Js.ofZ 0; y := Js.ofZ 0 |};
     headYawDeg := yaw;
     headPitchDeg := pitch;
     headRollDeg := Js.ofZ 0;
     faceCentered := centered |}.

(** The flags of a result are those the classifier computes from its
    angles, as in every face-present result of [runGazeInference]. *)
Definition classifiedByAngles (result : GazeResult.t) : Prop :=
  GazeResult.inSafeZone result
    = isInSafeZone (GazeResult.yawDeg result) (GazeResult.pitchDeg result)
  /\ GazeResult.isStrongDeviation result
    = isStrongDeviationCheck (GazeResult.yawDeg result) (GazeResult.pitchDeg result).

(** What can be observed of a tick that went through the absence
    branch: the state is degraded to [ABSENT], an absence start is on
    record and the absence bucket received the tick's time. *)
Definition tookAbsencePath (s : Refs) (deltaMs : Z) (s' : Refs) : Prop :=
  gazeStateRef s' = ABSENT
  /\ is_Some (absenceStartRef s')
  /\ tqAbsenceRef s' = tqAbsenceRef s + deltaMs.

(** What can be observed of a tick that went through the gaze state
    machine: absence tracking is cleared, the absence bucket is left
    alone and one of the three other buckets received the tick's time. *)
Definition tookGazePath (s : Refs) (deltaMs : Z) (s' : Refs) : Prop :=
  absenceStartRef s' = None
  /\ isFaceAbsentLoggedRef s' = false
  /\ tqAbsenceRef s' = tqAbsenceRef s
  /\ tqFocusedRef s' + tqMinorRef s' + tqDeviationRef s'
     = tqFocusedRef s + tqMinorRef s + tqDeviationRef s + deltaMs.

(** A confidence that is not a number of [0, 1]. *)
Definition malformedConfidence (c : number) : Prop :=
  c = NaN \/ isBelow c 0 \/ isAbove c 1.

(** The statement that every tick with a detected face and a malformed
    confidence is treated as face absent. *)
Definition malformedTreatedAsAbsent : Prop :=
  forall (createEventId : Z -> string) (s : Refs) (frameNow deltaMs : Z)
         (result : GazeResult.t),
    GazeResult.faceDetected result = true ->
    malformedConfidence (GazeResult.faceDetectionConfidence result) ->
    tookAbsencePath s deltaMs
      (gazeTick createEventId s frameNow deltaMs result).1.

(** A face reported with confidence NaN, looking straight ahead. *)
Definition nanFaceResult : GazeResult.t :=
  runGazeInference 10000 [measuredFace NaN (Js.ofZ 0) (Js.ofZ 0) true].

(** The events expected of a deviation episode that started at
    [start] with the last alert at [lastAlert]: one [GAZE_AWAY] event,
    raised by the first tick that is due, if there is one. *)
Definition gazeEpisodeEvents (createEventId : Z -> string)
  (start lastAlert : Z) (ticks : list Tick) : list SessionEvent.t :=
  match List.find (gazeDue start lastAlert) ticks with
  | Some tk =>
      [gazeAwayEvent createEventId (tickNow tk) (tickNow tk - start) (tickResult tk)]
  | None => []
  end.

(** The events expected of an absence episode that started at [start]
    with the last emission at [lastEmitted]. *)
Definition absenceEpisodeEvents (createEventId : Z -> string)
  (start lastEmitted : Z) (ticks : list Tick) : list SessionEvent.t :=
  match List.find (absenceDue start lastEmitted) ticks with
  | Some tk => [faceAbsentEvent createEventId (tickNow tk) (tickNow tk - start)]
  | None => []
  end.

Definition absentTicks (ticks : list Tick) : Prop :=
  Forall (fun tk => faceAbsent (tickResult tk) = true) ticks.

Definition strongDeviationTicks (ticks : list Tick) : Prop :=
  Forall (fun tk => strongDeviationTick (tickResult tk) = true) ticks.

(** A tick that resets the gaze state machine: face present, in the
    safe zone or with a minor movement. *)
Definition resetTick (tk : Tick) : Prop :=
  safeZoneTick (tickResult tk) = true \/ minorMovementTick (tickResult tk) = true.

Definition notGazeAway (e : SessionEvent.t) : Prop :=
  SessionEvent.type e <> "GAZE_AWAY".

(** Sample ticks, 100 ms after the previous one: a face turned 40
    degrees sideways, a face looking straight ahead, and no face. *)
Definition strongTickAt (t : Z) : Tick :=
  {| tickNow := t;
     tickDelta := 100;
     tickResult :=
       runGazeInference t [measuredFace (Num (9 # 10)) (Js.ofZ 40) (Js.ofZ 0) false] |}.

Definition safeTickAt (t : Z) : Tick :=
  {| tickNow := t;
     tickDelta := 100;
     tickResult :=
       runGazeInference t [measuredFace (Num (9 # 10)) (Js.ofZ 0) (Js.ofZ 0) true] |}.

Definition absentTickAt (t : Z) : Tick :=
  {| tickNow := t; tickDelta := 100; tickResult := runGazeInference t [] |}.

(** [objectCooldownMap.current.get(label) ?? 0] *)
Definition lastFor (cooldown : gmap string Z) (label : string) : Z :=
  default 0 (cooldown !! label).

(** The cooldown of a label has elapsed at [frameNow]. *)
Definition offCooldown (frameNow : Z) (cooldown : gmap string Z) (label : string)
  : bool :=
  OBJECT_DETECTION_COOLDOWN_MS <=? frameNow - lastFor cooldown label.

(** The label recorded in the metadata of an event. *)
Definition eventLabel (e : SessionEvent.t) : option string :=
  match SessionEvent.metadata e with
  | Some m =>
      match m !! "label" with
      | Some (Js.VString l) => Some l
      | _ => None
      end
  | None => None
  end.

Definition hasLabel (label : string) (e : SessionEvent.t) : bool :=
  match eventLabel e with
  | Some l => String.eqb l label
  | None => false
  end.

(** The events of a log that report the given label. *)
Definition eventsFor (label : string) (events : list SessionEvent.t)
  : list SessionEvent.t :=
  List.filter (hasLabel label) events.

(** The first detection of a batch that carries the given label. *)
Definition firstWithLabel (label : string) (detections : list DetectedObject.t)
  : option DetectedObject.t :=
  List.find (fun d => String.eqb (DetectedObject.label d) label) detections.

(** A raw prediction that passes validation: a numeric score of at
    least 0.65 and a prohibited label. *)
Definition prohibitedHit (p : RawPrediction) : Prop :=
  exists q, rawScore p = Js.VNumber (Num q)
            /\ (65 # 100 <= q)%Q
            /\ class p ∈ PROHIBITED_LABELS.

(** The four time-quality buckets, and the one a measurement belongs
    to: absence first, then strong deviation, then minor movement, the
    safe zone last. *)
Inductive Bucket := Focused | MinorMovement | Deviation | Absence.

Definition bucketOf (result : GazeResult.t) : Bucket :=
  if faceAbsent result then Absence
  else if GazeResult.isStrongDeviation result then Deviation
  else if negb (GazeResult.inSafeZone result) then MinorMovement
  else Focused.




(** A number of the interval [0, 1]. *)
Definition inUnitInterval (n : number) : Prop :=
  exists q, n = Num q /\ (0 <= q <= 1)%Q.

(** The clock readings of the frames never go back, starting from [last]. *)
Fixpoint clockMonotone (last : Z) (frames : list Frame) : Prop :=
  match frames with
  | [] => True
  | f :: frames' => last <= frameNow f /\ clockMonotone (frameNow f) frames'
  end.


(** A sample frame, at clock [t], showing a face that looks straight
    ahead with confidence 0.9. *)
Definition focusedFrameAt (t : Z) : Frame :=
  {| now := inject_Z t;
     frameNow := t;
     isSessionActive := true;
     facePredictions :=
       Some [measuredFace (Num (9 # 10)) (Js.ofZ 0) (Js.ofZ 0) true];
     gazeClock := t;
     rawPredictions := None;
     objectClock := t |}.



(** The monitor at session start, the clock reading [t0]. *)
Definition initialMonitor (t0 : Z) : Monitor :=
  {| refs := initialRefs;
     objectCooldownMap := ∅;
     lastFrameTimeRef := t0;
     lastGazeInferenceRef := 0;
     lastObjInferenceRef := 0;
     gazeState := NORMAL;
     timeQuality := INITIAL_TIME_QUALITY;
     lastGazeResult := None;
     lastObjectResult := None;
     events := [] |}.




(** Two sample detections. *)
Definition samplePhone : DetectedObject.t :=
  {| DetectedObject.label := "cell phone";
     DetectedObject.score := Num (9 # 10);
     DetectedObject.bbox := [] |}.

Definition sampleBook : DetectedObject.t :=
  {| DetectedObject.label := "book";
     DetectedObject.score := Num (8 # 10);
     DetectedObject.bbox := [] |}.

(** * Further parts of the program *)

(** ** Further operations on numbers and values *)

Module JsArith.

Definition add (a b : number) : number :=
  match a, b with
  | Num x, Num y => Num (Qred (x + y))
  | _, _ => NaN
  end.

Definition sub (a b : number) : number :=
  match a, b with
  | Num x, Num y => Num (Qred (x - y))
  | _, _ => NaN
  end.

(** [Math.min]: NaN as soon as one argument is NaN. *)
Definition Math_min (a b : number) : number :=
  match a, b with
  | Num x, Num y => if Qle_bool x y then Num x else Num y
  | _, _ => NaN
  end.

(** [Number.isFinite(n)] for a value already known to be a number.
    The model has no infinities, so only NaN fails. *)
Definition isFinite (n : number) : bool :=
  match n with
  | Num _ => true
  | NaN => false
  end.

(** [obj[key]] on an object of [unknown] fields: a missing key reads
    [undefined]. *)
Definition field (obj : gmap string Js.value) (key : string) : Js.value :=
  default Js.VUndefined (obj !! key).

End JsArith.

(** ** Risk level displays *)

(** The level strings of [RiskOutput]. *)
Definition levelLabel (l : RiskLevel) : string :=
  match l with
  | Low => "Low"
  | Medium => "Medium"
  | High => "High"
  end.

(** [getRiskLevel] of [components/dashboard/RiskIndicator.tsx] (the
    current component). *)
Record RiskIndicatorLevel := {
  indicatorLabel : string;
  indicatorColor : string;
  indicatorBar : string
}.

Definition getRiskLevel (score : number) : RiskIndicatorLevel :=
  if Js.ge score (Js.ofZ 70) then
    {| indicatorLabel := "High";
       indicatorColor := "text-rose-600";
       indicatorBar := "bg-rose-500" |}
  else if Js.ge score (Js.ofZ 35) then
    {| indicatorLabel := "Medium";
       indicatorColor := "text-amber-500";
       indicatorBar := "bg-amber-400" |}
  else
    {| indicatorLabel := "Low";
       indicatorColor := "text-[var(--blue-600)]";
       indicatorBar := "bg-[var(--blue-500)]" |}.

(** [clamped] in [RiskIndicator]. *)
Definition indicatorClamp (riskScore : number) : number :=
  Js.Math_max (Js.ofZ 0) (JsArith.Math_min (Js.ofZ 100) riskScore).

(** [riskLabel] in [buildGeminiPrompt] ([lib/gemini/prompt-builder.ts]). *)
Definition promptRiskLabel (riskScore : number) : string :=
  if Js.ge riskScore (Js.ofZ 70) then "High"
  else if Js.ge riskScore (Js.ofZ 35) then "Medium"
  else "Low".

(** [riskAccent] in [MetricsPanel]. *)
Definition riskAccent (riskScore : number) : string :=
  if Js.ge riskScore (Js.ofZ 70) then "danger"
  else if Js.ge riskScore (Js.ofZ 35) then "warning"
  else "normal".

(** ** Payload validation before the report is requested *)

(** The payload as a JavaScript object. *)
Definition payloadObject (p : GeminiPayload.t) : gmap string Js.value :=
  list_to_map
    [ ("sessionDurationSec", Js.VNumber (GeminiPayload.sessionDurationSec p));
      ("focusRatio", Js.VNumber (GeminiPayload.focusRatio p));
      ("gazeIncidents", Js.VNumber (Js.ofZ (GeminiPayload.gazeIncidents p)));
      ("longestGazeAwaySec", Js.VNumber (GeminiPayload.longestGazeAwaySec p));
      ("faceAbsenceEvents", Js.VNumber (Js.ofZ (GeminiPayload.faceAbsenceEvents p)));
      ("objectIncidents", Js.VNumber (Js.ofZ (GeminiPayload.objectIncidents p)));
      ("tabSwitches", Js.VNumber (Js.ofZ (GeminiPayload.tabSwitches p)));
      ("riskScore", Js.VNumber (Js.ofZ (GeminiPayload.riskScore p))) ].

(** [typeof v !== "number" || !Number.isFinite(v) || v <= 0] *)
Definition invalidDuration (v : Js.value) : bool :=
  match v with
  | Js.VNumber n => negb (JsArith.isFinite n) || Js.le n (Js.ofZ 0)
  | _ => true
  end.

(** [typeof v !== "number" || !Number.isFinite(v) || v < 0 || v > hi] *)
Definition outOfRange (hi : number) (v : Js.value) : bool :=
  match v with
  | Js.VNumber n =>
      negb (JsArith.isFinite n) || Js.lt n (Js.ofZ 0) || Js.gt n hi
  | _ => true
  end.

(** The validation of the route [POST /api/gemini-analysis]: the
    status and error message of the rejection, or [None] when the
    payload goes on to the prompt. *)
Definition validatePayloadServer (p : gmap string Js.value) : option (Z * string) :=
  if invalidDuration (JsArith.field p "sessionDurationSec")
  then Some (400, "Invalid session duration in payload.")
  else if outOfRange (Js.ofZ 100) (JsArith.field p "riskScore")
  then Some (400, "Invalid risk score in payload.")
  else if outOfRange (Js.ofZ 1) (JsArith.field p "focusRatio")
  then Some (400, "Invalid focus ratio in payload.")
  else None.

Definition MIN_SESSION_DURATION_SEC : number := Js.ofZ 5.

(** What [generateReport] of [useGeminiAnalysis] does with a payload:
    nothing while a request is in flight, an error message, or the
    request. *)
Inductive ReportOutcome :=
| Ignored
| Rejected (message : string)
| Requested.

Definition generateReport (isInFlight : bool) (p : gmap string Js.value)
  : ReportOutcome :=
  if isInFlight then Ignored
  else
    let durationSec := JsArith.field p "sessionDurationSec" in
    if invalidDuration durationSec
    then Rejected "Invalid session duration — cannot generate report."
    else if match durationSec with
            | Js.VNumber n => Js.lt n MIN_SESSION_DURATION_SEC
            | _ => false
            end
    then Rejected "Session too short for analysis. (Minimum: 5s)"
    else if outOfRange (Js.ofZ 100) (JsArith.field p "riskScore")
    then Rejected "Invalid risk score — cannot generate report."
    else if outOfRange (Js.ofZ 1) (JsArith.field p "focusRatio")
    then Rejected "Invalid focus ratio — cannot generate report."
    else Requested.

(** ** The session store ([store/sessionStore.ts]) *)

Module SessionStore.

Record State := {
  isSessionActive : bool;
  sessionStartTime : option Z;
  sessionEndTime : option Z;
  events : list SessionEvent.t;
  riskScore : Z
}.

Definition initialState : State :=
  {| isSessionActive := false;
     sessionStartTime := None;
     sessionEndTime := None;
     events := [];
     riskScore := 0 |}.

(** [now] is the reading of [Date.now()]. *)
Definition startSession (now : Z) (st : State) : State :=
  {| isSessionActive := true;
     sessionStartTime := Some now;
     sessionEndTime := None;
     events := [];
     riskScore := 0 |}.

Definition endSession (now : Z) (st : State) : State :=
  {| isSessionActive := false;
     sessionStartTime := sessionStartTime st;
     sessionEndTime := Some now;
     events := events st;
     riskScore := riskScore st |}.

Definition resetSession (st : State) : State := initialState.

Definition addEvent (event : SessionEvent.t) (st : State) : State :=
  {| isSessionActive := isSessionActive st;
     sessionStartTime := sessionStartTime st;
     sessionEndTime := sessionEndTime st;
     events := (events st ++ [event])%list;
     riskScore := riskScore st |}.

End SessionStore.

(** ** Tab-switch logging ([hooks/useMonitoring.ts]) *)

Definition COALESCE_WINDOW_MS : Z := 800.

Inductive TabSignal := VisibilityChange | Blur.

(** One browser signal: its kind, the clock reading when the handler
    runs and [document.visibilityState] at that moment. *)
Record TabTrigger := {
  signal : TabSignal;
  triggerNow : Z;
  visibilityState : string
}.

Definition tabSwitchEvent (createEventId : Z -> string) (now : Z)
  (reason visibilityState : string) : SessionEvent.t :=
  {| SessionEvent.id := createEventId now;
     SessionEvent.type := "TAB_SWITCH";
     SessionEvent.timestamp := now;
     SessionEvent.severity := warning;
     SessionEvent.metadata :=
       Some (list_to_map
         [ ("reason", Js.VString reason);
           ("visibilityState", Js.VString visibilityState) ]) |}.

(** [logTabSwitch]: the new value of [lastLoggedAt] and the event
    logged, if any. *)
Definition logTabSwitch (createEventId : Z -> string) (lastLoggedAt : Z)
  (now : Z) (reason visibilityState : string) : Z * list SessionEvent.t :=
  if now - lastLoggedAt <? COALESCE_WINDOW_MS then (lastLoggedAt, [])
  else (now, [tabSwitchEvent createEventId now reason visibilityState]).

(** The two listeners, [onVis] and [onBlur]. *)
Definition onTabTrigger (createEventId : Z -> string) (lastLoggedAt : Z)
  (tr : TabTrigger) : Z * list SessionEvent.t :=
  match signal tr with
  | VisibilityChange =>
      if String.eqb (visibilityState tr) "visible" then (lastLoggedAt, [])
      else logTabSwitch createEventId lastLoggedAt (triggerNow tr)
             "visibilitychange" (visibilityState tr)
  | Blur =>
      logTabSwitch createEventId lastLoggedAt (triggerNow tr) "blur"
        (visibilityState tr)
  end.

(** The signals of one activation of the effect, handled in order;
    [lastLoggedAt] starts at 0. *)
Definition runTabTriggers (createEventId : Z -> string) (lastLoggedAt : Z)
  (triggers : list TabTrigger) : Z * list SessionEvent.t :=
  fold_left
    (fun acc tr =>
       let out := onTabTrigger createEventId acc.1 tr in
       (out.1, (acc.2 ++ out.2)%list))
    triggers (lastLoggedAt, []).

(** ** Notions used to state the further properties *)

(** Every count of [a] is at most the corresponding count of [b]. *)
Definition countsLe (a b : RiskInput) : Prop :=
  gazeDeviationCount a <= gazeDeviationCount b
  /\ faceAbsenceCount a <= faceAbsenceCount b
  /\ objectDetectionCount a <= objectDetectionCount b
  /\ tabSwitchCount a <= tabSwitchCount b.

Definition levelRank (l : RiskLevel) : Z :=
  match l with
  | Low => 0
  | Medium => 1
  | High => 2
  end.

(** The four event types that enter the risk score. *)
Definition scoredType (type : string) : bool :=
  String.eqb type "GAZE_AWAY"
  || String.eqb type "FACE_ABSENT"
  || String.eqb type "OBJECT_DETECTED"
  || String.eqb type "TAB_SWITCH".

(** The duration an event of the given type carries, when it carries
    a numeric one. *)
Definition durationOf (type : string) (e : SessionEvent.t) : option number :=
  if String.eqb (SessionEvent.type e) type then
    match metadata_durationMs e with
    | Js.VNumber d => Some d
    | _ => None
    end
  else None.

(** Each timestamp of the list is at least [gap] after the one
    before it, the first one at least [gap] after [last]. *)
Fixpoint spacedBy (gap last : Z) (timestamps : list Z) : Prop :=
  match timestamps with
  | [] => True
  | t :: rest => gap <= t - last /\ spacedBy gap t rest
  end.

(** One step of the loop of [longestDuration]. *)
Definition longestStep (type : string) (longest : number) (e : SessionEvent.t)
  : number :=
  match durationOf type e with
  | Some d => Js.Math_max longest d
  | None => longest
  end.

(** A gaze event whose duration is NaN. *)
Definition nanDurationEvent : SessionEvent.t :=
  {| SessionEvent.id := "e0";
     SessionEvent.type := "GAZE_AWAY";
     SessionEvent.timestamp := 500;
     SessionEvent.severity := warning;
     SessionEvent.metadata := Some {[ "durationMs" := Js.VNumber NaN ]} |}.

(** The timestamps of the events of the given type, in log order. *)
Definition timestampsOf (type : string) (events : list SessionEvent.t) : list Z :=
  map SessionEvent.timestamp
    (List.filter (fun e => String.eqb (SessionEvent.type e) type) events).

(** The time held by the four bucket cells together. *)
Definition bucketSum (s : Refs) : Z :=
  tqFocusedRef s + tqMinorRef s + tqDeviationRef s + tqAbsenceRef s.

(** The three event types the inference loop logs. *)
Definition loopEventType (type : string) : bool :=
  String.eqb type "GAZE_AWAY"
  || String.eqb type "FACE_ABSENT"
  || String.eqb type "OBJECT_DETECTED".

(** What an event raised by a measurement tick at [frameNow] looks
    like: stamped with the tick's clock reading and carrying a numeric
    duration, either a GAZE_AWAY warning whose duration reaches the
    required sustain of the measurement, or a suspicious FACE_ABSENT
    whose duration reaches [FACE_ABSENCE_SUSTAIN_MS]. *)
Definition tickEventShape (frameNow : Z) (result : GazeResult.t)
  (e : SessionEvent.t) : Prop :=
  SessionEvent.timestamp e = frameNow
  /\ exists d,
       metadata_durationMs e = Js.VNumber (Js.ofZ d)
       /\ ((SessionEvent.type e = "GAZE_AWAY"
            /\ SessionEvent.severity e = warning
            /\ faceAbsent result = false
            /\ requiredSustainOf result <= d)
           \/ (SessionEvent.type e = "FACE_ABSENT"
               /\ SessionEvent.severity e = suspicious
               /\ faceAbsent result = true
               /\ FACE_ABSENCE_SUSTAIN_MS <= d)).

(** ** The gaze overlay ([components/ai-overlays/GazeOverlay.tsx]) *)

Definition gazeStateName (state : GazeState) : string :=
  match state with
  | NORMAL => "NORMAL"
  | MONITORING_DEVIATION => "MONITORING_DEVIATION"
  | ALERT_ACTIVE => "ALERT_ACTIVE"
  | ABSENT => "ABSENT"
  end.

Definition getStatusLabel (result : GazeResult.t) (state : string) : string :=
  if negb (GazeResult.faceDetected result) then "NO FACE"
  else if String.eqb state "ABSENT" then "ABSENT"
  else if String.eqb state "ALERT_ACTIVE" then "GAZE: AWAY"
  else if String.eqb state "MONITORING_DEVIATION" then "GAZE: MONITORING"
  else "GAZE: ON".

(** ** The gaze vector ([deriveGazeVector] of [lib/ai/gaze-tracker.ts]) *)

(** The part of a face prediction the gaze vector is derived from:
    the landmark points and the corners of the bounding box. *)
Record FaceBox := {
  landmarks : list (list number);
  topLeft : number * number;
  bottomRight : number * number
}.

(** [point[i]]: reading past the end of an array gives [undefined],
    which arithmetic turns into NaN. *)
Definition coordinate (point : list number) (i : nat) : number :=
  nth i point NaN.

(** The sums, differences and quotients are taken exactly.  The model
    stands for the code on coordinates of magnitude at most [2^1022]
    (see [coordinatesWithinRange]), where no sum or difference of two of
    them overflows to an infinity. *)
Definition deriveGazeVector (prediction : FaceBox) : GazeVector :=
  match nth_error (landmarks prediction) 0, nth_error (landmarks prediction) 1 with
  | Some rightEye, Some leftEye =>
      let eyeMidX :=
        Js.div (JsArith.add (coordinate rightEye 0) (coordinate leftEye 0))
          (Js.ofZ 2) in
      let eyeMidY :=
        Js.div (JsArith.add (coordinate rightEye 1) (coordinate leftEye 1))
          (Js.ofZ 2) in
      let faceCx :=
        Js.div (JsArith.add (topLeft prediction).1 (bottomRight prediction).1)
          (Js.ofZ 2) in
      let faceCy :=
        Js.div (JsArith.add (topLeft prediction).2 (bottomRight prediction).2)
          (Js.ofZ 2) in
      let faceW := JsArith.sub (bottomRight prediction).1 (topLeft prediction).1 in
      let faceH := JsArith.sub (bottomRight prediction).2 (topLeft prediction).2 in
      let halfW := Js.Math_max (Js.div faceW (Js.ofZ 2)) (Js.ofZ 1) in
      let halfH := Js.Math_max (Js.div faceH (Js.ofZ 2)) (Js.ofZ 1) in
      let x :=
        Js.Math_max (Js.ofZ (-1))
          (JsArith.Math_min (Js.ofZ 1) (Js.div (JsArith.sub eyeMidX faceCx) halfW)) in
      let y :=
        Js.Math_max (Js.ofZ (-1))
          (JsArith.Math_min (Js.ofZ 1) (Js.div (JsArith.sub eyeMidY faceCy) halfH)) in
      {| x := Js.neg x; y := y |}
  | _, _ => {| x := Js.ofZ 0; y := Js.ofZ 0 |}
  end.

(** [maxDeviation] as [runGazeInference] computes it from the gaze vector. *)
Definition maxDeviationOf (gaze : GazeVector) : number :=
  Js.Math_max (Js.Math_abs (x gaze)) (Js.Math_abs (y gaze)).

(** A number of the interval [-1, 1]. *)
Definition inSignedUnit (n : number) : Prop :=
  exists q, n = Num q /\ (-1 <= q <= 1)%Q.

(** All coordinates the gaze vector reads are numbers. *)
Definition numericFaceBox (prediction : FaceBox) : Prop :=
  (forall point, In point (firstn 2 (landmarks prediction)) ->
     exists a b rest, point = Num a :: Num b :: rest)
  /\ (exists a b, topLeft prediction = (Num a, Num b))
  /\ (exists a b, bottomRight prediction = (Num a, Num b)).

(** The coordinates the gaze vector reads have magnitude at most
    [2^1022], when they are numbers. *)
Definition COORDINATE_RANGE : Q := inject_Z (2 ^ 1022).

Definition withinRange (n : number) : Prop :=
  match n with
  | Num q => (Qabs q <= COORDINATE_RANGE)%Q
  | NaN => True
  end.

Definition coordinatesWithinRange (prediction : FaceBox) : Prop :=
  (forall point, In point (firstn 2 (landmarks prediction)) ->
     withinRange (coordinate point 0) /\ withinRange (coordinate point 1))
  /\ withinRange (topLeft prediction).1
  /\ withinRange (topLeft prediction).2
  /\ withinRange (bottomRight prediction).1
  /\ withinRange (bottomRight prediction).2.

Definition sampleFaceBox : FaceBox :=
  {| landmarks := [[Js.ofZ 120; Js.ofZ 90]; [Js.ofZ 160; Js.ofZ 92];
                   [Js.ofZ 140; Js.ofZ 110]];
     topLeft := (Js.ofZ 100, Js.ofZ 60);
     bottomRight := (Js.ofZ 200, Js.ofZ 180) |}.

(** The face [runGazeInference] settles on: the first of the most
    probable ones, a missing probability counting as 0. *)
Definition pickBest (first : FacePrediction) (predictions : list FacePrediction)
  : FacePrediction :=
  fold_left
    (fun a b =>
       if Js.gt (default (Js.ofZ 0) (probability b))
                (default (Js.ofZ 0) (probability a))
       then b else a)
    predictions first.

(** Every prediction reports a probability that is a number. *)
Definition numericProbabilities (predictions : list FacePrediction) : Prop :=
  Forall (fun p => exists q, probability p = Some (Num q)) predictions.

(** The label the overlay shows for what the loop publishes after a
    measurement: the displayed copy of the result and the gaze state. *)
Definition publishedLabel (result : GazeResult.t) (state : GazeState) : string :=
  getStatusLabel (displayResult result state) (gazeStateName state).

(** ** Face centering ([isFaceCentered] of [lib/ai/gaze-tracker.ts]) *)

Definition FACE_CENTER_TOLERANCE_X : number := Num (20 # 100).
Definition FACE_CENTER_TOLERANCE_Y : number := Num (25 # 100).

Definition isFaceCentered (prediction : FaceBox) (videoWidth videoHeight : number)
  : bool :=
  let faceCenterX :=
    Js.div (JsArith.add (topLeft prediction).1 (bottomRight prediction).1)
      (Js.ofZ 2) in
  let faceCenterY :=
    Js.div (JsArith.add (topLeft prediction).2 (bottomRight prediction).2)
      (Js.ofZ 2) in
  let frameCenterX := Js.div videoWidth (Js.ofZ 2) in
  let frameCenterY := Js.div videoHeight (Js.ofZ 2) in
  Js.le (Js.Math_abs (JsArith.sub faceCenterX frameCenterX))
    (Js.mul videoWidth FACE_CENTER_TOLERANCE_X)
  && Js.le (Js.Math_abs (JsArith.sub faceCenterY frameCenterY))
       (Js.mul videoHeight FACE_CENTER_TOLERANCE_Y).

(** A box given by the coordinates of its corners. *)
Definition boxOf (points : list (list number)) (left top right bottom : Q)
  : FaceBox :=
  {| landmarks := points;
     topLeft := (Num left, Num top);
     bottomRight := (Num right, Num bottom) |}.

(** ** The elapsed-time label ([formatElapsed] of [hooks/useMonitoring.ts]) *)

(** [s.padStart(2, "0")] *)
Definition padStart2 (s : string) : string :=
  match String.length s with
  | O => "00"
  | S O => "0" +:+ s
  | _ => s
  end.

(** [ms] is a whole number of milliseconds; [Math.floor] of a
    quotient is [Z.div], the remainder [%] is [Z.rem], and [String] of
    an integer is its decimal notation. *)
Definition formatElapsed (ms : Z) : string :=
  let totalSeconds := ms / 1000 in
  let hours := totalSeconds / 3600 in
  let minutes := Z.rem totalSeconds 3600 / 60 in
  let seconds := Z.rem totalSeconds 60 in
  let hh := padStart2 (pretty hours) in
  let mm := padStart2 (pretty minutes) in
  let ss := padStart2 (pretty seconds) in
  if 0 <? hours then hh +:+ ":" +:+ mm +:+ ":" +:+ ss
  else mm +:+ ":" +:+ ss.

(** Reading back a two-digit field and a label of the form mm:ss. *)
Definition digitValue (c : ascii) : option Z :=
  let n := Z.of_nat (nat_of_ascii c) - 48 in
  if (0 <=? n) && (n <=? 9) then Some n else None.

Definition readTwoDigits (s : string) : option Z :=
  match s with
  | String a (String b EmptyString) =>
      match digitValue a, digitValue b with
      | Some x, Some y => Some (10 * x + y)
      | _, _ => None
      end
  | _ => None
  end.

Definition readElapsedSeconds (label : string) : option Z :=
  match label with
  | String a (String b (String c (String d (String e EmptyString)))) =>
      match readTwoDigits (String a (String b EmptyString)),
            readTwoDigits (String d (String e EmptyString)) with
      | Some m, Some s =>
          if Ascii.eqb c ":" then Some (60 * m + s) else None
      | _, _ => None
      end
  | _ => None
  end.

(** ** [summarizeEvents] ([lib/utils/metrics-aggregator.ts]) *)

(** [type.replace(/_/g, " ")] *)
Fixpoint replaceUnderscores (s : string) : string :=
  match s with
  | EmptyString => EmptyString
  | String c rest =>
      String (if Ascii.eqb c "_" then " "%char else c) (replaceUnderscores rest)
  end.

(** [counts[type] = (counts[type] || 0) + 1] on an object whose keys
    keep their insertion order. *)
Fixpoint bumpCount (type : string) (counts : list (string * nat))
  : list (string * nat) :=
  match counts with
  | [] => [(type, 1%nat)]
  | (key, count) :: rest =>
      if String.eqb key type then (key, S count) :: rest
      else (key, count) :: bumpCount type rest
  end.

(** The object [counts] once [forEach] has gone through the relevant
    events. *)
Definition countsOf (relevant : list SessionEvent.t) : list (string * nat) :=
  fold_left (fun counts e => bumpCount (SessionEvent.type e) counts)
    relevant [].

Definition summarizeEvents (events : list SessionEvent.t) : string :=
  let relevant :=
    List.filter (fun e => scoredType (SessionEvent.type e)) events in
  if (length relevant =? 0)%nat then "No critical events flagged."
  else
    let counts := countsOf relevant in
    let summary :=
      String.concat ", "
        (map (fun entry =>
                pretty entry.2 +:+ "x " +:+ replaceUnderscores entry.1)
           counts) in
    "Summary: " +:+ summary +:+ ". Total flagged: "
      +:+ pretty (length relevant).

(** [counts[type] || 0] *)
Fixpoint countFor (type : string) (counts : list (string * nat)) : nat :=
  match counts with
  | [] => 0%nat
  | (key, count) :: rest =>
      if String.eqb key type then count else countFor type rest
  end.

(** ** The dashboard page ([app/page.tsx]) *)

Module Page.

Definition MIN_DURATION_FOR_REPORT_MS : Z := 5000.

(** Truthiness of a [number | null] cell: [null] and [0] are falsy. *)
Definition truthy (t : option Z) : bool :=
  match t with
  | Some v => negb (v =? 0)
  | None => false
  end.

Definition computedDurationMs (st : SessionStore.State) (now : Z) : Z :=
  let sessionStartTime := SessionStore.sessionStartTime st in
  let sessionEndTime := SessionStore.sessionEndTime st in
  if truthy sessionEndTime && truthy sessionStartTime
  then default 0 sessionEndTime - default 0 sessionStartTime
  else if SessionStore.isSessionActive st && truthy sessionStartTime
  then now - default 0 sessionStartTime
  else 0.

Definition sessionEnded (st : SessionStore.State) : bool :=
  negb (SessionStore.isSessionActive st)
  && bool_decide (SessionStore.sessionStartTime st <> None)
  && bool_decide (SessionStore.sessionEndTime st <> None).

(** [hasReport] stands for [gemini.report] being set. *)
Definition canGenerateReport (st : SessionStore.State) (now : Z)
  (hasReport : bool) : bool :=
  sessionEnded st
  && (0 <? length (SessionStore.events st))%nat
  && (MIN_DURATION_FOR_REPORT_MS <=? computedDurationMs st now)
  && negb hasReport.

(** [handleEndSession]: the snapshot is frozen from the store as it
    is, at the clock reading [endNow]; then [endSession()] runs, at the
    reading [storeNow].  The result is the frozen-payload cell and the
    store. *)
Definition handleEndSession (frozen : option GeminiPayload.t)
  (st : SessionStore.State) (endNow storeNow : Z) (focusRatio : number)
  : option GeminiPayload.t * SessionStore.State :=
  let sessionStartTime := SessionStore.sessionStartTime st in
  let frozen' :=
    if SessionStore.isSessionActive st && truthy sessionStartTime
    then
      let durationMs := endNow - default 0 sessionStartTime in
      Some (buildGeminiPayload (SessionStore.events st) (Js.ofZ durationMs)
              focusRatio)
    else frozen in
  (frozen', SessionStore.endSession storeNow st).

(** [handleGenerateReport]: the payload handed to [generateReport], if
    the handler gets that far. *)
Definition handleGenerateReport (frozen : option GeminiPayload.t)
  (st : SessionStore.State) (focusRatio : number) : option GeminiPayload.t :=
  let sessionStartTime := SessionStore.sessionStartTime st in
  let sessionEndTime := SessionStore.sessionEndTime st in
  match frozen with
  | Some payload => Some payload
  | None =>
      if truthy sessionStartTime && truthy sessionEndTime
      then
        let durationMs := default 0 sessionEndTime - default 0 sessionStartTime in
        Some (buildGeminiPayload (SessionStore.events st) (Js.ofZ durationMs)
                focusRatio)
      else None
  end.

End Page.

(** The store of a session in progress: started at [t0], the given
    events logged in order. *)
Definition activeSession (t0 : Z) (logged : list SessionEvent.t)
  (st : SessionStore.State) : SessionStore.State :=
  fold_left (fun st e => SessionStore.addEvent e st) logged
    (SessionStore.startSession t0 st).

(** * Properties *)

(** ** Arithmetic helpers *)

Lemma Qround_inject_Z (z : Z) : Js.Qround (inject_Z z) = z.
Proof.
  unfold Js.Qround.
  assert (H : (inject_Z z <= inject_Z z + (1 # 2) < inject_Z (z + 1))%Q).
  { rewrite inject_Z_plus. change (inject_Z 1) with 1%Q. lra. }
  destruct H as [Hlo Hhi].
  apply Z.le_antisymm.
  - apply Z.lt_succ_r. rewrite <- Z.add_1_r.
    rewrite Zlt_Qlt. eapply Qle_lt_trans; [apply Qfloor_le | exact Hhi].
  - rewrite <- (Qfloor_Z z) at 1. apply Qfloor_resp_le. exact Hlo.
Qed.

(** ** Risk calculator *)

Lemma score_eq (input : RiskInput) :
  score (calculateRiskScore input) = Z.min 100 (Z.max 0 (rawRisk input)).
Proof. unfold calculateRiskScore. simpl. now rewrite Qround_inject_Z. Qed.

Lemma level_eq (input : RiskInput) :
  level (calculateRiskScore input) =
  if 70 <=? score (calculateRiskScore input) then High
  else if 35 <=? score (calculateRiskScore input) then Medium
  else Low.
Proof. reflexivity. Qed.

Lemma calculateRiskScore_raw (a b : RiskInput) :
  rawRisk a = rawRisk b -> calculateRiskScore a = calculateRiskScore b.
Proof. intros H. unfold calculateRiskScore. now rewrite H. Qed.

(** C3. For every risk input the score is an integer between 0 and
    100; the output depends on nothing but the four counts, so equal
    inputs give equal outputs; and the level is High exactly from 70
    up, Medium exactly from 35 to 69, Low exactly below 35. *)
Theorem calculateRiskScore_bounded_deterministic
  (a b : RiskInput) (Hsame : sameCounts a b) :
  0 <= score (calculateRiskScore a) <= 100
  /\ calculateRiskScore a = calculateRiskScore b
  /\ (level (calculateRiskScore a) = High <-> 70 <= score (calculateRiskScore a))
  /\ (level (calculateRiskScore a) = Medium
      <-> 35 <= score (calculateRiskScore a) < 70)
  /\ (level (calculateRiskScore a) = Low <-> score (calculateRiskScore a) < 35).
Proof.
  split; [rewrite score_eq; lia |].
  split.
  { apply calculateRiskScore_raw. destruct Hsame as (Hg & Ha & Ho & Ht).
    unfold rawRisk. now rewrite Hg, Ha, Ho, Ht. }
  rewrite level_eq.
  destruct (Z.leb_spec 70 (score (calculateRiskScore a))) as [H70 | H70];
    [| destruct (Z.leb_spec 35 (score (calculateRiskScore a))) as [H35 | H35]];
    repeat split; intros; try discriminate; try lia; reflexivity.
Qed.

Lemma calculateRiskScore_bounded_deterministic_witness :
  0 <= score (calculateRiskScore (allCounts 2 (Js.ofZ 60000))) <= 100
  /\ calculateRiskScore (allCounts 2 (Js.ofZ 60000))
     = calculateRiskScore (allCounts 2 (Js.ofZ 90000)).
Proof.
  assert (Hsame : sameCounts (allCounts 2 (Js.ofZ 60000))
                    (allCounts 2 (Js.ofZ 90000)))
    by (repeat split).
  pose proof
    (calculateRiskScore_bounded_deterministic (allCounts 2 (Js.ofZ 60000))
       (allCounts 2 (Js.ofZ 90000)) Hsame)
    as (H1 & H2 & _).
  split; assumption.
Defined.

Lemma impact_saturates (w : RiskWeight) (c c' : Z) :
  raisedBeyondCap (cap w) c c' -> impact c' w = impact c w.
Proof.
  intros [-> | [Hc Hc']]; [reflexivity |].
  unfold impact. rewrite !Z.min_r by lia. reflexivity.
Qed.

(** C4. The score is the sum of the four contributions
    [min(count, cap) * weight], with (weight, cap) equal to (8, 5),
    (15, 3), (20, 3) and (6, 5), clamped to 0..100, and the level is
    read off that score; a gaze count of 100 scores like a gaze count
    of 5 whatever the other counts are, raising any count that has
    reached its cap changes nothing, and with all four counts at 100
    the capped sum is 175 and the score exactly 100. *)
Theorem calculateRiskScore_cap_saturation
  (i j : RiskInput) (duration : number)
  (Hgaze : raisedBeyondCap 5 (gazeDeviationCount i) (gazeDeviationCount j))
  (Habsence : raisedBeyondCap 3 (faceAbsenceCount i) (faceAbsenceCount j))
  (Hobject : raisedBeyondCap 3 (objectDetectionCount i) (objectDetectionCount j))
  (Htab : raisedBeyondCap 5 (tabSwitchCount i) (tabSwitchCount j)) :
  score (calculateRiskScore i)
  = Z.min 100
      (Z.max 0
         (Z.min (gazeDeviationCount i) 5 * 8
          + Z.min (faceAbsenceCount i) 3 * 15
          + Z.min (objectDetectionCount i) 3 * 20
          + Z.min (tabSwitchCount i) 5 * 6))
  /\ level (calculateRiskScore i)
     = (if 70 <=? score (calculateRiskScore i) then High
        else if 35 <=? score (calculateRiskScore i) then Medium
        else Low)
  /\ calculateRiskScore (withGaze 100 i) = calculateRiskScore (withGaze 5 i)
  /\ calculateRiskScore j = calculateRiskScore i
  /\ Z.min 100 5 * 8 + Z.min 100 3 * 15 + Z.min 100 3 * 20 + Z.min 100 5 * 6
     = 175
  /\ calculateRiskScore (allCounts 100 duration)
     = {| score := 100; level := High |}.
Proof.
  split; [rewrite score_eq; reflexivity |].
  split; [apply level_eq |].
  split; [apply calculateRiskScore_raw; reflexivity |].
  split.
  { apply calculateRiskScore_raw. unfold rawRisk.
    rewrite (impact_saturates RISK_WEIGHTS.gazeDeviation _ _ Hgaze),
      (impact_saturates RISK_WEIGHTS.faceAbsence _ _ Habsence),
      (impact_saturates RISK_WEIGHTS.objectDetection _ _ Hobject),
      (impact_saturates RISK_WEIGHTS.tabSwitch _ _ Htab).
    reflexivity. }
  split; [reflexivity |].
  vm_compute. reflexivity.
Qed.

Lemma calculateRiskScore_cap_saturation_witness :
  calculateRiskScore (allCounts 7 (Js.ofZ 60000))
  = calculateRiskScore (allCounts 5 (Js.ofZ 60000))
  /\ score (calculateRiskScore (allCounts 100 (Js.ofZ 60000))) = 100.
Proof.
  assert (H5 : raisedBeyondCap 5 5 7) by (right; lia).
  assert (H3 : raisedBeyondCap 3 5 7) by (right; lia).
  pose proof
    (calculateRiskScore_cap_saturation (allCounts 5 (Js.ofZ 60000))
       (allCounts 7 (Js.ofZ 60000)) (Js.ofZ 60000) H5 H3 H3 H5)
    as (_ & _ & _ & Hij & _ & Hmax).
  split; [exact Hij | now rewrite Hmax].
Defined.

(** ** Metrics aggregator *)

(** C9. On the log [GazeAway (3000 ms), FaceAbsent (2500 ms), TabSwitch]
    with a duration of 120000 ms and a focus ratio of 0.88, the payload
    is 120 s, 0.88, one gaze incident, 3 s longest gaze away, one face
    absence, no object, one tab switch and risk 29 = 8 + 15 + 6, which
    is level Low. *)
Theorem buildGeminiPayload_example :
  GeminiPayload.eqb
    (buildGeminiPayload exampleEvents (Js.ofZ 120000) (Num (88 # 100)))
    examplePayload = true
  /\ rawRisk (buildRiskInput exampleEvents (Js.ofZ 120000)) = 8 + 15 + 6
  /\ calculateRiskScore (buildRiskInput exampleEvents (Js.ofZ 120000))
     = {| score := 29; level := Low |}.
Proof. repeat split; vm_compute; reflexivity. Qed.

(** ** Comparisons of numbers *)

Lemma lt_Num (a b : Q) : Js.lt (Num a) (Num b) = true <-> (a < b)%Q.
Proof.
  simpl. rewrite negb_true_iff, <- not_true_iff_false, Qle_bool_iff.
  split; [apply Qnot_le_lt | apply Qlt_not_le].
Qed.

Lemma le_Num (a b : Q) : Js.le (Num a) (Num b) = true <-> (a <= b)%Q.
Proof. simpl. apply Qle_bool_iff. Qed.

Lemma lt_le_false (a b c : Q) :
  (b <= c)%Q -> Js.le (Num c) (Num a) = true -> Js.lt (Num a) (Num b) = false.
Proof.
  intros Hbc Hca. apply le_Num in Hca.
  apply not_true_iff_false. rewrite lt_Num. lra.
Qed.

(** ** Gaze classifier *)

Lemma isInSafeZone_iff (yaw pitch : number) :
  isInSafeZone yaw pitch = true <-> absAtMost yaw 18 /\ absAtMost pitch 22.
Proof.
  unfold isInSafeZone, absAtMost.
  rewrite andb_true_iff. split.
  - intros [Hy Hp]. destruct yaw as [qy |], pitch as [qp |]; try discriminate.
    apply le_Num in Hy, Hp. apply Qabs_Qle_condition in Hy, Hp.
    split; eexists; (split; [reflexivity | assumption]).
  - intros [(qy & -> & Hy) (qp & -> & Hp)].
    split; apply le_Num, Qabs_Qle_condition; assumption.
Qed.

Lemma Qabs_gt (q b : Q) : (b < Qabs q)%Q <-> (q < - b \/ b < q)%Q.
Proof.
  pose proof (Qabs_Qle_condition q b) as H.
  split.
  - intros Hlt. destruct (Qlt_le_dec q (- b)) as [? | Hlo]; [now left |].
    destruct (Qlt_le_dec b q) as [? | Hhi]; [now right |].
    exfalso. apply (Qlt_not_le _ _ Hlt). apply H. now split.
  - intros Hor. apply Qnot_le_lt. intros Hle. apply H in Hle. lra.
Qed.

Lemma isStrongDeviationCheck_iff (yaw pitch : number) :
  isStrongDeviationCheck yaw pitch = true
  <-> absAbove yaw 25 \/ isBelow pitch (- 30) \/ isAbove pitch 35.
Proof.
  unfold isStrongDeviationCheck, absAbove, isBelow, isAbove, Js.gt.
  split.
  - destruct (Js.lt STRONG_YAW_DEG (Js.Math_abs yaw)) eqn:Hy.
    { intros _. left. destruct yaw as [qy |]; [| discriminate].
      apply lt_Num, Qabs_gt in Hy. eauto. }
    destruct (Js.lt pitch (Js.neg STRONG_PITCH_UP_DEG)) eqn:Hup.
    { intros _. right; left. destruct pitch as [qp |]; [| discriminate].
      apply lt_Num in Hup. eauto. }
    destruct (Js.lt STRONG_PITCH_DOWN_DEG pitch) eqn:Hdown; [| discriminate].
    intros _. right; right. destruct pitch as [qp |]; [| discriminate].
    apply lt_Num in Hdown. eauto.
  - intros [(qy & -> & Hy) | [(qp & -> & Hp) | (qp & -> & Hp)]].
    + assert (H : Js.lt STRONG_YAW_DEG (Js.Math_abs (Num qy)) = true)
        by (apply (proj2 (lt_Num _ _)), Qabs_gt; exact Hy).
      now rewrite H.
    + assert (H : Js.lt (Num qp) (Js.neg STRONG_PITCH_UP_DEG) = true)
        by (apply (proj2 (lt_Num _ _)); exact Hp).
      rewrite H. now destruct (Js.lt STRONG_YAW_DEG (Js.Math_abs yaw)).
    + assert (H : Js.lt STRONG_PITCH_DOWN_DEG (Num qp) = true)
        by (apply (proj2 (lt_Num _ _)); exact Hp).
      rewrite H. destruct (Js.lt STRONG_YAW_DEG (Js.Math_abs yaw)); [reflexivity |].
      now destruct (Js.lt (Num qp) (Js.neg STRONG_PITCH_UP_DEG)).
Qed.

Lemma safe_strong_exclusive (yaw pitch : number) :
  isInSafeZone yaw pitch && isStrongDeviationCheck yaw pitch = false.
Proof.
  destruct (isInSafeZone yaw pitch) eqn:Hsafe; [| reflexivity].
  destruct (isStrongDeviationCheck yaw pitch) eqn:Hstrong; [| reflexivity].
  exfalso.
  apply isInSafeZone_iff in Hsafe. apply isStrongDeviationCheck_iff in Hstrong.
  destruct Hsafe as [(qy & -> & Hy) (qp & -> & Hp)].
  destruct Hstrong as [(q & [= <-] & H) | [(q & [= <-] & H) | (q & [= <-] & H)]];
    lra.
Qed.

(** Every result of [runGazeInference] with a detected face carries
    the classifier's flags. *)
Lemma runGazeInference_classified (now : Z) (predictions : list FacePrediction) :
  GazeResult.faceDetected (runGazeInference now predictions) = true ->
  classifiedByAngles (runGazeInference now predictions).
Proof.
  unfold runGazeInference. destruct predictions as [| first rest].
  { discriminate. }
  destruct (Js.lt _ MIN_FACE_CONFIDENCE); [discriminate |].
  intros _. split; reflexivity.
Qed.

(** ** Measurement ticks: the branch taken *)

Lemma gazeTick_absent (createEventId : Z -> string) (s : Refs)
  (frameNow deltaMs : Z) (result : GazeResult.t) :
  faceAbsent result = true ->
  gazeTick createEventId s frameNow deltaMs result
  = absenceTick createEventId s frameNow deltaMs.
Proof. intros H. unfold gazeTick. now rewrite H. Qed.

Lemma gazeTick_present (createEventId : Z -> string) (s : Refs)
  (frameNow deltaMs : Z) (result : GazeResult.t) :
  faceAbsent result = false ->
  gazeTick createEventId s frameNow deltaMs result
  = presentTick createEventId s frameNow deltaMs result.
Proof. intros H. unfold gazeTick. now rewrite H. Qed.

Lemma absenceTick_path (createEventId : Z -> string) (s : Refs)
  (frameNow deltaMs : Z) :
  tookAbsencePath s deltaMs (absenceTick createEventId s frameNow deltaMs).1.
Proof. repeat split. simpl. eauto. Qed.

Lemma presentTick_path (createEventId : Z -> string) (s : Refs)
  (frameNow deltaMs : Z) (result : GazeResult.t) :
  tookGazePath s deltaMs (presentTick createEventId s frameNow deltaMs result).1.
Proof.
  unfold presentTick, tookGazePath.
  destruct (GazeResult.inSafeZone result);
    [| destruct (GazeResult.isStrongDeviation result)]; simpl;
    repeat split; lia.
Qed.

Lemma absence_gaze_paths_differ (s : Refs) (deltaMs : Z) (s' : Refs) :
  tookAbsencePath s deltaMs s' -> tookGazePath s deltaMs s' -> False.
Proof.
  intros (_ & [t Ht] & _) (Hnone & _). congruence.
Qed.

(** C6. The classifier reports the safe zone exactly for a yaw within
    18 degrees and a pitch within 22 degrees, and a strong deviation
    exactly for a yaw beyond 25 degrees, a pitch below -30 or a pitch
    above 35; a face-present measurement with neither flag is minor
    movement, and its tick puts the machine in NORMAL with no
    deviation start and no event, whatever the state was. *)
Theorem gaze_classifier_thresholds
  (createEventId : Z -> string) (yaw pitch : number)
  (s : Refs) (frameNow deltaMs : Z) (result : GazeResult.t)
  (Hclass : classifiedByAngles result)
  (Hminor : minorMovementTick result = true) :
  (isInSafeZone yaw pitch = true <-> absAtMost yaw 18 /\ absAtMost pitch 22)
  /\ (isStrongDeviationCheck yaw pitch = true
      <-> absAbove yaw 25 \/ isBelow pitch (- 30) \/ isAbove pitch 35)
  /\ isInSafeZone yaw pitch && isStrongDeviationCheck yaw pitch = false
  /\ isInSafeZone (GazeResult.yawDeg result) (GazeResult.pitchDeg result) = false
  /\ isStrongDeviationCheck (GazeResult.yawDeg result) (GazeResult.pitchDeg result)
     = false
  /\ gazeStateRef (gazeTick createEventId s frameNow deltaMs result).1 = NORMAL
  /\ deviationStartRef (gazeTick createEventId s frameNow deltaMs result).1 = None
  /\ lastGazeAlertTimeRef (gazeTick createEventId s frameNow deltaMs result).1
     = lastGazeAlertTimeRef s
  /\ (gazeTick createEventId s frameNow deltaMs result).2 = [].
Proof.
  split; [apply isInSafeZone_iff |].
  split; [apply isStrongDeviationCheck_iff |].
  split; [apply safe_strong_exclusive |].
  unfold minorMovementTick in Hminor.
  apply andb_true_iff in Hminor as [Hminor Hstrong].
  apply andb_true_iff in Hminor as [Hpresent Hsafe].
  apply negb_true_iff in Hpresent, Hsafe, Hstrong.
  destruct Hclass as [Hs Hd].
  split; [now rewrite <- Hs |].
  split; [now rewrite <- Hd |].
  rewrite gazeTick_present by assumption.
  unfold presentTick. rewrite Hsafe, Hstrong. simpl. repeat split.
Qed.

Lemma gaze_classifier_thresholds_witness :
  isInSafeZone (Js.ofZ 20) (Js.ofZ 0) = false
  /\ gazeStateRef
       (gazeTick (fun _ => "id") initialRefs 10000 100
          (runGazeInference 10000
             [measuredFace (Num (9 # 10)) (Js.ofZ 20) (Js.ofZ 0) false])).1
     = NORMAL.
Proof.
  pose proof
    (gaze_classifier_thresholds (fun _ => "id") (Js.ofZ 20) (Js.ofZ 0)
       initialRefs 10000 100
       (runGazeInference 10000
          [measuredFace (Num (9 # 10)) (Js.ofZ 20) (Js.ofZ 0) false]))
    as H.
  destruct H as (_ & _ & _ & Hsafe & _ & Hstate & _).
  - split; reflexivity.
  - reflexivity.
  - split; [exact Hsafe | exact Hstate].
Defined.

(** ** Malformed confidence *)

Lemma lt_MIN_FACE_CONFIDENCE (c : number) :
  Js.lt c MIN_FACE_CONFIDENCE = true <-> isBelow c (6 # 10).
Proof.
  unfold isBelow. split.
  - destruct c as [q |]; [| discriminate].
    intros H. apply lt_Num in H. eauto.
  - intros (q & -> & H). now apply lt_Num.
Qed.

(** The measurement [nanFaceResult] has a detected face and confidence
    NaN, yet its tick goes through the gaze state machine: from the
    initial cells it records no absence start, leaves the absence
    bucket empty and ends in NORMAL.  So a malformed confidence is not
    always treated as face absent. *)
Lemma nan_confidence_takes_gaze_path :
  GazeResult.faceDetected nanFaceResult = true
  /\ GazeResult.faceDetectionConfidence nanFaceResult = NaN
  /\ gazeStateRef (gazeTick (fun _ => "id") initialRefs 10000 100 nanFaceResult).1
     = NORMAL
  /\ absenceStartRef (gazeTick (fun _ => "id") initialRefs 10000 100 nanFaceResult).1
     = None
  /\ tqAbsenceRef (gazeTick (fun _ => "id") initialRefs 10000 100 nanFaceResult).1
     = 0
  /\ ~ malformedTreatedAsAbsent.
Proof.
  repeat (split; [reflexivity |]).
  intros Hclaim.
  specialize (Hclaim (fun _ => "id") initialRefs 10000 100 nanFaceResult).
  destruct Hclaim as (Hstate & _); [reflexivity | left; reflexivity |].
  discriminate Hstate.
Qed.

(** C8, as the code has it. A tick whose measurement has a detected
    face takes the absence branch exactly when the confidence is a
    number below 0.6, negative values included: the state becomes
    ABSENT, an absence start is on record and the absence bucket grows
    by the tick's time.  When the confidence is NaN or above 1 the
    comparison with 0.6 is false and the tick goes through the gaze
    state machine. The tick is a total function of its inputs. *)
Theorem confidence_below_threshold_is_absence
  (createEventId : Z -> string) (s : Refs) (frameNow deltaMs : Z)
  (result : GazeResult.t)
  (Hdetected : GazeResult.faceDetected result = true) :
  (faceAbsent result = true
   <-> isBelow (GazeResult.faceDetectionConfidence result) (6 # 10))
  /\ (isBelow (GazeResult.faceDetectionConfidence result) 0 ->
      faceAbsent result = true)
  /\ (GazeResult.faceDetectionConfidence result = NaN
      \/ isAbove (GazeResult.faceDetectionConfidence result) 1 ->
      faceAbsent result = false)
  /\ (faceAbsent result = true ->
      tookAbsencePath s deltaMs
        (gazeTick createEventId s frameNow deltaMs result).1)
  /\ (faceAbsent result = false ->
      tookGazePath s deltaMs
        (gazeTick createEventId s frameNow deltaMs result).1).
Proof.
  assert (Hiff : faceAbsent result = true
                 <-> isBelow (GazeResult.faceDetectionConfidence result) (6 # 10)).
  { unfold faceAbsent. rewrite Hdetected. simpl. apply lt_MIN_FACE_CONFIDENCE. }
  split; [exact Hiff |].
  split.
  { intros (q & Hq & Hneg). apply Hiff. exists q. split; [exact Hq | lra]. }
  split.
  { intros Hbad. apply not_true_iff_false. rewrite Hiff.
    intros (q & Hq & Hlow).
    destruct Hbad as [Hnan | (q' & Hq' & Hhigh)]; [congruence |].
    rewrite Hq in Hq'. injection Hq' as <-. lra. }
  split.
  - intros H. rewrite gazeTick_absent by exact H. apply absenceTick_path.
  - intros H. rewrite gazeTick_present by exact H. apply presentTick_path.
Qed.

Lemma confidence_below_threshold_is_absence_witness :
  tookGazePath initialRefs 100
    (gazeTick (fun _ => "id") initialRefs 10000 100 nanFaceResult).1.
Proof.
  pose proof
    (confidence_below_threshold_is_absence (fun _ => "id") initialRefs 10000 100
       nanFaceResult)
    as H.
  destruct H as (_ & _ & _ & _ & Hgaze).
  - reflexivity.
  - apply Hgaze. reflexivity.
Defined.

(** ** Runs of ticks *)

Lemma stepTick_pair (createEventId : Z -> string) (s : Refs)
  (acc : list SessionEvent.t) (tk : Tick) :
  stepTick createEventId (s, acc) tk
  = ((gazeTick createEventId s (tickNow tk) (tickDelta tk) (tickResult tk)).1,
     (acc
      ++ (gazeTick createEventId s (tickNow tk) (tickDelta tk) (tickResult tk)).2)%list).
Proof. reflexivity. Qed.

Lemma fold_stepTick (createEventId : Z -> string) (ticks : list Tick) :
  forall (s : Refs) (acc : list SessionEvent.t),
    fold_left (stepTick createEventId) ticks (s, acc)
    = ((runTicks createEventId s ticks).1,
       (acc ++ (runTicks createEventId s ticks).2)%list).
Proof.
  unfold runTicks.
  induction ticks as [| tk ticks IH]; intros s acc; cbn [fold_left].
  - cbn. now rewrite app_nil_r.
  - rewrite !stepTick_pair, IH. symmetry. rewrite IH. cbn [fst snd app].
    now rewrite app_assoc.
Qed.

Lemma runTicks_cons (createEventId : Z -> string) (s : Refs)
  (tk : Tick) (ticks : list Tick) :
  runTicks createEventId s (tk :: ticks)
  = ((runTicks createEventId
        (gazeTick createEventId s (tickNow tk) (tickDelta tk) (tickResult tk)).1
        ticks).1,
     ((gazeTick createEventId s (tickNow tk) (tickDelta tk) (tickResult tk)).2
      ++ (runTicks createEventId
            (gazeTick createEventId s (tickNow tk) (tickDelta tk) (tickResult tk)).1
            ticks).2)%list).
Proof.
  unfold runTicks at 1. cbn [fold_left].
  now rewrite stepTick_pair, fold_stepTick.
Qed.

Lemma runTicks_app (createEventId : Z -> string) (s : Refs)
  (ticks more : list Tick) :
  runTicks createEventId s (ticks ++ more)
  = ((runTicks createEventId (runTicks createEventId s ticks).1 more).1,
     ((runTicks createEventId s ticks).2
      ++ (runTicks createEventId (runTicks createEventId s ticks).1 more).2)%list).
Proof.
  unfold runTicks at 1. rewrite fold_left_app.
  fold (runTicks createEventId s ticks).
  destruct (runTicks createEventId s ticks) as [s1 evs].
  now rewrite fold_stepTick.
Qed.

(** ** Face-present ticks, gate by gate *)

Lemma strongDeviationTick_inv (result : GazeResult.t) :
  strongDeviationTick result = true ->
  faceAbsent result = false
  /\ GazeResult.inSafeZone result = false
  /\ GazeResult.isStrongDeviation result = true.
Proof.
  unfold strongDeviationTick. rewrite !andb_true_iff, !negb_true_iff. tauto.
Qed.

Lemma reset_tick (createEventId : Z -> string) (s : Refs) (tk : Tick) :
  resetTick tk ->
  let out := gazeTick createEventId s (tickNow tk) (tickDelta tk) (tickResult tk) in
  gazeStateRef out.1 = NORMAL
  /\ deviationStartRef out.1 = None
  /\ lastGazeAlertTimeRef out.1 = lastGazeAlertTimeRef s
  /\ out.2 = [].
Proof.
  unfold resetTick, safeZoneTick, minorMovementTick.
  rewrite !andb_true_iff, !negb_true_iff.
  intros [[Hp Hs] | [[Hp Hs] Hd]]; simpl;
    rewrite gazeTick_present by exact Hp; unfold presentTick; rewrite Hs;
    [| rewrite Hd]; simpl; repeat split.
Qed.

Lemma strong_tick_absent (createEventId : Z -> string) (s : Refs)
  (frameNow deltaMs : Z) (result : GazeResult.t) :
  gazeStateRef s = ABSENT ->
  strongDeviationTick result = true ->
  let out := gazeTick createEventId s frameNow deltaMs result in
  gazeStateRef out.1 = ABSENT
  /\ deviationStartRef out.1 = deviationStartRef s
  /\ lastGazeAlertTimeRef out.1 = lastGazeAlertTimeRef s
  /\ tqDeviationRef out.1 = tqDeviationRef s + deltaMs
  /\ out.2 = [].
Proof.
  intros Hst (Hp & Hs & Hd)%strongDeviationTick_inv. simpl.
  rewrite gazeTick_present by exact Hp.
  unfold presentTick. rewrite Hs, Hd, Hst. simpl. repeat split.
Qed.

Lemma strong_tick_alert (createEventId : Z -> string) (s : Refs)
  (frameNow deltaMs : Z) (result : GazeResult.t) :
  gazeStateRef s = ALERT_ACTIVE ->
  strongDeviationTick result = true ->
  let out := gazeTick createEventId s frameNow deltaMs result in
  gazeStateRef out.1 = ALERT_ACTIVE
  /\ deviationStartRef out.1 = deviationStartRef s
  /\ lastGazeAlertTimeRef out.1 = lastGazeAlertTimeRef s
  /\ out.2 = [].
Proof.
  intros Hst (Hp & Hs & Hd)%strongDeviationTick_inv. simpl.
  rewrite gazeTick_present by exact Hp.
  unfold presentTick. rewrite Hs, Hd, Hst. simpl. repeat split.
Qed.

Lemma strong_tick_normal (createEventId : Z -> string) (s : Refs)
  (frameNow deltaMs : Z) (result : GazeResult.t) :
  gazeStateRef s = NORMAL ->
  strongDeviationTick result = true ->
  let out := gazeTick createEventId s frameNow deltaMs result in
  gazeStateRef out.1 = MONITORING_DEVIATION
  /\ deviationStartRef out.1 = Some frameNow
  /\ lastGazeAlertTimeRef out.1 = lastGazeAlertTimeRef s
  /\ out.2 = [].
Proof.
  intros Hst (Hp & Hs & Hd)%strongDeviationTick_inv. simpl.
  rewrite gazeTick_present by exact Hp.
  unfold presentTick. rewrite Hs, Hd, Hst. simpl.
  rewrite Z.sub_diag.
  assert (Hreq : ((if GazeResult.isCentered result
                   then CENTERED_SUSTAIN_DURATION_MS
                   else SUSTAIN_DURATION_MS) <=? 0) = false)
    by (destruct (GazeResult.isCentered result); reflexivity).
  rewrite Hreq. simpl. repeat split.
Qed.

Lemma strong_tick_monitoring (createEventId : Z -> string) (s : Refs)
  (start : Z) (tk : Tick) :
  gazeStateRef s = MONITORING_DEVIATION ->
  deviationStartRef s = Some start ->
  strongDeviationTick (tickResult tk) = true ->
  let out := gazeTick createEventId s (tickNow tk) (tickDelta tk) (tickResult tk) in
  let due := gazeDue start (lastGazeAlertTimeRef s) tk in
  gazeStateRef out.1 = (if due then ALERT_ACTIVE else MONITORING_DEVIATION)
  /\ deviationStartRef out.1 = Some start
  /\ lastGazeAlertTimeRef out.1
     = (if due then tickNow tk else lastGazeAlertTimeRef s)
  /\ out.2
     = (if due
        then [gazeAwayEvent createEventId (tickNow tk) (tickNow tk - start)
                (tickResult tk)]
        else []).
Proof.
  intros Hst Hstart (Hp & Hs & Hd)%strongDeviationTick_inv. simpl.
  rewrite gazeTick_present by exact Hp.
  unfold presentTick, gazeDue, requiredSustainOf.
  rewrite Hs, Hd, Hst, Hstart. simpl.
  destruct (_ && _); simpl; repeat split.
Qed.

(** ** Deviation episodes *)

Lemma run_alert (createEventId : Z -> string) (ticks : list Tick) :
  forall s : Refs,
    gazeStateRef s = ALERT_ACTIVE ->
    strongDeviationTicks ticks ->
    gazeStateRef (runTicks createEventId s ticks).1 = ALERT_ACTIVE
    /\ deviationStartRef (runTicks createEventId s ticks).1 = deviationStartRef s
    /\ lastGazeAlertTimeRef (runTicks createEventId s ticks).1
       = lastGazeAlertTimeRef s
    /\ (runTicks createEventId s ticks).2 = [].
Proof.
  induction ticks as [| tk ticks IH]; intros s Hst Hall.
  - repeat split. exact Hst.
  - inversion Hall as [| ? ? Htk Hrest]; subst.
    rewrite runTicks_cons.
    destruct (strong_tick_alert createEventId s (tickNow tk) (tickDelta tk)
                (tickResult tk) Hst Htk) as (H1 & H2 & H3 & H4).
    destruct (IH _ H1 Hrest) as (I1 & I2 & I3 & I4).
    cbn [fst snd]. rewrite I1, I2, I3, I4, H2, H3, H4. repeat split.
Qed.

Lemma run_monitoring (createEventId : Z -> string) (start : Z)
  (ticks : list Tick) :
  forall s : Refs,
    gazeStateRef s = MONITORING_DEVIATION ->
    deviationStartRef s = Some start ->
    strongDeviationTicks ticks ->
    let due := List.find (gazeDue start (lastGazeAlertTimeRef s)) ticks in
    gazeStateRef (runTicks createEventId s ticks).1
    = match due with Some _ => ALERT_ACTIVE | None => MONITORING_DEVIATION end
    /\ deviationStartRef (runTicks createEventId s ticks).1 = Some start
    /\ lastGazeAlertTimeRef (runTicks createEventId s ticks).1
       = from_option tickNow (lastGazeAlertTimeRef s) due
    /\ (runTicks createEventId s ticks).2
       = gazeEpisodeEvents createEventId start (lastGazeAlertTimeRef s) ticks.
Proof.
  unfold gazeEpisodeEvents.
  induction ticks as [| tk ticks IH]; intros s Hst Hstart Hall.
  - repeat split; assumption.
  - inversion Hall as [| ? ? Htk Hrest]; subst.
    rewrite runTicks_cons.
    destruct (strong_tick_monitoring createEventId s start tk Hst Hstart Htk)
      as (H1 & H2 & H3 & H4).
    cbn [List.find]. cbn zeta in *.
    destruct (gazeDue start (lastGazeAlertTimeRef s) tk) eqn:Hdue.
    + destruct (run_alert createEventId ticks _ H1 Hrest) as (I1 & I2 & I3 & I4).
      cbn [fst snd]. rewrite I1, I2, I3, I4, H2, H3, H4. repeat split.
    + destruct (IH _ H1 H2 Hrest) as (I1 & I2 & I3 & I4).
      cbn [fst snd]. rewrite I1, I2, I3, I4, H3, H4. repeat split.
Qed.

Lemma find_none_of_Forall {A : Type} (p : A -> bool) (l : list A) :
  Forall (fun a => p a = false) l -> List.find p l = None.
Proof.
  induction 1 as [| a l Ha _ IH]; [reflexivity |].
  cbn. now rewrite Ha.
Qed.

Lemma gazeDue_start (last : Z) (tk : Tick) : gazeDue (tickNow tk) last tk = false.
Proof.
  unfold gazeDue, requiredSustainOf. rewrite Z.sub_diag.
  now destruct (GazeResult.isCentered (tickResult tk)).
Qed.

(** C1. Take an episode of consecutive strong-deviation, face-present
    ticks that begins in NORMAL, with the last alert at [lastAlert].
    Its first tick records the deviation start.  The episode emits
    exactly the events [gazeEpisodeEvents]: nothing as long as no tick
    is due, that is while the time since the deviation start is below
    the required sustain (3500 ms centered, 2500 ms otherwise) or less
    than 5000 ms have passed since the last alert, and one GAZE_AWAY
    event at the first tick that is due, which moves the state to
    ALERT_ACTIVE and records the alert time.  Further strong-deviation
    ticks emit nothing and leave the state ALERT_ACTIVE, until a
    safe-zone or minor-movement tick puts the state back to NORMAL. *)
Theorem gaze_episode_emission
  (createEventId : Z -> string) (s : Refs)
  (first : Tick) (rest more : list Tick) (reset : Tick)
  (Hnormal : gazeStateRef s = NORMAL)
  (Hstrong : strongDeviationTicks (first :: rest))
  (Hmore : strongDeviationTicks more)
  (Hreset : resetTick reset) :
  let start := tickNow first in
  let lastAlert := lastGazeAlertTimeRef s in
  let out := runTicks createEventId s (first :: rest) in
  let due := List.find (gazeDue start lastAlert) (first :: rest) in
  deviationStartRef out.1 = Some start
  /\ out.2 = gazeEpisodeEvents createEventId start lastAlert (first :: rest)
  /\ (length out.2 <= 1)%nat
  /\ gazeStateRef out.1 = match due with Some _ => ALERT_ACTIVE | None => MONITORING_DEVIATION end
  /\ lastGazeAlertTimeRef out.1 = from_option tickNow lastAlert due
  /\ (Forall (fun tk => tickNow tk - start < requiredSustainOf (tickResult tk))
        (first :: rest) -> out.2 = [])
  /\ (Forall (fun tk => tickNow tk - lastAlert < GAZE_COOLDOWN_MS) (first :: rest)
      -> out.2 = [])
  /\ (gazeStateRef out.1 = ALERT_ACTIVE ->
      (runTicks createEventId out.1 more).2 = []
      /\ gazeStateRef (runTicks createEventId out.1 more).1 = ALERT_ACTIVE)
  /\ (gazeTick createEventId (runTicks createEventId out.1 more).1
        (tickNow reset) (tickDelta reset) (tickResult reset)).2 = []
  /\ gazeStateRef
       (gazeTick createEventId (runTicks createEventId out.1 more).1
          (tickNow reset) (tickDelta reset) (tickResult reset)).1 = NORMAL.
Proof.
  intros start lastAlert out due.
  inversion Hstrong as [| ? ? Hfirst Hrest]; subst.
  destruct (strong_tick_normal createEventId s (tickNow first) (tickDelta first)
              (tickResult first) Hnormal Hfirst) as (H1 & H2 & H3 & H4).
  destruct (run_monitoring createEventId start rest _ H1 H2 Hrest)
    as (I1 & I2 & I3 & I4).
  cbn zeta in I1, I3. rewrite H3 in I1, I3, I4.
  assert (Hdue : due = List.find (gazeDue start lastAlert) rest).
  { subst due. cbn [List.find]. unfold start. now rewrite gazeDue_start. }
  assert (Hevents :
    out.2 = gazeEpisodeEvents createEventId start lastAlert (first :: rest)).
  { subst out. rewrite runTicks_cons. cbn [snd]. rewrite H4, I4.
    unfold gazeEpisodeEvents. fold due. now rewrite Hdue. }
  assert (Hstate :
    gazeStateRef out.1 = match due with Some _ => ALERT_ACTIVE | None => MONITORING_DEVIATION end).
  { subst out. rewrite runTicks_cons. cbn [fst]. now rewrite I1, Hdue. }
  split. { subst out. rewrite runTicks_cons. exact I2. }
  split; [exact Hevents |].
  split. { rewrite Hevents. unfold gazeEpisodeEvents. destruct (List.find _ _); simpl; lia. }
  split; [exact Hstate |].
  split. { subst out. rewrite runTicks_cons. cbn [fst]. now rewrite I3, Hdue. }
  split.
  { intros Hbelow. rewrite Hevents. unfold gazeEpisodeEvents.
    rewrite find_none_of_Forall; [reflexivity |].
    eapply Forall_impl; [exact Hbelow |]. cbn beta.
    intros tk Htk. unfold gazeDue.
    apply andb_false_iff. left. apply Z.leb_gt. exact Htk. }
  split.
  { intros Hcool. rewrite Hevents. unfold gazeEpisodeEvents.
    rewrite find_none_of_Forall; [reflexivity |].
    eapply Forall_impl; [exact Hcool |]. cbn beta.
    intros tk Htk. unfold gazeDue.
    apply andb_false_iff. right. apply Z.leb_gt. exact Htk. }
  split.
  { intros Halert.
    destruct (run_alert createEventId more _ Halert Hmore) as (A1 & _ & _ & A4).
    split; assumption. }
  destruct (reset_tick createEventId (runTicks createEventId out.1 more).1 reset
              Hreset) as (R1 & _ & _ & R4).
  split; assumption.
Qed.

Lemma gaze_episode_emission_witness :
  (runTicks (fun _ => "id") initialRefs
     [strongTickAt 10000; strongTickAt 11000; strongTickAt 12500;
      strongTickAt 13000]).2
  = [gazeAwayEvent (fun _ => "id") 12500 2500 (tickResult (strongTickAt 12500))].
Proof.
  assert (Hstrong : strongDeviationTicks
            [strongTickAt 10000; strongTickAt 11000; strongTickAt 12500;
             strongTickAt 13000])
    by (repeat (constructor; [reflexivity |]); constructor).
  assert (Hmore : strongDeviationTicks [strongTickAt 14000])
    by (repeat (constructor; [reflexivity |]); constructor).
  assert (Hreset : resetTick (safeTickAt 15000)) by (left; reflexivity).
  pose proof
    (gaze_episode_emission (fun _ => "id") initialRefs (strongTickAt 10000)
       [strongTickAt 11000; strongTickAt 12500; strongTickAt 13000]
       [strongTickAt 14000] (safeTickAt 15000) eq_refl Hstrong Hmore Hreset)
    as (_ & Hevents & _).
  exact Hevents.
Defined.

(** ** The ABSENT lockout *)

Lemma absent_tick_state (createEventId : Z -> string) (s : Refs)
  (frameNow deltaMs : Z) (result : GazeResult.t) :
  faceAbsent result = true ->
  let out := gazeTick createEventId s frameNow deltaMs result in
  gazeStateRef out.1 = ABSENT
  /\ deviationStartRef out.1 = deviationStartRef s
  /\ lastGazeAlertTimeRef out.1 = lastGazeAlertTimeRef s
  /\ Forall notGazeAway out.2.
Proof.
  intros Habs. simpl. rewrite gazeTick_absent by exact Habs.
  unfold absenceTick. cbn [fst snd gazeStateRef deviationStartRef lastGazeAlertTimeRef].
  repeat split.
  destruct (_ && _); repeat constructor. discriminate.
Qed.

Lemma run_absent_locked (createEventId : Z -> string) (ticks : list Tick) :
  forall s : Refs,
    gazeStateRef s = ABSENT ->
    Forall (fun tk => faceAbsent (tickResult tk) = true
                      \/ strongDeviationTick (tickResult tk) = true) ticks ->
    gazeStateRef (runTicks createEventId s ticks).1 = ABSENT
    /\ deviationStartRef (runTicks createEventId s ticks).1 = deviationStartRef s
    /\ Forall notGazeAway (runTicks createEventId s ticks).2.
Proof.
  induction ticks as [| tk ticks IH]; intros s Hst Hall.
  - repeat split; [exact Hst | constructor].
  - inversion Hall as [| ? ? Htk Hrest]; subst.
    rewrite runTicks_cons. cbn [fst snd].
    destruct Htk as [Habs | Hstrong].
    + destruct (absent_tick_state createEventId s (tickNow tk) (tickDelta tk)
                  (tickResult tk) Habs) as (H1 & H2 & _ & H4).
      destruct (IH _ H1 Hrest) as (I1 & I2 & I3).
      rewrite I1, I2, H2. repeat split. apply Forall_app. split; assumption.
    + destruct (strong_tick_absent createEventId s (tickNow tk) (tickDelta tk)
                  (tickResult tk) Hst Hstrong) as (H1 & H2 & _ & _ & H4).
      destruct (IH _ H1 Hrest) as (I1 & I2 & I3).
      rewrite I1, I2, H2, H4. repeat split. exact I3.
Qed.

(** C10. When a face-present tick with a strong deviation finds the
    state ABSENT, the state stays ABSENT, the recorded deviation start
    is left as it was and nothing is emitted.  Hence, starting from
    ABSENT, any sequence of absent or strong-deviation ticks keeps the
    state ABSENT and emits no GAZE_AWAY event; a safe-zone or
    minor-movement tick is what puts the state back to NORMAL. *)
Theorem absent_lockout
  (createEventId : Z -> string) (s : Refs) (frameNow deltaMs : Z)
  (result : GazeResult.t) (ticks : list Tick) (reset : Tick)
  (Habsent : gazeStateRef s = ABSENT)
  (Hstrong : strongDeviationTick result = true)
  (Hticks : Forall (fun tk => faceAbsent (tickResult tk) = true
                              \/ strongDeviationTick (tickResult tk) = true) ticks)
  (Hreset : resetTick reset) :
  gazeStateRef (gazeTick createEventId s frameNow deltaMs result).1 = ABSENT
  /\ deviationStartRef (gazeTick createEventId s frameNow deltaMs result).1
     = deviationStartRef s
  /\ (gazeTick createEventId s frameNow deltaMs result).2 = []
  /\ gazeStateRef (runTicks createEventId s ticks).1 = ABSENT
  /\ Forall notGazeAway (runTicks createEventId s ticks).2
  /\ gazeStateRef (runTicks createEventId s (ticks ++ [reset])).1 = NORMAL.
Proof.
  destruct (strong_tick_absent createEventId s frameNow deltaMs result
              Habsent Hstrong) as (H1 & H2 & _ & _ & H4).
  destruct (run_absent_locked createEventId ticks s Habsent Hticks)
    as (I1 & _ & I3).
  repeat (split; [assumption |]).
  rewrite runTicks_app. cbn [fst]. rewrite runTicks_cons. cbn [fst].
  apply (reset_tick createEventId _ reset Hreset).
Qed.

Lemma absent_lockout_witness :
  gazeStateRef
    (runTicks (fun _ => "id") initialRefs
       [absentTickAt 10000; strongTickAt 10100; strongTickAt 20000]).1 = ABSENT
  /\ (runTicks (fun _ => "id") initialRefs
        [absentTickAt 10000; strongTickAt 10100; strongTickAt 20000]).2 = [].
Proof.
  assert (Hticks :
    Forall (fun tk => faceAbsent (tickResult tk) = true
                      \/ strongDeviationTick (tickResult tk) = true)
      [strongTickAt 10100; strongTickAt 20000])
    by (repeat (constructor; [right; reflexivity |]); constructor).
  assert (Hreset : resetTick (safeTickAt 30000)) by (left; reflexivity).
  pose proof
    (absent_lockout (fun _ => "id")
       (runTicks (fun _ => "id") initialRefs [absentTickAt 10000]).1 10100 100
       (tickResult (strongTickAt 10100))
       [strongTickAt 10100; strongTickAt 20000] (safeTickAt 30000)
       eq_refl eq_refl Hticks Hreset)
    as (_ & _ & _ & Hstate & _).
  split; [| reflexivity].
  change [absentTickAt 10000; strongTickAt 10100; strongTickAt 20000]
    with ([absentTickAt 10000] ++ [strongTickAt 10100; strongTickAt 20000])%list.
  rewrite runTicks_app. exact Hstate.
Defined.

(** ** Absence episodes *)

Lemma absent_tick_first (createEventId : Z -> string) (s : Refs) (tk : Tick) :
  absenceStartRef s = None ->
  faceAbsent (tickResult tk) = true ->
  let out := gazeTick createEventId s (tickNow tk) (tickDelta tk) (tickResult tk) in
  absenceStartRef out.1 = Some (tickNow tk)
  /\ isFaceAbsentLoggedRef out.1 = isFaceAbsentLoggedRef s
  /\ lastFaceAbsentTimeRef out.1 = lastFaceAbsentTimeRef s
  /\ out.2 = [].
Proof.
  intros Hstart Habs. simpl. rewrite gazeTick_absent by exact Habs.
  unfold absenceTick. rewrite Hstart, Z.sub_diag. simpl. repeat split.
Qed.

Lemma absent_tick_started (createEventId : Z -> string) (s : Refs)
  (start : Z) (tk : Tick) :
  absenceStartRef s = Some start ->
  start <> 0 ->
  faceAbsent (tickResult tk) = true ->
  let out := gazeTick createEventId s (tickNow tk) (tickDelta tk) (tickResult tk) in
  let due :=
    negb (isFaceAbsentLoggedRef s)
    && absenceDue start (lastFaceAbsentTimeRef s) tk in
  absenceStartRef out.1 = Some start
  /\ isFaceAbsentLoggedRef out.1 = (if due then true else isFaceAbsentLoggedRef s)
  /\ lastFaceAbsentTimeRef out.1
     = (if due then tickNow tk else lastFaceAbsentTimeRef s)
  /\ gazeStateRef out.1 = ABSENT
  /\ out.2
     = (if due
        then [faceAbsentEvent createEventId (tickNow tk) (tickNow tk - start)]
        else []).
Proof.
  intros Hstart Hnz Habs. simpl. rewrite gazeTick_absent by exact Habs.
  unfold absenceTick, absenceDue. rewrite Hstart.
  apply Z.eqb_neq in Hnz. rewrite Hnz.
  cbn [fst snd absenceStartRef isFaceAbsentLoggedRef lastFaceAbsentTimeRef
       gazeStateRef].
  destruct (FACE_ABSENCE_SUSTAIN_MS <=? tickNow tk - start),
    (isFaceAbsentLoggedRef s),
    (FACE_ABSENCE_COOLDOWN_MS <=? tickNow tk - lastFaceAbsentTimeRef s);
    repeat split.
Qed.

(** In a run of absent ticks nothing is emitted once the episode is
    logged, and at most one event is emitted otherwise. *)
Lemma run_absent_at_most_one (createEventId : Z -> string) (ticks : list Tick) :
  forall s : Refs,
    absentTicks ticks ->
    (length (runTicks createEventId s ticks).2 <= 1)%nat
    /\ (isFaceAbsentLoggedRef s = true ->
        (runTicks createEventId s ticks).2 = []
        /\ isFaceAbsentLoggedRef (runTicks createEventId s ticks).1 = true).
Proof.
  induction ticks as [| tk ticks IH]; intros s Hall.
  - split; [simpl; lia | intros H; split; [reflexivity | exact H]].
  - inversion Hall as [| ? ? Htk Hrest]; subst.
    rewrite runTicks_cons. cbn [fst snd].
    rewrite gazeTick_absent by exact Htk.
    destruct (IH (absenceTick createEventId s (tickNow tk) (tickDelta tk)).1 Hrest)
      as [Hlen Hlogged].
    unfold absenceTick in *. cbn [fst snd isFaceAbsentLoggedRef] in *.
    destruct (isFaceAbsentLoggedRef s) eqn:Hl.
    + rewrite andb_false_r in *. cbn [andb app] in *.
      destruct (Hlogged eq_refl) as [He Hl'].
      split; [exact Hlen | intros _; split; assumption].
    + match goal with |- context [if ?c then [ _ ] else []] => destruct c end.
      * destruct (Hlogged eq_refl) as [He _]. rewrite He.
        split; [simpl; lia | discriminate].
      * split; [exact Hlen | discriminate].
Qed.

Lemma run_absent_logged (createEventId : Z -> string) (start : Z)
  (ticks : list Tick) :
  forall s : Refs,
    absenceStartRef s = Some start ->
    start <> 0 ->
    isFaceAbsentLoggedRef s = true ->
    absentTicks ticks ->
    absenceStartRef (runTicks createEventId s ticks).1 = Some start
    /\ isFaceAbsentLoggedRef (runTicks createEventId s ticks).1 = true
    /\ lastFaceAbsentTimeRef (runTicks createEventId s ticks).1
       = lastFaceAbsentTimeRef s
    /\ (runTicks createEventId s ticks).2 = [].
Proof.
  induction ticks as [| tk ticks IH]; intros s Hstart Hnz Hlog Hall.
  - repeat split; assumption.
  - inversion Hall as [| ? ? Htk Hrest]; subst.
    rewrite runTicks_cons.
    destruct (absent_tick_started createEventId s start tk Hstart Hnz Htk)
      as (H1 & H2 & H3 & _ & H5).
    cbn zeta in *. rewrite Hlog in H2, H3, H5. cbn [negb andb] in H2, H3, H5.
    destruct (IH _ H1 Hnz H2 Hrest) as (I1 & I2 & I3 & I4).
    cbn [fst snd]. rewrite I1, I2, I3, I4, H3, H5. repeat split.
Qed.

Lemma run_absent_started (createEventId : Z -> string) (start : Z)
  (ticks : list Tick) :
  forall s : Refs,
    absenceStartRef s = Some start ->
    start <> 0 ->
    isFaceAbsentLoggedRef s = false ->
    absentTicks ticks ->
    let due := List.find (absenceDue start (lastFaceAbsentTimeRef s)) ticks in
    absenceStartRef (runTicks createEventId s ticks).1 = Some start
    /\ isFaceAbsentLoggedRef (runTicks createEventId s ticks).1
       = match due with Some _ => true | None => false end
    /\ lastFaceAbsentTimeRef (runTicks createEventId s ticks).1
       = from_option tickNow (lastFaceAbsentTimeRef s) due
    /\ (runTicks createEventId s ticks).2
       = absenceEpisodeEvents createEventId start (lastFaceAbsentTimeRef s) ticks.
Proof.
  unfold absenceEpisodeEvents.
  induction ticks as [| tk ticks IH]; intros s Hstart Hnz Hlog Hall.
  - repeat split; assumption.
  - inversion Hall as [| ? ? Htk Hrest]; subst.
    rewrite runTicks_cons.
    destruct (absent_tick_started createEventId s start tk Hstart Hnz Htk)
      as (H1 & H2 & H3 & _ & H5).
    cbn zeta in *. rewrite Hlog in H2, H3, H5. cbn [negb andb] in H2, H3, H5.
    cbn [List.find].
    destruct (absenceDue start (lastFaceAbsentTimeRef s) tk) eqn:Hdue.
    + destruct (run_absent_logged createEventId start ticks _ H1 Hnz H2 Hrest)
        as (I1 & I2 & I3 & I4).
      cbn [fst snd]. rewrite I1, I2, I3, I4, H3, H5. repeat split.
    + destruct (IH _ H1 Hnz H2 Hrest) as (I1 & I2 & I3 & I4).
      cbn zeta in *. cbn [fst snd]. rewrite I1, I2, I3, I4, H3, H5.
      repeat split.
Qed.

Lemma absenceDue_start (last : Z) (tk : Tick) :
  absenceDue (tickNow tk) last tk = false.
Proof. unfold absenceDue. now rewrite Z.sub_diag. Qed.

Lemma present_tick_rearms (createEventId : Z -> string) (s : Refs)
  (frameNow deltaMs : Z) (result : GazeResult.t) :
  faceAbsent result = false ->
  absenceStartRef (gazeTick createEventId s frameNow deltaMs result).1 = None
  /\ isFaceAbsentLoggedRef (gazeTick createEventId s frameNow deltaMs result).1
     = false.
Proof.
  intros Hp.
  destruct (presentTick_path createEventId s frameNow deltaMs result)
    as (H1 & H2 & _).
  rewrite gazeTick_present by exact Hp. split; assumption.
Qed.

(** C2. Take an absence episode: consecutive ticks without a usable
    face (none detected, or confidence below 0.6), beginning with no
    absence on record, at a non-zero clock reading.  Its first tick
    records the absence start.  The episode emits exactly the events
    [absenceEpisodeEvents]: one FACE_ABSENT event at the first tick at
    which the absence has lasted 2500 ms and 5000 ms have passed since
    the last emission, which marks the episode logged, and nothing
    before or after.  From any state a run of absent ticks emits at
    most one event.  The first face-present tick after the episode
    clears the absence start and the logged flag. *)
Theorem absence_episode_emission
  (createEventId : Z -> string) (s : Refs) (first : Tick) (rest : list Tick)
  (present : Tick) (anyState : Refs) (anyTicks : list Tick)
  (Hstart : absenceStartRef s = None)
  (Hlogged : isFaceAbsentLoggedRef s = false)
  (Hclock : tickNow first <> 0)
  (Habsent : absentTicks (first :: rest))
  (Hany : absentTicks anyTicks)
  (Hpresent : faceAbsent (tickResult present) = false) :
  let start := tickNow first in
  let lastEmitted := lastFaceAbsentTimeRef s in
  let out := runTicks createEventId s (first :: rest) in
  let due := List.find (absenceDue start lastEmitted) (first :: rest) in
  absenceStartRef out.1 = Some start
  /\ out.2 = absenceEpisodeEvents createEventId start lastEmitted (first :: rest)
  /\ isFaceAbsentLoggedRef out.1 = match due with Some _ => true | None => false end
  /\ lastFaceAbsentTimeRef out.1 = from_option tickNow lastEmitted due
  /\ (length out.2 <= 1)%nat
  /\ (length (runTicks createEventId anyState anyTicks).2 <= 1)%nat
  /\ absenceStartRef
       (gazeTick createEventId out.1 (tickNow present) (tickDelta present)
          (tickResult present)).1 = None
  /\ isFaceAbsentLoggedRef
       (gazeTick createEventId out.1 (tickNow present) (tickDelta present)
          (tickResult present)).1 = false.
Proof.
  intros start lastEmitted out due.
  inversion Habsent as [| ? ? Hfirst Hrest]; subst.
  destruct (absent_tick_first createEventId s first Hstart Hfirst)
    as (H1 & H2 & H3 & H4).
  cbn zeta in *. rewrite Hlogged in H2.
  destruct (run_absent_started createEventId start rest _ H1 Hclock H2 Hrest)
    as (I1 & I2 & I3 & I4).
  cbn zeta in *. rewrite H3 in I2, I3, I4.
  assert (Hdue : due = List.find (absenceDue start lastEmitted) rest).
  { subst due. cbn [List.find]. unfold start. now rewrite absenceDue_start. }
  subst out. rewrite runTicks_cons. cbn [fst snd]. rewrite H4. cbn [app].
  split; [exact I1 |].
  split. { rewrite I4. unfold absenceEpisodeEvents. fold due. now rewrite Hdue. }
  split; [now rewrite I2, Hdue |].
  split; [now rewrite I3, Hdue |].
  split.
  { rewrite I4. unfold absenceEpisodeEvents. destruct (List.find _ rest); simpl; lia. }
  split; [apply run_absent_at_most_one; exact Hany |].
  apply present_tick_rearms. exact Hpresent.
Qed.

Lemma absence_episode_emission_witness :
  (runTicks (fun _ => "id") initialRefs
     [absentTickAt 10000; absentTickAt 11000; absentTickAt 12500;
      absentTickAt 13000]).2
  = [faceAbsentEvent (fun _ => "id") 12500 2500].
Proof.
  assert (Habsent : absentTicks
            [absentTickAt 10000; absentTickAt 11000; absentTickAt 12500;
             absentTickAt 13000])
    by (repeat (constructor; [reflexivity |]); constructor).
  assert (Hclock : tickNow (absentTickAt 10000) <> 0) by discriminate.
  pose proof
    (absence_episode_emission (fun _ => "id") initialRefs (absentTickAt 10000)
       [absentTickAt 11000; absentTickAt 12500; absentTickAt 13000]
       (safeTickAt 14000) initialRefs [absentTickAt 10000]
       eq_refl eq_refl Hclock Habsent
       ltac:(repeat (constructor; [reflexivity |]); constructor) eq_refl)
    as (_ & Hevents & _).
  exact Hevents.
Defined.

(** ** Object cooldown tracker *)

Lemma isProhibitedHit_iff (p : RawPrediction) :
  isProhibitedHit p = true <-> prohibitedHit p.
Proof.
  unfold isProhibitedHit, prohibitedHit. split.
  - destruct (rawScore p) as [| [q |] | | |]; try discriminate.
    rewrite andb_true_iff, bool_decide_eq_true.
    intros [Hge Hin]. apply le_Num in Hge. eauto.
  - intros (q & -> & Hq & Hin).
    rewrite andb_true_iff, bool_decide_eq_true.
    split; [apply le_Num; exact Hq | exact Hin].
Qed.

Lemma objectTick_pair (createEventId : Z -> string) (frameNow : Z)
  (cooldown : gmap string Z) (acc : list SessionEvent.t) (det : DetectedObject.t) :
  objectTick createEventId frameNow (cooldown, acc) det
  = if offCooldown frameNow cooldown (DetectedObject.label det)
    then (<[DetectedObject.label det := frameNow]> cooldown,
          (acc ++ [objectDetectedEvent createEventId frameNow det])%list)
    else (cooldown, acc).
Proof. reflexivity. Qed.

Lemma fold_objectTick (createEventId : Z -> string) (frameNow : Z)
  (detections : list DetectedObject.t) :
  forall (cooldown : gmap string Z) (acc : list SessionEvent.t),
    fold_left (objectTick createEventId frameNow) detections (cooldown, acc)
    = ((objectLoop createEventId frameNow cooldown detections).1,
       (acc ++ (objectLoop createEventId frameNow cooldown detections).2)%list).
Proof.
  unfold objectLoop.
  induction detections as [| d ds IH]; intros cooldown acc; cbn [fold_left].
  - cbn. now rewrite app_nil_r.
  - rewrite !objectTick_pair.
    destruct (offCooldown frameNow cooldown (DetectedObject.label d)).
    + rewrite IH. symmetry. rewrite IH. cbn [fst snd].
      now rewrite app_nil_l, app_assoc.
    + apply IH.
Qed.

Lemma objectLoop_cons (createEventId : Z -> string) (frameNow : Z)
  (cooldown : gmap string Z) (d : DetectedObject.t)
  (ds : list DetectedObject.t) :
  objectLoop createEventId frameNow cooldown (d :: ds)
  = if offCooldown frameNow cooldown (DetectedObject.label d)
    then
      ((objectLoop createEventId frameNow
          (<[DetectedObject.label d := frameNow]> cooldown) ds).1,
       objectDetectedEvent createEventId frameNow d
       :: (objectLoop createEventId frameNow
             (<[DetectedObject.label d := frameNow]> cooldown) ds).2)
    else objectLoop createEventId frameNow cooldown ds.
Proof.
  unfold objectLoop at 1. cbn [fold_left]. rewrite objectTick_pair.
  destruct (offCooldown frameNow cooldown (DetectedObject.label d)).
  - now rewrite fold_objectTick.
  - reflexivity.
Qed.

Lemma eventLabel_objectDetectedEvent (createEventId : Z -> string)
  (frameNow : Z) (d : DetectedObject.t) :
  eventLabel (objectDetectedEvent createEventId frameNow d)
  = Some (DetectedObject.label d).
Proof.
  unfold eventLabel, objectDetectedEvent. cbn [SessionEvent.metadata list_to_map foldr].
  cbn [uncurry]. now rewrite lookup_insert_eq.
Qed.

Lemma offCooldown_just_emitted (frameNow : Z) (cooldown : gmap string Z)
  (label : string) :
  offCooldown frameNow (<[label := frameNow]> cooldown) label = false.
Proof.
  unfold offCooldown, lastFor. rewrite lookup_insert_eq. cbn [default].
  now rewrite Z.sub_diag.
Qed.

Lemma offCooldown_other (frameNow t : Z) (cooldown : gmap string Z)
  (label other : string) :
  other <> label ->
  offCooldown frameNow (<[other := t]> cooldown) label
  = offCooldown frameNow cooldown label.
Proof.
  intros Hne. unfold offCooldown, lastFor. now rewrite lookup_insert_ne.
Qed.

(** Within one batch, what happens to a label depends on that label
    alone: if its cooldown has elapsed and the batch detects it, its
    first detection emits the only event for it and stamps the label
    with the current time; otherwise it gets no event and its entry is
    left alone. *)
Lemma objectLoop_label (createEventId : Z -> string) (frameNow : Z)
  (label : string) (detections : list DetectedObject.t) :
  forall cooldown : gmap string Z,
    let out := objectLoop createEventId frameNow cooldown detections in
    let hit :=
      if offCooldown frameNow cooldown label
      then firstWithLabel label detections
      else None in
    eventsFor label out.2
    = match hit with
      | Some d => [objectDetectedEvent createEventId frameNow d]
      | None => []
      end
    /\ out.1 !! label
       = match hit with
         | Some _ => Some frameNow
         | None => cooldown !! label
         end.
Proof.
  induction detections as [| d ds IH]; intros cooldown.
  - cbn. destruct (offCooldown frameNow cooldown label); split; reflexivity.
  - cbn zeta. rewrite objectLoop_cons. unfold firstWithLabel. cbn [List.find].
    fold (firstWithLabel label ds).
    destruct (String.eqb_spec (DetectedObject.label d) label) as [Heq | Hne].
    + rewrite Heq.
      destruct (offCooldown frameNow cooldown label) eqn:Hoff.
      * destruct (IH (<[label := frameNow]> cooldown)) as [I1 I2].
        cbn zeta in I1, I2. rewrite offCooldown_just_emitted in I1, I2.
        cbn [fst snd]. unfold eventsFor in *. cbn [List.filter].
        unfold hasLabel at 1. rewrite eventLabel_objectDetectedEvent, Heq.
        rewrite String.eqb_refl, I1, I2, lookup_insert_eq. split; reflexivity.
      * destruct (IH cooldown) as [I1 I2]. cbn zeta in I1, I2.
        rewrite Hoff in I1, I2. split; assumption.
    + destruct (offCooldown frameNow cooldown (DetectedObject.label d)).
      * destruct (IH (<[DetectedObject.label d := frameNow]> cooldown))
          as [I1 I2].
        cbn zeta in I1, I2.
        rewrite offCooldown_other in I1, I2 by exact Hne.
        cbn [fst snd]. unfold eventsFor in *. cbn [List.filter].
        unfold hasLabel at 1. rewrite eventLabel_objectDetectedEvent.
        apply String.eqb_neq in Hne. rewrite Hne. apply String.eqb_neq in Hne.
        rewrite I1, I2.
        destruct (offCooldown frameNow cooldown label);
          [destruct (firstWithLabel label ds) |];
          rewrite ?lookup_insert_ne by exact Hne; split; reflexivity.
      * apply IH.
Qed.

Lemma objectLoop_events (createEventId : Z -> string) (frameNow : Z)
  (detections : list DetectedObject.t) :
  forall cooldown : gmap string Z,
    Forall
      (fun e => exists d, In d detections
                          /\ e = objectDetectedEvent createEventId frameNow d)
      (objectLoop createEventId frameNow cooldown detections).2.
Proof.
  induction detections as [| d ds IH]; intros cooldown.
  - constructor.
  - rewrite objectLoop_cons.
    destruct (offCooldown frameNow cooldown (DetectedObject.label d)).
    + cbn [snd]. constructor.
      * exists d. split; [now left | reflexivity].
      * eapply Forall_impl; [apply IH |]. cbn beta.
        intros e (d' & Hin & ->). exists d'. split; [now right | reflexivity].
    + eapply Forall_impl; [apply IH |]. cbn beta.
      intros e (d' & Hin & ->). exists d'. split; [now right | reflexivity].
Qed.

(** C5. Every OBJECT_DETECTED event raised from a batch of raw
    predictions stems from a prediction with a numeric score of at
    least 0.65 and a prohibited label.  Within one batch a label gets
    an event, for its first detection, exactly when its cooldown has
    elapsed, and is then stamped with the current time; other labels
    play no part.  So two detections of one label less than 5000 ms
    apart, in the same batch or in consecutive ones, emit one event in
    all, and two different labels detected in the same batch, both off
    cooldown, emit one event each. *)
Theorem object_cooldown_tracker
  (createEventId : Z -> string) (clock : Z) (raw : list RawPrediction)
  (cooldown : gmap string Z) (frameNow : Z)
  (detections : list DetectedObject.t) (label : string)
  (a b other : DetectedObject.t) (t1 t2 : Z)
  (Hsame : DetectedObject.label b = DetectedObject.label a)
  (Hother : DetectedObject.label other <> DetectedObject.label a)
  (Hoff : offCooldown t1 cooldown (DetectedObject.label a) = true)
  (Hoff' : offCooldown t1 cooldown (DetectedObject.label other) = true)
  (Hwithin : t2 - t1 < OBJECT_DETECTION_COOLDOWN_MS) :
  Forall
    (fun e => exists p, In p raw /\ prohibitedHit p
                        /\ e = objectDetectedEvent createEventId frameNow
                                 (toDetectedObject p))
    (objectLoop createEventId frameNow cooldown
       (ObjectDetectionResult.detections (runObjectDetection clock raw))).2
  /\ eventsFor label (objectLoop createEventId frameNow cooldown detections).2
     = match (if offCooldown frameNow cooldown label
              then firstWithLabel label detections else None) with
       | Some d => [objectDetectedEvent createEventId frameNow d]
       | None => []
       end
  /\ (objectLoop createEventId frameNow cooldown detections).1 !! label
     = match (if offCooldown frameNow cooldown label
              then firstWithLabel label detections else None) with
       | Some _ => Some frameNow
       | None => cooldown !! label
       end
  /\ (objectLoop createEventId t1 cooldown [a]).2
     = [objectDetectedEvent createEventId t1 a]
  /\ (objectLoop createEventId t1 cooldown [a]).1 !! DetectedObject.label a
     = Some t1
  /\ (objectLoop createEventId t2 (objectLoop createEventId t1 cooldown [a]).1 [b]).2
     = []
  /\ (objectLoop createEventId t1 cooldown [a; b]).2
     = [objectDetectedEvent createEventId t1 a]
  /\ (objectLoop createEventId t1 cooldown [a; other]).2
     = [objectDetectedEvent createEventId t1 a;
        objectDetectedEvent createEventId t1 other]
  /\ (objectLoop createEventId t1 cooldown [a; other]).1
       !! DetectedObject.label other = Some t1.
Proof.
  split.
  { eapply Forall_impl; [apply objectLoop_events |]. cbn beta.
    intros e (d & Hin & ->). cbn [runObjectDetection ObjectDetectionResult.detections] in Hin.
    apply in_map_iff in Hin as (p & <- & Hp).
    apply filter_In in Hp as [Hp Hhit].
    exists p. split; [exact Hp |]. split; [| reflexivity].
    now apply isProhibitedHit_iff. }
  destruct (objectLoop_label createEventId frameNow label detections cooldown)
    as [L1 L2].
  split; [exact L1 |]. split; [exact L2 |].
  assert (Hb : offCooldown t2 (<[DetectedObject.label a := t1]> cooldown)
                 (DetectedObject.label b) = false).
  { unfold offCooldown, lastFor. rewrite Hsame, lookup_insert_eq. cbn [default].
    apply Z.leb_gt. exact Hwithin. }
  assert (Hb' : offCooldown t1 (<[DetectedObject.label a := t1]> cooldown)
                  (DetectedObject.label b) = false).
  { rewrite Hsame. apply offCooldown_just_emitted. }
  assert (Ho : offCooldown t1 (<[DetectedObject.label a := t1]> cooldown)
                 (DetectedObject.label other) = true).
  { rewrite offCooldown_other; [exact Hoff' | congruence]. }
  rewrite !objectLoop_cons, Hoff. cbn [fst snd objectLoop fold_left].
  rewrite Hb, Hb', Ho. cbn [fst snd].
  rewrite !lookup_insert_eq.
  repeat split.
Qed.

Lemma object_cooldown_tracker_witness :
  (objectLoop (fun _ => "id") 10000 ∅ [samplePhone; samplePhone]).2
  = [objectDetectedEvent (fun _ => "id") 10000 samplePhone]
  /\ (objectLoop (fun _ => "id") 10000 ∅ [samplePhone; sampleBook]).2
     = [objectDetectedEvent (fun _ => "id") 10000 samplePhone;
        objectDetectedEvent (fun _ => "id") 10000 sampleBook].
Proof.
  pose proof
    (object_cooldown_tracker (fun _ => "id") 10000 [] ∅ 10000 [samplePhone]
       "book" samplePhone samplePhone sampleBook 10000 12000 eq_refl)
    as H.
  destruct H as (_ & _ & _ & _ & _ & _ & H1 & H2 & _).
  - discriminate.
  - reflexivity.
  - reflexivity.
  - reflexivity.
  - split; assumption.
Defined.

(** ** Time quality *)

Lemma Qround_bounds (y : Q) (lo hi : Z) :
  (inject_Z lo <= y <= inject_Z hi)%Q -> lo <= Js.Qround y <= hi.
Proof.
  intros [Hlo Hhi]. unfold Js.Qround.
  pose proof (Qfloor_le (y + (1 # 2))) as Hfl.
  pose proof (Qlt_floor (y + (1 # 2))) as Hlt.
  rewrite inject_Z_plus in Hlt. change (inject_Z 1) with 1%Q in Hlt.
  split.
  - apply Z.lt_succ_r. rewrite <- Z.add_1_r. rewrite Zlt_Qlt, inject_Z_plus.
    change (inject_Z 1) with 1%Q. lra.
  - apply Z.lt_succ_r. rewrite <- Z.add_1_r. rewrite Zlt_Qlt, inject_Z_plus.
    change (inject_Z 1) with 1%Q. lra.
Qed.











(** *** The loop and the published record *)

Lemma gazeStep_timeQuality (createEventId : Z -> string) (f : Frame)
  (deltaMs : Z) (m : Monitor) :
  timeQuality (gazeStep createEventId f deltaMs m) = timeQuality m.
Proof.
  unfold gazeStep. destruct (Qle_bool _ _); [| reflexivity].
  destruct (facePredictions f); reflexivity.
Qed.

Lemma gazeStep_refs (createEventId : Z -> string) (f : Frame)
  (deltaMs : Z) (m : Monitor) :
  refs (gazeStep createEventId f deltaMs m) = refs m
  \/ exists predictions,
       facePredictions f = Some predictions
       /\ refs (gazeStep createEventId f deltaMs m)
          = (gazeTick createEventId (refs m) (frameNow f) deltaMs
               (runGazeInference (gazeClock f) predictions)).1.
Proof.
  unfold gazeStep. destruct (Qle_bool _ _); [| now left].
  destruct (facePredictions f) as [predictions |]; [| now left].
  right. exists predictions. split; reflexivity.
Qed.

Lemma objectStep_refs (createEventId : Z -> string) (f : Frame) (m : Monitor) :
  refs (objectStep createEventId f m) = refs m
  /\ timeQuality (objectStep createEventId f m) = timeQuality m.
Proof.
  unfold objectStep. destruct (Qle_bool _ _); [| now split].
  destruct (rawPredictions f); split; reflexivity.
Qed.

Lemma timeQualityStep_published (f : Frame) (m : Monitor) :
  refs (timeQualityStep f m) = refs m
  /\ (timeQuality (timeQualityStep f m) = timeQuality m
      \/ (0 < tqFocusedRef (refs m) + tqMinorRef (refs m)
              + tqDeviationRef (refs m) + tqAbsenceRef (refs m)
          /\ timeQuality (timeQualityStep f m) = timeQualityOf (refs m))).
Proof.
  unfold timeQualityStep.
  destruct (0 <? _) eqn:Hpos; cbn [andb]; [| split; [reflexivity | now left]].
  destruct (negb _); split; try reflexivity; [right | now left].
  split; [now apply Z.ltb_lt | reflexivity].
Qed.

Lemma aiLoop_steps (createEventId : Z -> string) (f : Frame) (m : Monitor) :
  aiLoop createEventId f m = m
  \/ exists m1,
       lastFrameTimeRef (aiLoop createEventId f m) = frameNow f
       /\ (refs m1 = refs m
           \/ exists predictions,
                facePredictions f = Some predictions
                /\ refs m1
                   = (gazeTick createEventId (refs m) (frameNow f)
                        (frameNow f - lastFrameTimeRef m)
                        (runGazeInference (gazeClock f) predictions)).1)
       /\ refs (aiLoop createEventId f m) = refs m1
       /\ (timeQuality (aiLoop createEventId f m) = timeQuality m
           \/ (0 < tqFocusedRef (refs m1) + tqMinorRef (refs m1)
                   + tqDeviationRef (refs m1) + tqAbsenceRef (refs m1)
               /\ timeQuality (aiLoop createEventId f m) = timeQualityOf (refs m1))).
Proof.
  unfold aiLoop. destruct (isSessionActive f); cbn [negb]; [| now left].
  right.
  set (m0 := {| refs := refs m; objectCooldownMap := objectCooldownMap m;
                lastFrameTimeRef := frameNow f |}).
  set (m1 := gazeStep createEventId f (frameNow f - lastFrameTimeRef m) m0).
  set (m2 := objectStep createEventId f m1).
  exists m1.
  destruct (objectStep_refs createEventId f m1) as [Ho1 Ho2]. fold m2 in Ho1, Ho2.
  destruct (timeQualityStep_published f m2) as [Ht1 Ht2].
  pose proof (gazeStep_timeQuality createEventId f
                (frameNow f - lastFrameTimeRef m) m0) as Hg. fold m1 in Hg.
  split.
  { unfold timeQualityStep. destruct (_ && _); cbn [lastFrameTimeRef];
      unfold m2, objectStep; destruct (Qle_bool _ _);
      try destruct (rawPredictions f); cbn [lastFrameTimeRef];
      unfold m1, gazeStep; destruct (Qle_bool _ _);
      try destruct (facePredictions f); reflexivity. }
  split.
  { exact (gazeStep_refs createEventId f (frameNow f - lastFrameTimeRef m) m0). }
  split; [now rewrite Ht1, Ho1 |].
  rewrite Ho1, Ho2, Hg in Ht2. exact Ht2.
Qed.












(** * Further properties *)

(** ** Risk score: order and zero *)

Lemma impact_monotone (w : RiskWeight) (c c' : Z) :
  0 <= weight w -> c <= c' -> impact c w <= impact c' w.
Proof. intros Hw Hc. unfold impact. nia. Qed.

Lemma rawRisk_monotone (a b : RiskInput) :
  countsLe a b -> rawRisk a <= rawRisk b.
Proof.
  intros (Hg & Ha & Ho & Ht). unfold rawRisk.
  pose proof (impact_monotone RISK_WEIGHTS.gazeDeviation _ _ ltac:(simpl; lia) Hg).
  pose proof (impact_monotone RISK_WEIGHTS.faceAbsence _ _ ltac:(simpl; lia) Ha).
  pose proof (impact_monotone RISK_WEIGHTS.objectDetection _ _ ltac:(simpl; lia) Ho).
  pose proof (impact_monotone RISK_WEIGHTS.tabSwitch _ _ ltac:(simpl; lia) Ht).
  cbn zeta. lia.
Qed.

(** X1. The risk score is monotone: when no count decreases, neither
    the score nor the level does. *)
Theorem calculateRiskScore_monotone (a b : RiskInput) (Hle : countsLe a b) :
  score (calculateRiskScore a) <= score (calculateRiskScore b)
  /\ levelRank (level (calculateRiskScore a))
     <= levelRank (level (calculateRiskScore b)).
Proof.
  pose proof (rawRisk_monotone a b Hle) as Hraw.
  assert (Hscore : score (calculateRiskScore a) <= score (calculateRiskScore b))
    by (rewrite !score_eq; lia).
  split; [exact Hscore |].
  rewrite !level_eq.
  destruct (Z.leb_spec 70 (score (calculateRiskScore a))),
    (Z.leb_spec 70 (score (calculateRiskScore b))),
    (Z.leb_spec 35 (score (calculateRiskScore a))),
    (Z.leb_spec 35 (score (calculateRiskScore b))); simpl; lia.
Qed.

Lemma calculateRiskScore_monotone_witness :
  score (calculateRiskScore (allCounts 1 (Js.ofZ 60000)))
  <= score (calculateRiskScore (allCounts 2 (Js.ofZ 60000))).
Proof.
  apply (calculateRiskScore_monotone (allCounts 1 (Js.ofZ 60000))
           (allCounts 2 (Js.ofZ 60000))).
  repeat split; simpl; lia.
Defined.

Lemma countEventsByType_nonneg (events : list SessionEvent.t) (type : string) :
  0 <= countEventsByType events type.
Proof. unfold countEventsByType. lia. Qed.

Lemma countEventsByType_app (events more : list SessionEvent.t) (type : string) :
  countEventsByType (events ++ more) type
  = countEventsByType events type + countEventsByType more type.
Proof.
  unfold countEventsByType. rewrite List.filter_app, length_app. lia.
Qed.

Lemma countEventsByType_zero (events : list SessionEvent.t) (type : string) :
  countEventsByType events type = 0
  <-> Forall (fun e => SessionEvent.type e <> type) events.
Proof.
  unfold countEventsByType. induction events as [| e events IH].
  - split; [constructor | reflexivity].
  - cbn [List.filter].
    destruct (String.eqb_spec (SessionEvent.type e) type) as [Heq | Hne].
    + cbn [length]. split; [lia |].
      intros H. inversion H; subst. congruence.
    + rewrite IH. split.
      * intros H. constructor; assumption.
      * intros H. now inversion H.
Qed.

Lemma scoredType_false (type : string) :
  scoredType type = false
  <-> type <> "GAZE_AWAY" /\ type <> "FACE_ABSENT"
      /\ type <> "OBJECT_DETECTED" /\ type <> "TAB_SWITCH".
Proof.
  unfold scoredType. rewrite !orb_false_iff, !String.eqb_neq. tauto.
Qed.

Lemma score_zero_iff (events : list SessionEvent.t) (duration : number) :
  score (calculateRiskScore (buildRiskInput events duration)) = 0
  <-> Forall (fun e => scoredType (SessionEvent.type e) = false) events.
Proof.
  rewrite score_eq. unfold rawRisk, impact, buildRiskInput. cbn.
  pose proof (countEventsByType_nonneg events "GAZE_AWAY") as Hg.
  pose proof (countEventsByType_nonneg events "FACE_ABSENT") as Ha.
  pose proof (countEventsByType_nonneg events "OBJECT_DETECTED") as Ho.
  pose proof (countEventsByType_nonneg events "TAB_SWITCH") as Ht.
  split.
  - intros H.
    assert (H0 : countEventsByType events "GAZE_AWAY" = 0
                 /\ countEventsByType events "FACE_ABSENT" = 0
                 /\ countEventsByType events "OBJECT_DETECTED" = 0
                 /\ countEventsByType events "TAB_SWITCH" = 0) by lia.
    destruct H0 as (H1 & H2 & H3 & H4).
    apply countEventsByType_zero in H1, H2, H3, H4.
    rewrite Forall_forall in *. intros e He. apply scoredType_false.
    repeat split; [apply H1 | apply H2 | apply H3 | apply H4]; exact He.
  - intros H.
    assert (H0 : forall ty, scoredType ty = true -> countEventsByType events ty = 0).
    { intros ty Hty. apply countEventsByType_zero.
      eapply Forall_impl; [exact H |]. cbn beta. intros e He Heq. rewrite Heq in He. congruence. }
    rewrite !H0 by reflexivity. reflexivity.
Qed.

(** X2. A log scores 0 exactly when it holds no event of the four
    scored types; in particular the empty log scores 0, and its level
    is then Low. *)
Theorem score_zero_iff_no_scored_event
  (events : list SessionEvent.t) (duration : number) :
  (score (calculateRiskScore (buildRiskInput events duration)) = 0
   <-> Forall (fun e => scoredType (SessionEvent.type e) = false) events)
  /\ (score (calculateRiskScore (buildRiskInput events duration)) = 0 ->
      level (calculateRiskScore (buildRiskInput events duration)) = Low).
Proof.
  split; [apply score_zero_iff | intros H; rewrite level_eq, H; reflexivity].
Qed.

Lemma levelRank_monotone (a b : RiskInput) :
  score (calculateRiskScore a) <= score (calculateRiskScore b) ->
  levelRank (level (calculateRiskScore a))
  <= levelRank (level (calculateRiskScore b)).
Proof.
  intros Hscore. rewrite !level_eq.
  destruct (Z.leb_spec 70 (score (calculateRiskScore a))),
    (Z.leb_spec 70 (score (calculateRiskScore b))),
    (Z.leb_spec 35 (score (calculateRiskScore a))),
    (Z.leb_spec 35 (score (calculateRiskScore b))); simpl; lia.
Qed.

(** X3. A log that grows never scores lower: appending events to a
    log lowers neither the score nor the level the calculator gives for
    the input built from the log, nor the risk score written into the
    report payload, whatever the durations and focus ratios passed. *)
Theorem risk_score_grows_with_log
  (events more : list SessionEvent.t)
  (duration duration' ratio ratio' : number) :
  score (calculateRiskScore (buildRiskInput events duration))
  <= score (calculateRiskScore (buildRiskInput (events ++ more) duration'))
  /\ levelRank (level (calculateRiskScore (buildRiskInput events duration)))
     <= levelRank
          (level (calculateRiskScore (buildRiskInput (events ++ more) duration')))
  /\ GeminiPayload.riskScore (buildGeminiPayload events duration ratio)
     <= GeminiPayload.riskScore
          (buildGeminiPayload (events ++ more) duration' ratio').
Proof.
  assert (Hscore :
    score (calculateRiskScore (buildRiskInput events duration))
    <= score (calculateRiskScore (buildRiskInput (events ++ more) duration'))).
  { assert (Hraw : rawRisk (buildRiskInput events duration)
                   <= rawRisk (buildRiskInput (events ++ more) duration')).
    { apply rawRisk_monotone. unfold countsLe, buildRiskInput. cbn.
      rewrite !countEventsByType_app.
      pose proof (countEventsByType_nonneg more "GAZE_AWAY").
      pose proof (countEventsByType_nonneg more "FACE_ABSENT").
      pose proof (countEventsByType_nonneg more "OBJECT_DETECTED").
      pose proof (countEventsByType_nonneg more "TAB_SWITCH").
      lia. }
    rewrite !score_eq. lia. }
  split; [exact Hscore |].
  split; [now apply levelRank_monotone | exact Hscore].
Qed.

(** ** Longest duration *)

Lemma longestDuration_fold (events : list SessionEvent.t) (type : string) :
  longestDuration events type = fold_left (longestStep type) events (Js.ofZ 0).
Proof.
  unfold longestDuration. generalize (Js.ofZ 0).
  induction events as [| e events IH]; intros acc; [reflexivity |].
  cbn [fold_left]. rewrite IH. f_equal.
  unfold longestStep, durationOf.
  destruct (metadata_durationMs e), (String.eqb (SessionEvent.type e) type);
    reflexivity.
Qed.

Lemma Math_max_Num (a b : Q) :
  exists q, Js.Math_max (Num a) (Num b) = Num q
            /\ (a <= q)%Q /\ (b <= q)%Q /\ (q = a \/ q = b).
Proof.
  cbn. destruct (Qle_bool a b) eqn:H.
  - apply Qle_bool_iff in H. exists b. repeat split; [exact H | lra | now right].
  - exists a. repeat split; [lra | | now left].
    apply Qlt_le_weak, Qnot_le_lt. intros Hle.
    apply Qle_bool_iff in Hle. congruence.
Qed.

Lemma longest_fold_bound (type : string) (events : list SessionEvent.t) :
  forall acc : Q,
    Forall (fun e => durationOf type e <> Some NaN) events ->
    exists q,
      fold_left (longestStep type) events (Num acc) = Num q
      /\ (acc <= q)%Q
      /\ (forall e d, In e events -> durationOf type e = Some (Num d) -> (d <= q)%Q)
      /\ (q = acc
          \/ exists e, In e events /\ durationOf type e = Some (Num q)).
Proof.
  induction events as [| e events IH]; intros acc Hall.
  - exists acc. repeat split; [lra | intros e d [] | now left].
  - inversion Hall as [| ? ? He Hrest]; subst. cbn [fold_left].
    unfold longestStep at 2.
    destruct (durationOf type e) as [[d |] |] eqn:Hd; [| congruence |].
    + destruct (Math_max_Num acc d) as (m & -> & Ham & Hdm & Hm).
      destruct (IH m Hrest) as (q & Hq & Hmq & Hub & Hatt).
      exists q. split; [exact Hq |]. split; [lra |]. split.
      * intros e' d' [<- | Hin] Hd'.
        -- rewrite Hd in Hd'. injection Hd' as <-. lra.
        -- now apply (Hub e').
      * destruct Hatt as [-> | (e' & Hin & He')].
        -- destruct Hm as [-> | ->]; [now left |].
           right. exists e. split; [now left | exact Hd].
        -- right. exists e'. split; [now right | exact He'].
    + destruct (IH acc Hrest) as (q & Hq & Haq & Hub & Hatt).
      exists q. split; [exact Hq |]. split; [exact Haq |]. split.
      * intros e' d' [<- | Hin] Hd'; [congruence | now apply (Hub e')].
      * destruct Hatt as [-> | (e' & Hin & He')]; [now left |].
        right. exists e'. split; [now right | exact He'].
Qed.

(** X4. On a log none of whose events of the given type carries the
    duration NaN, [longestDuration] is a non-negative number, at least
    the numeric duration of every event of that type, and it is 0 or
    the duration of one of them; events of other types and events
    without a numeric duration play no part. *)
Theorem longestDuration_is_maximum
  (events : list SessionEvent.t) (type : string)
  (Hnumbers : Forall (fun e => durationOf type e <> Some NaN) events) :
  exists q,
    longestDuration events type = Num q
    /\ (0 <= q)%Q
    /\ (forall e d, In e events -> durationOf type e = Some (Num d) -> (d <= q)%Q)
    /\ (q = 0%Q \/ exists e, In e events /\ durationOf type e = Some (Num q)).
Proof.
  rewrite longestDuration_fold.
  destruct (longest_fold_bound type events 0 Hnumbers) as (q & Hq & H0 & Hub & Hatt).
  exists q. repeat split; assumption.
Qed.

Lemma longestDuration_is_maximum_witness :
  exists q, longestDuration exampleEvents "GAZE_AWAY" = Num q /\ (0 <= q)%Q.
Proof.
  assert (H : Forall (fun e => durationOf "GAZE_AWAY" e <> Some NaN) exampleEvents)
    by (repeat (constructor; [discriminate |]); constructor).
  destruct (longestDuration_is_maximum exampleEvents "GAZE_AWAY" H)
    as (q & Hq & H0 & _).
  exists q. split; assumption.
Defined.

Lemma longest_fold_NaN (type : string) (events : list SessionEvent.t) :
  fold_left (longestStep type) events NaN = NaN.
Proof.
  induction events as [| e events IH]; [reflexivity |].
  cbn [fold_left]. unfold longestStep at 2.
  destruct (durationOf type e) as [[d |] |]; exact IH.
Qed.

(** X5. One event of the given type whose duration is NaN turns the
    longest duration of the whole log into NaN, whatever the other
    events are. *)
Theorem longestDuration_NaN
  (events : list SessionEvent.t) (type : string) (e : SessionEvent.t)
  (Hin : In e events) (Hnan : durationOf type e = Some NaN) :
  longestDuration events type = NaN.
Proof.
  rewrite longestDuration_fold. generalize (Js.ofZ 0).
  induction events as [| e' events IH]; intros acc; [destruct Hin |].
  cbn [fold_left]. destruct Hin as [-> | Hin].
  - unfold longestStep at 2. rewrite Hnan.
    replace (Js.Math_max acc NaN) with NaN by (now destruct acc).
    apply longest_fold_NaN.
  - now apply IH.
Qed.

Lemma longestDuration_NaN_witness :
  longestDuration (nanDurationEvent :: exampleEvents) "GAZE_AWAY" = NaN.
Proof.
  apply (longestDuration_NaN (nanDurationEvent :: exampleEvents) "GAZE_AWAY"
           nanDurationEvent).
  - left. reflexivity.
  - reflexivity.
Defined.

(** ** Risk level displays *)

Lemma Qle_bool_inject_Z (a b : Z) : Qle_bool (inject_Z a) (inject_Z b) = (a <=? b).
Proof.
  destruct (Z.leb_spec a b) as [H | H].
  - apply Qle_bool_iff. now rewrite <- Zle_Qle.
  - apply not_true_iff_false. rewrite Qle_bool_iff, <- Zle_Qle. lia.
Qed.

Lemma ge_ofZ (a b : Z) : Js.ge (Js.ofZ a) (Js.ofZ b) = (b <=? a).
Proof. apply Qle_bool_inject_Z. Qed.

Lemma lt_ofZ (a b : Z) : Js.lt (Js.ofZ a) (Js.ofZ b) = (a <? b).
Proof.
  unfold Js.lt, Js.ofZ. rewrite Qle_bool_inject_Z.
  destruct (Z.leb_spec b a), (Z.ltb_spec a b); try reflexivity; lia.
Qed.

Lemma indicatorClamp_id (s : Z) :
  0 <= s <= 100 -> indicatorClamp (Js.ofZ s) = Js.ofZ s.
Proof.
  intros Hs. unfold indicatorClamp, JsArith.Math_min, Js.Math_max, Js.ofZ.
  rewrite Qle_bool_inject_Z.
  destruct (Z.leb_spec 100 s) as [H | H]; rewrite Qle_bool_inject_Z.
  - assert (s = 100) as -> by lia. reflexivity.
  - destruct (Z.leb_spec 0 s); [reflexivity | lia].
Qed.

(** X6. The places that display a risk level agree with the risk
    calculator: on every score it returns, the clamp of the risk
    indicator changes nothing, and the indicator label, the label
    written into the report prompt and the accent of the metrics tile
    are those of the calculator's level. *)
Theorem risk_level_displays_agree (input : RiskInput) :
  let out := calculateRiskScore input in
  indicatorClamp (Js.ofZ (score out)) = Js.ofZ (score out)
  /\ indicatorLabel (getRiskLevel (indicatorClamp (Js.ofZ (score out))))
     = levelLabel (level out)
  /\ promptRiskLabel (Js.ofZ (score out)) = levelLabel (level out)
  /\ riskAccent (Js.ofZ (score out))
     = match level out with
       | High => "danger"
       | Medium => "warning"
       | Low => "normal"
       end.
Proof.
  intros out.
  assert (Hs : 0 <= score out <= 100) by (subst out; rewrite score_eq; lia).
  split; [now apply indicatorClamp_id |].
  rewrite indicatorClamp_id by exact Hs.
  unfold getRiskLevel, promptRiskLabel, riskAccent.
  rewrite !ge_ofZ. subst out. rewrite level_eq.
  destruct (70 <=? score (calculateRiskScore input));
    [| destruct (35 <=? score (calculateRiskScore input))]; repeat split.
Qed.

(** ** Payload validation *)

Lemma Qround_ge (y : Q) (k : Z) :
  (inject_Z k <= y + (1 # 2))%Q -> k <= Js.Qround y.
Proof.
  intros H. unfold Js.Qround. rewrite <- (Qfloor_Z k).
  now apply Qfloor_resp_le.
Qed.

Lemma Qround_lt (y : Q) (k : Z) :
  (y + (1 # 2) < inject_Z k)%Q -> Js.Qround y < k.
Proof.
  intros H. unfold Js.Qround. rewrite Zlt_Qlt.
  eapply Qle_lt_trans; [apply Qfloor_le | exact H].
Qed.

Lemma payload_fields (p : GeminiPayload.t) :
  JsArith.field (payloadObject p) "sessionDurationSec"
  = Js.VNumber (GeminiPayload.sessionDurationSec p)
  /\ JsArith.field (payloadObject p) "riskScore"
     = Js.VNumber (Js.ofZ (GeminiPayload.riskScore p))
  /\ JsArith.field (payloadObject p) "focusRatio"
     = Js.VNumber (GeminiPayload.focusRatio p).
Proof.
  repeat split; reflexivity.
Qed.

Lemma outOfRange_Num (hi : Z) (q : Q) :
  (0 <= q <= inject_Z hi)%Q ->
  outOfRange (Js.ofZ hi) (Js.VNumber (Num q)) = false.
Proof.
  intros [Hlo Hhi]. unfold outOfRange. cbn [JsArith.isFinite negb orb].
  apply orb_false_iff. split; apply not_true_iff_false.
  - change (Js.ofZ 0) with (Num 0). rewrite lt_Num. lra.
  - unfold Js.gt, Js.ofZ. rewrite lt_Num. lra.
Qed.

Lemma invalidDuration_ofZ (z : Z) :
  invalidDuration (Js.VNumber (Js.ofZ z)) = (z <=? 0).
Proof. apply Qle_bool_inject_Z. Qed.

Lemma built_payload_fields
  (events : list SessionEvent.t) (durationMs ratio : Q)
  (Hduration : (500 <= durationMs)%Q) (Hratio : (0 <= ratio <= 1)%Q) :
  let p := payloadObject (buildGeminiPayload events (Num durationMs) (Num ratio)) in
  let sec := Js.Qround (Qred (durationMs / inject_Z 1000)) in
  JsArith.field p "sessionDurationSec" = Js.VNumber (Js.ofZ sec)
  /\ invalidDuration (JsArith.field p "sessionDurationSec") = false
  /\ outOfRange (Js.ofZ 100) (JsArith.field p "riskScore") = false
  /\ outOfRange (Js.ofZ 1) (JsArith.field p "focusRatio") = false.
Proof.
  intros p.
  destruct (payload_fields
              (buildGeminiPayload events (Num durationMs) (Num ratio)))
    as (Fd & Fr & Ff).
  fold p in Fd, Fr, Ff.
  cbn [buildGeminiPayload GeminiPayload.sessionDurationSec
       GeminiPayload.riskScore GeminiPayload.focusRatio] in Fd, Fr, Ff.
  intros sec.
  assert (Fd' : JsArith.field p "sessionDurationSec" = Js.VNumber (Js.ofZ sec))
    by (rewrite Fd; reflexivity).
  assert (Hsec1 : 1 <= sec).
  { apply Qround_ge. rewrite Qred_correct. change (inject_Z 1000) with 1000%Q.
    change (inject_Z 1) with 1%Q.
    assert (H : (1 # 2 <= durationMs / 1000)%Q)
      by (apply Qle_shift_div_l; lra).
    lra. }
  split; [exact Fd' |].
  split; [rewrite Fd', invalidDuration_ofZ; apply Z.leb_gt; lia |].
  split.
  - rewrite Fr. apply outOfRange_Num. rewrite score_eq.
    change 0%Q with (inject_Z 0). rewrite <- !Zle_Qle. lia.
  - rewrite Ff. cbn [Js.mul Js.ofZ Js.Math_round Js.div].
    change (Qeq_bool (inject_Z 100) 0) with false. cbv iota.
    apply outOfRange_Num. rewrite Qred_correct.
    assert (Hr : 0 <= Js.Qround (Qred (ratio * inject_Z 100)) <= 100).
    { apply Qround_bounds. rewrite Qred_correct.
      change (inject_Z 0) with 0%Q. change (inject_Z 100) with 100%Q. lra. }
    set (r := Js.Qround (Qred (ratio * inject_Z 100))) in *.
    assert (H0 : (0 <= inject_Z r)%Q)
      by (change 0%Q with (inject_Z 0); rewrite <- Zle_Qle; lia).
    assert (H1 : (inject_Z r <= 100)%Q)
      by (change 100%Q with (inject_Z 100); rewrite <- Zle_Qle; lia).
    change (inject_Z 100) with 100%Q. change (inject_Z 1) with 1%Q.
    split; [apply Qle_shift_div_l; lra | apply Qle_shift_div_r; lra].
Qed.

Lemma seconds_at_least_five (durationMs : Q) :
  (4500 <= durationMs)%Q -> 5 <= Js.Qround (Qred (durationMs / inject_Z 1000)).
Proof.
  intros Hd. apply Qround_ge. rewrite Qred_correct.
  change (inject_Z 1000) with 1000%Q. change (inject_Z 5) with 5%Q.
  assert (H : (9 # 2 <= durationMs / 1000)%Q) by (apply Qle_shift_div_l; lra).
  lra.
Qed.

(** X7. The payload built by [buildGeminiPayload] from a session of
    at least half a second and a focus ratio of [0, 1] passes the
    validation of the server route, whatever the log; the report hook
    requests the report when the session lasted at least 4500 ms (a
    duration that rounds to 5 s) and rejects it as too short below. *)
Theorem built_payload_validation
  (events : list SessionEvent.t) (durationMs ratio : Q)
  (Hduration : (500 <= durationMs)%Q) (Hratio : (0 <= ratio <= 1)%Q) :
  let p := payloadObject (buildGeminiPayload events (Num durationMs) (Num ratio)) in
  validatePayloadServer p = None
  /\ ((4500 <= durationMs)%Q -> generateReport false p = Requested)
  /\ ((durationMs < 4500)%Q ->
      generateReport false p
      = Rejected "Session too short for analysis. (Minimum: 5s)").
Proof.
  intros p.
  destruct (built_payload_fields events durationMs ratio Hduration Hratio)
    as (Fd' & Hdur & Hrisk & Hfocus).
  fold p in Fd', Hdur, Hrisk, Hfocus.
  set (sec := Js.Qround (Qred (durationMs / inject_Z 1000))) in *.
  split; [unfold validatePayloadServer; now rewrite Hdur, Hrisk, Hfocus |].
  unfold generateReport. rewrite Hdur, Hrisk, Hfocus, Fd'.
  unfold MIN_SESSION_DURATION_SEC. rewrite lt_ofZ.
  split; intros Hd.
  - pose proof (seconds_at_least_five durationMs Hd) as Hsec5. fold sec in Hsec5.
    destruct (Z.ltb_spec sec 5); [lia | reflexivity].
  - assert (Hsec5 : sec < 5).
    { apply Qround_lt. rewrite Qred_correct. change (inject_Z 1000) with 1000%Q.
      change (inject_Z 5) with 5%Q.
      assert (H : (durationMs / 1000 < 9 # 2)%Q)
        by (apply Qlt_shift_div_r; lra).
      lra. }
    destruct (Z.ltb_spec sec 5); [reflexivity | lia].
Qed.

Lemma built_payload_validation_witness :
  generateReport false
    (payloadObject (buildGeminiPayload exampleEvents (Num 120000) (Num (88 # 100))))
  = Requested.
Proof.
  assert (Hd : (500 <= 120000)%Q) by lra.
  assert (Hr : (0 <= 88 # 100 <= 1)%Q) by lra.
  destruct (built_payload_validation exampleEvents 120000 (88 # 100) Hd Hr)
    as (_ & Hreq & _).
  apply Hreq. lra.
Defined.

(** X8. The report hook is at least as strict as the server route:
    every payload object for which the hook requests a report passes
    the validation of the route. *)
Theorem requested_payload_passes_server
  (p : gmap string Js.value) (Hrequested : generateReport false p = Requested) :
  validatePayloadServer p = None.
Proof.
  unfold generateReport in Hrequested. unfold validatePayloadServer.
  destruct (invalidDuration (JsArith.field p "sessionDurationSec"));
    [discriminate |].
  destruct (match JsArith.field p "sessionDurationSec" with
            | Js.VNumber n => Js.lt n MIN_SESSION_DURATION_SEC
            | _ => false
            end); [discriminate |].
  destruct (outOfRange (Js.ofZ 100) (JsArith.field p "riskScore"));
    [discriminate |].
  destruct (outOfRange (Js.ofZ 1) (JsArith.field p "focusRatio"));
    [discriminate | reflexivity].
Qed.

Lemma requested_payload_passes_server_witness :
  validatePayloadServer (payloadObject examplePayload) = None.
Proof.
  apply (requested_payload_passes_server (payloadObject examplePayload)).
  reflexivity.
Defined.

(** ** Tab-switch logging *)

Lemma fold_tabTriggers (createEventId : Z -> string) (triggers : list TabTrigger) :
  forall (last : Z) (acc : list SessionEvent.t),
    fold_left
      (fun acc tr =>
         let out := onTabTrigger createEventId acc.1 tr in
         (out.1, (acc.2 ++ out.2)%list))
      triggers (last, acc)
    = ((runTabTriggers createEventId last triggers).1,
       (acc ++ (runTabTriggers createEventId last triggers).2)%list).
Proof.
  unfold runTabTriggers.
  induction triggers as [| tr triggers IH]; intros last acc; cbn [fold_left].
  - cbn. now rewrite app_nil_r.
  - cbn [fst snd]. rewrite IH. symmetry. rewrite IH. cbn [fst snd].
    now rewrite app_nil_l, app_assoc.
Qed.

Lemma runTabTriggers_cons (createEventId : Z -> string) (last : Z)
  (tr : TabTrigger) (triggers : list TabTrigger) :
  runTabTriggers createEventId last (tr :: triggers)
  = ((runTabTriggers createEventId (onTabTrigger createEventId last tr).1
        triggers).1,
     ((onTabTrigger createEventId last tr).2
      ++ (runTabTriggers createEventId (onTabTrigger createEventId last tr).1
            triggers).2)%list).
Proof.
  unfold runTabTriggers at 1. cbn [fold_left fst snd]. rewrite app_nil_l.
  now rewrite fold_tabTriggers.
Qed.

Lemma onTabTrigger_cases (createEventId : Z -> string) (last : Z)
  (tr : TabTrigger) :
  onTabTrigger createEventId last tr = (last, [])
  \/ (COALESCE_WINDOW_MS <= triggerNow tr - last
      /\ exists e,
           onTabTrigger createEventId last tr = (triggerNow tr, [e])
           /\ SessionEvent.type e = "TAB_SWITCH"
           /\ SessionEvent.timestamp e = triggerNow tr).
Proof.
  unfold onTabTrigger, logTabSwitch.
  destruct (signal tr);
    [destruct (String.eqb (visibilityState tr) "visible"); [now left |] |];
    (destruct (Z.ltb_spec (triggerNow tr - last) COALESCE_WINDOW_MS);
     [now left | right; split; [assumption | eexists; repeat split]]).
Qed.

(** X9. Tab switches are coalesced: whatever signals arrive and
    whenever, each logged TAB_SWITCH event is at least 800 ms after the
    one logged before it, no signal logs more than one event, and every
    event logged by the listeners is a TAB_SWITCH. *)
Theorem tab_switch_coalescing
  (createEventId : Z -> string) (triggers : list TabTrigger) (last : Z) :
  spacedBy COALESCE_WINDOW_MS last
    (map SessionEvent.timestamp (runTabTriggers createEventId last triggers).2)
  /\ Forall (fun e => SessionEvent.type e = "TAB_SWITCH")
       (runTabTriggers createEventId last triggers).2
  /\ (length (runTabTriggers createEventId last triggers).2 <= length triggers)%nat.
Proof.
  revert last. induction triggers as [| tr triggers IH]; intros last.
  - repeat split; [constructor | simpl; lia].
  - rewrite runTabTriggers_cons. cbn [fst snd].
    destruct (onTabTrigger_cases createEventId last tr)
      as [-> | (Hgap & e & -> & Hty & Hts)]; cbn [fst snd app].
    + destruct (IH last) as (I1 & I2 & I3). repeat split; [assumption .. |].
      simpl; lia.
    + destruct (IH (triggerNow tr)) as (I1 & I2 & I3).
      cbn [map spacedBy]. rewrite Hts. repeat split; try assumption.
      * constructor; assumption.
      * simpl; lia.
Qed.

(** ** Events raised by a measurement tick *)

Lemma gazeTick_events (createEventId : Z -> string) (s : Refs)
  (frameNow deltaMs : Z) (result : GazeResult.t) :
  let out := gazeTick createEventId s frameNow deltaMs result in
  (out.2 = [] /\ lastGazeAlertTimeRef out.1 = lastGazeAlertTimeRef s
   /\ lastFaceAbsentTimeRef out.1 = lastFaceAbsentTimeRef s
   /\ longestGazeAwayRef out.1 = longestGazeAwayRef s)
  \/ (exists d,
        out.2 = [gazeAwayEvent createEventId frameNow d result]
        /\ faceAbsent result = false
        /\ requiredSustainOf result <= d
        /\ GAZE_COOLDOWN_MS <= frameNow - lastGazeAlertTimeRef s
        /\ lastGazeAlertTimeRef out.1 = frameNow
        /\ lastFaceAbsentTimeRef out.1 = lastFaceAbsentTimeRef s
        /\ longestGazeAwayRef out.1 = Z.max (longestGazeAwayRef s) d)
  \/ (exists d,
        out.2 = [faceAbsentEvent createEventId frameNow d]
        /\ faceAbsent result = true
        /\ FACE_ABSENCE_SUSTAIN_MS <= d
        /\ FACE_ABSENCE_COOLDOWN_MS <= frameNow - lastFaceAbsentTimeRef s
        /\ lastFaceAbsentTimeRef out.1 = frameNow
        /\ lastGazeAlertTimeRef out.1 = lastGazeAlertTimeRef s
        /\ longestGazeAwayRef out.1 = longestGazeAwayRef s).
Proof.
  cbn zeta. unfold gazeTick.
  destruct (faceAbsent result) eqn:Habs.
  - unfold absenceTick.
    match goal with
    | |- context [if ?c then [ _ ] else []] => destruct c eqn:Hfire
    end; cbn [fst snd lastGazeAlertTimeRef lastFaceAbsentTimeRef longestGazeAwayRef].
    + right; right. eexists. split; [reflexivity |].
      apply andb_true_iff in Hfire as [Hfire Hcool].
      apply andb_true_iff in Hfire as [Hsus _].
      apply Z.leb_le in Hsus, Hcool. repeat split; assumption.
    + left. repeat split.
  - unfold presentTick.
    destruct (GazeResult.inSafeZone result); [left; repeat split |].
    destruct (GazeResult.isStrongDeviation result); cbn [negb];
      [| left; repeat split].
    match goal with
    | |- context [if ?c then [ _ ] else []] => destruct c eqn:Hfire
    end; cbn [fst snd lastGazeAlertTimeRef lastFaceAbsentTimeRef longestGazeAwayRef
              andb].
    + right; left. eexists. split; [reflexivity |].
      assert (Hfire' :
        (requiredSustainOf result
           <=? frameNow
               - default frameNow
                   (if match gazeStateRef s with NORMAL => true | _ => false end
                    then Some frameNow else deviationStartRef s)) = true
        /\ (GAZE_COOLDOWN_MS <=? frameNow - lastGazeAlertTimeRef s) = true).
      { unfold requiredSustainOf.
        destruct (gazeStateRef s); cbn in Hfire; try discriminate;
          apply andb_true_iff in Hfire; exact Hfire. }
      destruct Hfire' as [Hsus Hcool]. apply Z.leb_le in Hsus, Hcool.
      repeat split; try assumption.
      match goal with
      | |- (if ?a <? ?b then _ else _) = _ => destruct (Z.ltb_spec a b); lia
      end.
    + left. repeat split.
Qed.

Lemma metadata_durationMs_gazeAway (createEventId : Z -> string)
  (frameNow d : Z) (result : GazeResult.t) :
  metadata_durationMs (gazeAwayEvent createEventId frameNow d result)
  = Js.VNumber (Js.ofZ d).
Proof. reflexivity. Qed.

Lemma metadata_durationMs_faceAbsent (createEventId : Z -> string)
  (frameNow d : Z) :
  metadata_durationMs (faceAbsentEvent createEventId frameNow d)
  = Js.VNumber (Js.ofZ d).
Proof. reflexivity. Qed.

(** X10. A measurement tick raises at most one event, and never a
    gaze event together with an absence event.  The event is stamped
    with the tick's clock reading; a GAZE_AWAY event is a warning of a
    face-present tick and reports a duration of at least the required
    sustain (3500 ms centered, 2500 ms otherwise); a FACE_ABSENT event
    is suspicious, comes from an absent tick and reports at least
    2500 ms. *)
Theorem gazeTick_event_shape
  (createEventId : Z -> string) (s : Refs) (frameNow deltaMs : Z)
  (result : GazeResult.t) :
  (length (gazeTick createEventId s frameNow deltaMs result).2 <= 1)%nat
  /\ Forall (tickEventShape frameNow result)
       (gazeTick createEventId s frameNow deltaMs result).2
  /\ SUSTAIN_DURATION_MS <= requiredSustainOf result.
Proof.
  split; [| split].
  - destruct (gazeTick_events createEventId s frameNow deltaMs result)
      as [(-> & _) | [(d & -> & _) | (d & -> & _)]]; simpl; lia.
  - destruct (gazeTick_events createEventId s frameNow deltaMs result)
      as [(-> & _) | [(d & -> & Hp & Hd & _) | (d & -> & Ha & Hd & _)]].
    + constructor.
    + constructor; [| constructor]. split; [reflexivity |].
      exists d. split; [reflexivity |]. left. repeat split; assumption.
    + constructor; [| constructor]. split; [reflexivity |].
      exists d. split; [reflexivity |]. right. repeat split; assumption.
  - unfold requiredSustainOf. destruct (GazeResult.isCentered result);
      unfold SUSTAIN_DURATION_MS, CENTERED_SUSTAIN_DURATION_MS; lia.
Qed.

(** ** Rate limits over arbitrary runs of ticks *)

Lemma timestampsOf_app (type : string) (events more : list SessionEvent.t) :
  timestampsOf type (events ++ more)
  = (timestampsOf type events ++ timestampsOf type more)%list.
Proof. unfold timestampsOf. now rewrite List.filter_app, map_app. Qed.

Lemma last_nonempty (t : Z) (ts : list Z) (d d' : Z) :
  List.last (t :: ts) d = List.last (t :: ts) d'.
Proof.
  revert t. induction ts as [| t' ts IH]; intros t; [reflexivity |].
  change (List.last (t' :: ts) d = List.last (t' :: ts) d'). apply IH.
Qed.

Lemma spacedBy_app (gap last : Z) (ts more : list Z) :
  spacedBy gap last ts ->
  spacedBy gap (List.last ts last) more ->
  spacedBy gap last (ts ++ more).
Proof.
  revert last. induction ts as [| t ts IH]; intros last Hts Hmore.
  - exact Hmore.
  - destruct Hts as [Hgap Hrest]. cbn [app spacedBy]. split; [exact Hgap |].
    apply IH; [exact Hrest |].
    destruct ts as [| t' ts]; [exact Hmore |].
    change (List.last (t :: t' :: ts) last) with (List.last (t' :: ts) last) in Hmore.
    now rewrite (last_nonempty t' ts t last).
Qed.

Lemma last_app_default (ts more : list Z) (d : Z) :
  List.last (ts ++ more) d = List.last more (List.last ts d).
Proof.
  revert d. induction ts as [| t ts IH]; intros d; [reflexivity |].
  destruct ts as [| t' ts].
  - destruct more as [| z more]; [reflexivity |].
    change (List.last (z :: more) d = List.last (z :: more) t).
    apply last_nonempty.
  - change (List.last ((t' :: ts) ++ more) d
            = List.last more (List.last (t' :: ts) d)).
    apply IH.
Qed.

(** X11. Alerts are rate limited over any sequence of ticks, of any
    kind and from any state: each GAZE_AWAY event is at least 5000 ms
    after the previous alert, each FACE_ABSENT event at least 5000 ms
    after the previous one, and the two cells hold the time of the
    last event of their kind. *)
Theorem alerts_rate_limited
  (createEventId : Z -> string) (ticks : list Tick) (s : Refs) :
  let out := runTicks createEventId s ticks in
  spacedBy GAZE_COOLDOWN_MS (lastGazeAlertTimeRef s)
    (timestampsOf "GAZE_AWAY" out.2)
  /\ lastGazeAlertTimeRef out.1
     = List.last (timestampsOf "GAZE_AWAY" out.2) (lastGazeAlertTimeRef s)
  /\ spacedBy FACE_ABSENCE_COOLDOWN_MS (lastFaceAbsentTimeRef s)
       (timestampsOf "FACE_ABSENT" out.2)
  /\ lastFaceAbsentTimeRef out.1
     = List.last (timestampsOf "FACE_ABSENT" out.2) (lastFaceAbsentTimeRef s).
Proof.
  cbn zeta. revert s. induction ticks as [| tk ticks IH]; intros s.
  - repeat split.
  - rewrite runTicks_cons. cbn [fst snd].
    rewrite !timestampsOf_app, !last_app_default.
    destruct (IH (gazeTick createEventId s (tickNow tk) (tickDelta tk)
                    (tickResult tk)).1) as (I1 & I2 & I3 & I4).
    destruct (gazeTick_events createEventId s (tickNow tk) (tickDelta tk)
                (tickResult tk))
      as [(He & Hg & Hf & _)
         | [(d & He & _ & _ & Hcool & Hg & Hf & _)
           | (d & He & _ & _ & Hcool & Hf & Hg & _)]];
      cbn zeta in *; rewrite He; cbn [timestampsOf List.filter map app List.last
                                       SessionEvent.type gazeAwayEvent
                                       faceAbsentEvent String.eqb Ascii.eqb
                                       Bool.eqb SessionEvent.timestamp];
      rewrite Hg in I1, I2; rewrite Hf in I3, I4.
    + repeat split; assumption.
    + repeat split; assumption.
    + repeat split; assumption.
Qed.

(** ** The longest gaze-away cell *)

Lemma Math_max_ofZ (a b : Z) :
  Js.Math_max (Js.ofZ a) (Js.ofZ b) = Js.ofZ (Z.max a b).
Proof.
  unfold Js.Math_max, Js.ofZ. rewrite Qle_bool_inject_Z.
  destruct (Z.leb_spec a b); f_equal; f_equal; lia.
Qed.

Lemma longest_fold_app (type : string) (events more : list SessionEvent.t)
  (acc : number) :
  fold_left (longestStep type) (events ++ more) acc
  = fold_left (longestStep type) more (fold_left (longestStep type) events acc).
Proof. apply fold_left_app. Qed.

Lemma longest_cell_run (createEventId : Z -> string) (ticks : list Tick) :
  forall (s : Refs) (log : list SessionEvent.t),
    fold_left (longestStep "GAZE_AWAY") log (Js.ofZ 0)
    = Js.ofZ (longestGazeAwayRef s) ->
    fold_left (longestStep "GAZE_AWAY")
      (log ++ (runTicks createEventId s ticks).2) (Js.ofZ 0)
    = Js.ofZ (longestGazeAwayRef (runTicks createEventId s ticks).1).
Proof.
  induction ticks as [| tk ticks IH]; intros s log Hlog.
  - cbn. now rewrite app_nil_r.
  - rewrite runTicks_cons. cbn [fst snd]. rewrite app_assoc. apply IH.
    rewrite longest_fold_app, Hlog.
    destruct (gazeTick_events createEventId s (tickNow tk) (tickDelta tk)
                (tickResult tk))
      as [(He & _ & _ & Hl)
         | [(d & He & _ & _ & _ & _ & _ & Hl)
           | (d & He & _ & _ & _ & _ & _ & Hl)]];
      cbn zeta in *; rewrite He, Hl; cbn [fold_left].
    + reflexivity.
    + unfold longestStep, durationOf. cbn [SessionEvent.type gazeAwayEvent].
      rewrite String.eqb_refl, metadata_durationMs_gazeAway.
      apply Math_max_ofZ.
    + reflexivity.
Qed.

(** X12. Over any sequence of ticks from the initial state, the cell
    [longestGazeAwayRef] holds exactly what [longestDuration] computes
    for GAZE_AWAY from the events raised. *)
Theorem longest_cell_matches_log
  (createEventId : Z -> string) (ticks : list Tick) :
  Js.ofZ (longestGazeAwayRef (runTicks createEventId initialRefs ticks).1)
  = longestDuration (runTicks createEventId initialRefs ticks).2 "GAZE_AWAY".
Proof.
  rewrite longestDuration_fold. symmetry.
  apply (longest_cell_run createEventId ticks initialRefs []). reflexivity.
Qed.

(** ** The loop: log, cooldown registry and accounted time *)

Lemma fold_addEvent (new log : list SessionEvent.t) :
  fold_left addEvent new log = (log ++ new)%list.
Proof.
  revert log. induction new as [| e new IH]; intros log; cbn [fold_left].
  - now rewrite app_nil_r.
  - rewrite IH. unfold addEvent. now rewrite <- app_assoc.
Qed.

Lemma aiLoop_effects (createEventId : Z -> string) (f : Frame) (m : Monitor) :
  aiLoop createEventId f m = m
  \/ exists (gazeEvents objectEvents : list SessionEvent.t)
            (cooldown : gmap string Z),
       events (aiLoop createEventId f m)
       = (events m ++ gazeEvents ++ objectEvents)%list
       /\ objectCooldownMap (aiLoop createEventId f m) = cooldown
       /\ (gazeEvents = []
           \/ exists predictions,
                gazeEvents
                = (gazeTick createEventId (refs m) (frameNow f)
                     (frameNow f - lastFrameTimeRef m)
                     (runGazeInference (gazeClock f) predictions)).2)
       /\ ((objectEvents = [] /\ cooldown = objectCooldownMap m)
           \/ exists raw,
                objectLoop createEventId (frameNow f) (objectCooldownMap m)
                  (ObjectDetectionResult.detections
                     (runObjectDetection (objectClock f) raw))
                = (cooldown, objectEvents)).
Proof.
  unfold aiLoop. destruct (isSessionActive f); cbn [negb]; [| now left].
  right. unfold timeQualityStep, objectStep, gazeStep.
  destruct (Qle_bool INFERENCE_INTERVAL_MS (now f - lastGazeInferenceRef _)),
    (facePredictions f) as [predictions |];
    cbn [refs objectCooldownMap lastObjInferenceRef events];
    destruct (Qle_bool _ (now f - lastObjInferenceRef m)),
      (rawPredictions f) as [raw |];
    cbn [refs objectCooldownMap events];
    match goal with
    | |- context [if ?c then _ else _] => destruct c
    end;
    cbn [refs objectCooldownMap events];
    rewrite ?fold_addEvent;
    lazymatch goal with
    | |- context [gazeTick _ _ _ _ (runGazeInference _ ?ps)] =>
        lazymatch goal with
        | |- context [objectLoop _ _ _ (ObjectDetectionResult.detections
                                          (runObjectDetection _ ?rw))] =>
            eexists _, _, _; split; [rewrite <- app_assoc; reflexivity |];
            split; [reflexivity |];
            split; [right; exists ps; reflexivity |];
            right; exists rw; apply surjective_pairing
        | |- _ =>
            eexists _, [], _; split; [rewrite app_nil_r; reflexivity |];
            split; [reflexivity |];
            split; [right; exists ps; reflexivity |];
            left; split; reflexivity
        end
    | |- _ =>
        lazymatch goal with
        | |- context [objectLoop _ _ _ (ObjectDetectionResult.detections
                                          (runObjectDetection _ ?rw))] =>
            eexists [], _, _; split; [reflexivity |];
            split; [reflexivity |];
            split; [left; reflexivity |];
            right; exists rw; apply surjective_pairing
        | |- _ =>
            eexists [], [], _; split; [rewrite app_nil_r; reflexivity |];
            split; [reflexivity |];
            split; [left; reflexivity |];
            left; split; reflexivity
        end
    end.
Qed.

Lemma gazeTick_event_types (createEventId : Z -> string) (s : Refs)
  (frameNow deltaMs : Z) (result : GazeResult.t) :
  Forall (fun e => loopEventType (SessionEvent.type e) = true)
    (gazeTick createEventId s frameNow deltaMs result).2.
Proof.
  destruct (gazeTick_events createEventId s frameNow deltaMs result)
    as [(-> & _) | [(d & -> & _) | (d & -> & _)]];
    repeat constructor.
Qed.

Lemma objectLoop_event_types (createEventId : Z -> string) (frameNow : Z)
  (cooldown : gmap string Z) (detections : list DetectedObject.t) :
  Forall (fun e => loopEventType (SessionEvent.type e) = true)
    (objectLoop createEventId frameNow cooldown detections).2.
Proof.
  eapply Forall_impl; [apply objectLoop_events |]. cbn beta.
  intros e (d & _ & ->). reflexivity.
Qed.

(** X13. The log is append-only under the inference loop: after any
    sequence of frames the old log is a prefix of the new one, and
    every event the loop added is a GAZE_AWAY, a FACE_ABSENT or an
    OBJECT_DETECTED event. *)
Theorem loop_log_append_only
  (createEventId : Z -> string) (frames : list Frame) (m : Monitor) :
  exists new,
    events (runFrames createEventId m frames) = (events m ++ new)%list
    /\ Forall (fun e => loopEventType (SessionEvent.type e) = true) new.
Proof.
  revert m. induction frames as [| f frames IH]; intros m.
  - exists []. split; [now rewrite app_nil_r | constructor].
  - cbn [runFrames fold_left].
    destruct (IH (aiLoop createEventId f m)) as (new & Hnew & Htypes).
    unfold runFrames in Hnew. rewrite Hnew.
    destruct (aiLoop_effects createEventId f m)
      as [-> | (ge & oe & cd & -> & _ & Hge & Hoe)].
    + exists new. split; [reflexivity | exact Htypes].
    + exists ((ge ++ oe) ++ new)%list. split; [now rewrite !app_assoc |].
      apply Forall_app. split; [| exact Htypes].
      apply Forall_app. split.
      * destruct Hge as [-> | (ps & ->)]; [constructor |].
        apply gazeTick_event_types.
      * destruct Hoe as [[-> _] | (raw & Hraw)]; [constructor |].
        pose proof (objectLoop_event_types createEventId (frameNow f)
                      (objectCooldownMap m)
                      (ObjectDetectionResult.detections
                         (runObjectDetection (objectClock f) raw))) as H.
        now rewrite Hraw in H.
Qed.

Lemma objectLoop_lastFor (createEventId : Z -> string) (frameNow : Z)
  (cooldown : gmap string Z) (detections : list DetectedObject.t)
  (label : string) :
  lastFor cooldown label
  <= lastFor (objectLoop createEventId frameNow cooldown detections).1 label
  /\ (is_Some (cooldown !! label) ->
      is_Some ((objectLoop createEventId frameNow cooldown detections).1 !! label)).
Proof.
  destruct (objectLoop_label createEventId frameNow label detections cooldown)
    as [_ Hmap].
  cbn zeta in Hmap. unfold lastFor. rewrite Hmap.
  destruct (offCooldown frameNow cooldown label) eqn:Hoff;
    [| split; [lia | tauto]].
  destruct (firstWithLabel label detections); [| split; [lia | tauto]].
  unfold offCooldown, lastFor in Hoff. apply Z.leb_le in Hoff.
  unfold OBJECT_DETECTION_COOLDOWN_MS in Hoff.
  change (default 0 (Some frameNow)) with frameNow.
  split; [lia | eauto].
Qed.

(** X14. The cooldown registry only moves forward: over any sequence
    of frames no label loses its entry, and the time recorded for a
    label never decreases. *)
Theorem cooldown_registry_monotone
  (createEventId : Z -> string) (frames : list Frame) (m : Monitor)
  (label : string) :
  lastFor (objectCooldownMap m) label
  <= lastFor (objectCooldownMap (runFrames createEventId m frames)) label
  /\ (is_Some (objectCooldownMap m !! label) ->
      is_Some (objectCooldownMap (runFrames createEventId m frames) !! label)).
Proof.
  revert m. induction frames as [| f frames IH]; intros m.
  - cbn [runFrames fold_left]. split; [lia | tauto].
  - cbn [runFrames fold_left].
    destruct (IH (aiLoop createEventId f m)) as [I1 I2].
    unfold runFrames in I1, I2.
    assert (Hstep :
      lastFor (objectCooldownMap m) label
      <= lastFor (objectCooldownMap (aiLoop createEventId f m)) label
      /\ (is_Some (objectCooldownMap m !! label) ->
          is_Some (objectCooldownMap (aiLoop createEventId f m) !! label))).
    { destruct (aiLoop_effects createEventId f m)
        as [-> | (ge & oe & cd & _ & -> & _ & Hoe)]; [split; [lia | tauto] |].
      destruct Hoe as [[_ ->] | (raw & Hraw)]; [split; [lia | tauto] |].
      pose proof (objectLoop_lastFor createEventId (frameNow f)
                    (objectCooldownMap m)
                    (ObjectDetectionResult.detections
                       (runObjectDetection (objectClock f) raw)) label) as H.
      now rewrite Hraw in H. }
    destruct Hstep as [S1 S2]. split; [lia | tauto].
Qed.

Lemma gazeTick_bucketSum (createEventId : Z -> string) (s : Refs)
  (frameNow deltaMs : Z) (result : GazeResult.t) :
  bucketSum (gazeTick createEventId s frameNow deltaMs result).1
  = bucketSum s + deltaMs.
Proof.
  unfold gazeTick, absenceTick, presentTick, bucketSum.
  destruct (faceAbsent result);
    [| destruct (GazeResult.inSafeZone result);
       [| destruct (GazeResult.isStrongDeviation result)]];
    simpl; lia.
Qed.

Lemma accounted_time_run (createEventId : Z -> string) (frames : list Frame) :
  forall (m : Monitor) (last : Z),
    lastFrameTimeRef m <= last ->
    clockMonotone last frames ->
    bucketSum (refs m) <= bucketSum (refs (runFrames createEventId m frames))
    /\ bucketSum (refs (runFrames createEventId m frames)) - bucketSum (refs m)
       <= lastFrameTimeRef (runFrames createEventId m frames) - lastFrameTimeRef m.
Proof.
  induction frames as [| f frames IH]; intros m last Hlast Hclock.
  - cbn. lia.
  - destruct Hclock as [Hf Hrest]. cbn [runFrames fold_left].
    destruct (aiLoop_steps createEventId f m)
      as [Hid | (m1 & Hframe & Hm1 & Hrefs & _)].
    + rewrite Hid. apply (IH m (frameNow f)); [lia | exact Hrest].
    + destruct (IH (aiLoop createEventId f m) (frameNow f)) as [I1 I2];
        [lia | exact Hrest |].
      unfold runFrames in I1, I2. rewrite Hrefs, Hframe in *.
      destruct Hm1 as [Heq | (ps & _ & Heq)]; rewrite Heq in *.
      * lia.
      * rewrite gazeTick_bucketSum in *. lia.
Qed.

(** X15. With a clock that never goes back, the time accounted for in
    the four buckets never decreases and never exceeds the time elapsed
    on the clock: frames that take no gaze measurement add nothing. *)
Theorem accounted_time_within_elapsed
  (createEventId : Z -> string) (frames : list Frame) (m : Monitor)
  (Hclock : clockMonotone (lastFrameTimeRef m) frames) :
  bucketSum (refs m) <= bucketSum (refs (runFrames createEventId m frames))
  /\ bucketSum (refs (runFrames createEventId m frames)) - bucketSum (refs m)
     <= lastFrameTimeRef (runFrames createEventId m frames) - lastFrameTimeRef m.
Proof.
  apply (accounted_time_run createEventId frames m (lastFrameTimeRef m));
    [lia | exact Hclock].
Qed.

Lemma accounted_time_within_elapsed_witness :
  bucketSum
    (refs (runFrames (fun _ => "id") (initialMonitor 10000)
             [focusedFrameAt 10100; focusedFrameAt 10200; focusedFrameAt 10250]))
  - bucketSum (refs (initialMonitor 10000))
  <= 10250 - 10000.
Proof.
  assert (Hclock : clockMonotone (lastFrameTimeRef (initialMonitor 10000))
                     [focusedFrameAt 10100; focusedFrameAt 10200;
                      focusedFrameAt 10250])
    by (simpl; lia).
  destruct (accounted_time_within_elapsed (fun _ => "id")
              [focusedFrameAt 10100; focusedFrameAt 10200; focusedFrameAt 10250]
              (initialMonitor 10000) Hclock) as [_ H].
  exact H.
Defined.

(** ** What [runGazeInference] hands to the loop *)

(** X16. The loop's absence test never disagrees with the verdict of
    [runGazeInference]: on every result it returns, the absence branch
    is taken exactly when no face is reported, a confidence of NaN
    included.  A result without a face carries no flag and belongs to
    the absence bucket; a result with a face carries the classifier's
    flags. *)
Theorem runGazeInference_verdict (now : Z) (predictions : list FacePrediction) :
  let r := runGazeInference now predictions in
  faceAbsent r = negb (GazeResult.faceDetected r)
  /\ GazeResult.timestamp r = now
  /\ (GazeResult.faceDetected r = false ->
      GazeResult.inSafeZone r = false
      /\ GazeResult.isStrongDeviation r = false
      /\ GazeResult.isCentered r = false
      /\ bucketOf r = Absence)
  /\ (GazeResult.faceDetected r = true ->
      classifiedByAngles r
      /\ Js.lt (GazeResult.faceDetectionConfidence r) MIN_FACE_CONFIDENCE = false)
  /\ (predictions = [] ->
      GazeResult.faceDetected r = false
      /\ GazeResult.faceDetectionConfidence r = Js.ofZ 0).
Proof.
  cbn zeta. unfold runGazeInference.
  destruct predictions as [| first rest].
  { repeat split; intros; try reflexivity; discriminate. }
  destruct (Js.lt _ MIN_FACE_CONFIDENCE) eqn:Hlow.
  - repeat split; intros; try reflexivity; discriminate.
  - unfold faceAbsent, bucketOf, faceAbsent, classifiedByAngles.
    cbn [GazeResult.faceDetected GazeResult.faceDetectionConfidence
         GazeResult.timestamp GazeResult.inSafeZone GazeResult.isStrongDeviation
         GazeResult.isCentered GazeResult.yawDeg GazeResult.pitchDeg negb orb].
    rewrite Hlow. repeat split; intros; try reflexivity; discriminate.
Qed.

Lemma pickBest_max (predictions : list FacePrediction) :
  forall (first : FacePrediction) (qf : Q),
    probability first = Some (Num qf) ->
    numericProbabilities predictions ->
    exists qb,
      probability (pickBest first predictions) = Some (Num qb)
      /\ (pickBest first predictions = first
          \/ In (pickBest first predictions) predictions)
      /\ (qf <= qb)%Q
      /\ (forall p q, In p predictions -> probability p = Some (Num q) ->
                      (q <= qb)%Q).
Proof.
  unfold pickBest.
  induction predictions as [| b rest IH]; intros first qf Hf Hall.
  - exists qf. repeat split; [exact Hf | now left | lra | intros p q []].
  - inversion Hall as [| ? ? (qb0 & Hb) Hrest]; subst. cbn [fold_left].
    destruct (Js.gt (default (Js.ofZ 0) (probability b))
                (default (Js.ofZ 0) (probability first))) eqn:Hlt;
      rewrite Hb, Hf in Hlt; cbn [default from_option id] in Hlt;
      unfold Js.gt in Hlt.
    + apply lt_Num in Hlt.
      destruct (IH b qb0 Hb Hrest) as (qb & Hp & Hin & Hle & Hmax).
      exists qb. split; [exact Hp |]. split.
      { right. destruct Hin as [-> | Hin]; [now left | now right]. }
      split; [lra |].
      intros p q [<- | Hp'] Hq.
      * rewrite Hb in Hq. injection Hq as <-. exact Hle.
      * now apply (Hmax p).
    + assert (Hge : (qb0 <= qf)%Q).
      { apply Qnot_lt_le. intros H. apply lt_Num in H. congruence. }
      destruct (IH first qf Hf Hrest) as (qb & Hp & Hin & Hle & Hmax).
      exists qb. split; [exact Hp |]. split.
      { destruct Hin as [-> | Hin]; [now left | right; now right]. }
      split; [exact Hle |].
      intros p q [<- | Hp'] Hq.
      * rewrite Hb in Hq. injection Hq as <-. lra.
      * now apply (Hmax p).
Qed.

(** X17. When every reported face has a numeric probability,
    [runGazeInference] settles on a most probable face: the confidence
    it returns is the probability of one of the faces and is at least
    the probability of every face; the face is reported as detected
    exactly when that probability is at least 0.6, and the angles of
    the result are then those of that face. *)
Theorem runGazeInference_most_probable
  (now : Z) (first : FacePrediction) (rest : list FacePrediction)
  (Hnumeric : numericProbabilities (first :: rest)) :
  let r := runGazeInference now (first :: rest) in
  let best := pickBest first (first :: rest) in
  exists qb,
    In best (first :: rest)
    /\ probability best = Some (Num qb)
    /\ GazeResult.faceDetectionConfidence r = Num qb
    /\ (forall p q, In p (first :: rest) -> probability p = Some (Num q) ->
                    (q <= qb)%Q)
    /\ (GazeResult.faceDetected r = true <-> (6 # 10 <= qb)%Q)
    /\ (GazeResult.faceDetected r = true ->
        GazeResult.yawDeg r = headYawDeg best
        /\ GazeResult.pitchDeg r = headPitchDeg best
        /\ GazeResult.isCentered r = faceCentered best).
Proof.
  cbn zeta.
  inversion Hnumeric as [| ? ? (qf & Hf) Hrest]; subst.
  destruct (pickBest_max (first :: rest) first qf Hf Hnumeric)
    as (qb & Hp & Hin & _ & Hmax).
  exists qb.
  split. { destruct Hin as [-> | Hin]; [now left | exact Hin]. }
  split; [exact Hp |].
  unfold runGazeInference. fold (pickBest first (first :: rest)).
  rewrite Hp. cbn [default from_option id].
  destruct (Js.lt (Num qb) MIN_FACE_CONFIDENCE) eqn:Hlow.
  - apply lt_Num in Hlow.
    split; [reflexivity |]. split; [exact Hmax |].
    split; [| discriminate].
    split; [discriminate | intros H; lra].
  - assert (Hge : (6 # 10 <= qb)%Q).
    { apply Qnot_lt_le. intros H. apply (lt_Num qb (6 # 10)) in H.
      unfold MIN_FACE_CONFIDENCE in Hlow. congruence. }
    split; [reflexivity |]. split; [exact Hmax |].
    split; [split; [intros _; exact Hge | reflexivity] |].
    intros _. repeat split.
Qed.

Lemma runGazeInference_most_probable_witness :
  GazeResult.faceDetectionConfidence
    (runGazeInference 10000
       [measuredFace (Num (7 # 10)) (Js.ofZ 0) (Js.ofZ 0) true;
        measuredFace (Num (9 # 10)) (Js.ofZ 40) (Js.ofZ 0) false])
  = Num (9 # 10).
Proof.
  assert (H : numericProbabilities
                [measuredFace (Num (7 # 10)) (Js.ofZ 0) (Js.ofZ 0) true;
                 measuredFace (Num (9 # 10)) (Js.ofZ 40) (Js.ofZ 0) false])
    by (repeat (constructor; [eexists; reflexivity |]); constructor).
  destruct (runGazeInference_most_probable 10000 _ _ H) as (qb & _ & Hb & Hc & _).
  vm_compute in Hb. injection Hb as Hb. rewrite Hc, <- Hb. reflexivity.
Defined.

(** ** The gaze vector *)

Lemma clamp_signed (n : number) :
  Js.Math_max (Js.ofZ (-1)) (JsArith.Math_min (Js.ofZ 1) n) = NaN
  \/ inSignedUnit (Js.Math_max (Js.ofZ (-1)) (JsArith.Math_min (Js.ofZ 1) n)).
Proof.
  destruct n as [q |]; [right | now left].
  unfold JsArith.Math_min, Js.ofZ.
  change (inject_Z 1) with 1%Q. change (inject_Z (-1)) with (-1)%Q.
  destruct (Qle_bool 1 q) eqn:H1.
  - exists 1%Q. split; [reflexivity | lra].
  - cbn [Js.Math_max].
    assert (Hq : (q < 1)%Q).
    { apply Qnot_le_lt. intros H. apply Qle_bool_iff in H. congruence. }
    destruct (Qle_bool (-1) q) eqn:H2.
    + apply Qle_bool_iff in H2. exists q. split; [reflexivity | lra].
    + exists (-1)%Q. split; [reflexivity | lra].
Qed.

Lemma clamp_signed_Num (q : Q) :
  inSignedUnit (Js.Math_max (Js.ofZ (-1)) (JsArith.Math_min (Js.ofZ 1) (Num q))).
Proof.
  destruct (clamp_signed (Num q)) as [H | H]; [| exact H].
  unfold JsArith.Math_min, Js.Math_max, Js.ofZ in H.
  destruct (Qle_bool (inject_Z 1) q); [discriminate |].
  destruct (Qle_bool (inject_Z (-1)) q); discriminate.
Qed.

Lemma neg_signed (n : number) : inSignedUnit n -> inSignedUnit (Js.neg n).
Proof.
  intros (q & -> & Hq). exists (- q)%Q. split; [reflexivity | lra].
Qed.

Lemma half_is_Num (a : Q) : exists h, Js.div (Num a) (Js.ofZ 2) = Num h.
Proof. eexists. reflexivity. Qed.

Lemma div_by_half_extent (u w : Q) :
  exists q,
    Js.div (Num u) (Js.Math_max (Js.div (Num w) (Js.ofZ 2)) (Js.ofZ 1)) = Num q.
Proof.
  destruct (half_is_Num w) as (h & ->).
  destruct (Math_max_Num h (inject_Z 1)) as (m & Hm & _ & H1 & _).
  unfold Js.ofZ. rewrite Hm. unfold Js.div.
  assert (Hne : Qeq_bool m 0 = false).
  { apply not_true_iff_false. intros H. apply Qeq_bool_iff in H.
    change (inject_Z 1) with 1%Q in H1. lra. }
  rewrite Hne. eexists. reflexivity.
Qed.

Lemma maxDeviation_unit (gaze : GazeVector) :
  inSignedUnit (x gaze) -> inSignedUnit (y gaze) ->
  inUnitInterval (maxDeviationOf gaze).
Proof.
  intros (a & Ha & Hab) (b & Hb & Hbb). unfold maxDeviationOf.
  rewrite Ha, Hb. cbn [Js.Math_abs].
  destruct (Math_max_Num (Qabs a) (Qabs b)) as (m & -> & H1 & H2 & Hm).
  exists m. split; [reflexivity |].
  pose proof (Qabs_nonneg a). pose proof (Qabs_nonneg b).
  assert (Ha1 : (Qabs a <= 1)%Q) by (apply Qabs_Qle_condition; lra).
  assert (Hb1 : (Qabs b <= 1)%Q) by (apply Qabs_Qle_condition; lra).
  destruct Hm as [-> | ->]; lra.
Qed.

(** X18. The gaze vector is normalised.  For coordinates of magnitude
    at most [2^1022], so that no sum or difference of two of them
    overflows: each component of [deriveGazeVector] is NaN or lies in
    [-1, 1]; when the two eye points and the box corners are numbers,
    both components lie in [-1, 1] and the maximal deviation computed
    from them lies in [0, 1].  With fewer than two landmark points the
    vector is (0, 0). *)
Theorem deriveGazeVector_normalised (prediction : FaceBox)
  (Hrange : coordinatesWithinRange prediction) :
  (x (deriveGazeVector prediction) = NaN
   \/ inSignedUnit (x (deriveGazeVector prediction)))
  /\ (y (deriveGazeVector prediction) = NaN
      \/ inSignedUnit (y (deriveGazeVector prediction)))
  /\ (numericFaceBox prediction ->
      inSignedUnit (x (deriveGazeVector prediction))
      /\ inSignedUnit (y (deriveGazeVector prediction))
      /\ inUnitInterval (maxDeviationOf (deriveGazeVector prediction)))
  /\ ((length (landmarks prediction) < 2)%nat ->
      deriveGazeVector prediction = {| x := Js.ofZ 0; y := Js.ofZ 0 |}).
Proof.
  assert (Hzero : inSignedUnit (Js.ofZ 0)) by (exists 0%Q; split; [reflexivity | lra]).
  unfold deriveGazeVector.
  destruct (landmarks prediction) as [| rightEye [| leftEye others]] eqn:Hl;
    cbn [nth_error].
  1, 2: repeat split; intros; try (right; exact Hzero); try exact Hzero;
        apply maxDeviation_unit; exact Hzero.
  cbn zeta. cbn [x y].
  split.
  { match goal with
    | |- Js.neg ?c = NaN \/ _ =>
        destruct c as [q |] eqn:Hc; [right | now left]
    end.
    apply neg_signed.
    match type of Hc with
    | Js.Math_max _ (JsArith.Math_min _ ?n) = _ =>
        destruct (clamp_signed n) as [H | H]; rewrite Hc in H;
          [discriminate | exact H]
    end. }
  split; [apply clamp_signed |].
  split; [| cbn [length]; lia].
  intros (Hpoints & (tx & ty & Htl) & (bx & by_ & Hbr)).
  rewrite Hl in Hpoints. cbn [firstn] in Hpoints.
  destruct (Hpoints rightEye) as (ra & rb & rrest & ->); [now left |].
  destruct (Hpoints leftEye) as (la & lb & lrest & ->); [right; now left |].
  rewrite Htl, Hbr. cbn [fst snd coordinate nth JsArith.add JsArith.sub].
  destruct (half_is_Num (Qred (ra + la))) as (ex & ->).
  destruct (half_is_Num (Qred (rb + lb))) as (ey & ->).
  destruct (half_is_Num (Qred (tx + bx))) as (cx & ->).
  destruct (half_is_Num (Qred (ty + by_))) as (cy & ->).
  cbn [JsArith.sub].
  destruct (div_by_half_extent (Qred (ex - cx)) (Qred (bx - tx))) as (dx & ->).
  destruct (div_by_half_extent (Qred (ey - cy)) (Qred (by_ - ty))) as (dy & ->).
  assert (Hx : inSignedUnit
                 (Js.neg (Js.Math_max (Js.ofZ (-1))
                            (JsArith.Math_min (Js.ofZ 1) (Num dx)))))
    by (apply neg_signed, clamp_signed_Num).
  pose proof (clamp_signed_Num dy) as Hy.
  split; [exact Hx |]. split; [exact Hy |].
  apply maxDeviation_unit; assumption.
Qed.

Lemma deriveGazeVector_normalised_witness :
  coordinatesWithinRange sampleFaceBox
  /\ inUnitInterval (maxDeviationOf (deriveGazeVector sampleFaceBox)).
Proof.
  assert (Hrange : coordinatesWithinRange sampleFaceBox).
  { split; [intros point [<- | [<- | []]]; split |]; repeat split;
      apply Qle_bool_imp_le; vm_compute; reflexivity. }
  split; [exact Hrange |].
  destruct (deriveGazeVector_normalised sampleFaceBox Hrange) as (_ & _ & H & _).
  apply H. split; [| split].
  - intros point [<- | [<- | []]]; eexists _, _, _; reflexivity.
  - eexists _, _; reflexivity.
  - eexists _, _; reflexivity.
Defined.

(** ** The overlay label *)

Lemma displayResult_faceDetected (result : GazeResult.t) (state : GazeState) :
  GazeResult.faceDetected (displayResult result state)
  = GazeResult.faceDetected result.
Proof. reflexivity. Qed.

Lemma runGazeInference_faceAbsent (now : Z) (predictions : list FacePrediction) :
  faceAbsent (runGazeInference now predictions)
  = negb (GazeResult.faceDetected (runGazeInference now predictions)).
Proof.
  unfold runGazeInference.
  destruct predictions as [| first rest]; [reflexivity |].
  destruct (Js.lt _ MIN_FACE_CONFIDENCE) eqn:Hlow; [reflexivity |].
  unfold faceAbsent.
  cbn [GazeResult.faceDetected GazeResult.faceDetectionConfidence negb orb].
  exact Hlow.
Qed.

(** X19. What the overlay shows follows the state machine.  For the
    result and state the loop publishes after a measurement: the label
    is NO FACE exactly when no face is reported; the published result
    is marked as looking away exactly when the label is GAZE: AWAY or
    GAZE: MONITORING; the label is GAZE: ON exactly for a detected
    face in state NORMAL; and the label ABSENT appears only for a
    detected face with a strong deviation that found the state
    ABSENT. *)
Theorem overlay_label_follows_state
  (createEventId : Z -> string) (s : Refs) (frameNow deltaMs now : Z)
  (predictions : list FacePrediction) :
  let r := runGazeInference now predictions in
  let state := gazeStateRef (gazeTick createEventId s frameNow deltaMs r).1 in
  let label := publishedLabel r state in
  (label = "NO FACE" <-> GazeResult.faceDetected r = false)
  /\ (GazeResult.isLookingAway (displayResult r state) = true
      <-> label = "GAZE: AWAY" \/ label = "GAZE: MONITORING")
  /\ (label = "GAZE: ON" <-> GazeResult.faceDetected r = true /\ state = NORMAL)
  /\ (label = "ABSENT" ->
      gazeStateRef s = ABSENT /\ strongDeviationTick r = true).
Proof.
  cbn zeta.
  pose proof (runGazeInference_faceAbsent now predictions) as Habs.
  revert Habs.
  generalize (runGazeInference now predictions). intros r Habs.
  unfold publishedLabel, getStatusLabel. rewrite displayResult_faceDetected.
  unfold gazeTick, strongDeviationTick. rewrite Habs.
  destruct (GazeResult.faceDetected r) eqn:Hd; cbn [negb].
  - unfold presentTick.
    destruct (GazeResult.inSafeZone r); cbn [negb andb];
      [| destruct (GazeResult.isStrongDeviation r); cbn [negb andb];
         [destruct (gazeStateRef s) eqn:Hs; cbn [fst gazeStateRef];
          try match goal with
              | |- context [if ?c then ALERT_ACTIVE else _] => destruct c
              end |]];
      cbn; repeat split; intros; try discriminate; try reflexivity;
      try tauto;
      repeat match goal with
             | H : _ \/ _ |- _ => destruct H
             | H : _ /\ _ |- _ => destruct H
             end;
      try discriminate; try (now left); try (now right).
  - cbn. repeat split; intros; try discriminate; try reflexivity;
      repeat match goal with
             | H : _ \/ _ |- _ => destruct H
             | H : _ /\ _ |- _ => destruct H
             end;
      try discriminate.
Qed.

(** ** Face centering *)

Lemma centered_axis (lo hi extent tolerance : Q) :
  Js.le
    (Js.Math_abs
       (JsArith.sub (Js.div (JsArith.add (Num lo) (Num hi)) (Js.ofZ 2))
          (Js.div (Num extent) (Js.ofZ 2))))
    (Js.mul (Num extent) (Num tolerance)) = true
  <-> (((1 # 2) - tolerance) * extent <= (lo + hi) / 2
       /\ (lo + hi) / 2 <= ((1 # 2) + tolerance) * extent)%Q.
Proof.
  cbn [JsArith.add Js.div Js.ofZ Js.mul].
  change (Qeq_bool (inject_Z 2) 0) with false. cbv iota.
  cbn [JsArith.sub Js.Math_abs].
  rewrite le_Num, Qabs_Qle_condition, !Qred_correct.
  change (inject_Z 2) with 2%Q. unfold Qdiv. change (/ 2)%Q with (1 # 2)%Q.
  split; intros [H1 H2]; split; lra.
Qed.

(** X20. A face box with numeric corners counts as centred exactly
    when its centre lies in the middle 40 % of the frame's width and the
    middle 50 % of its height; the verdict does not change when the box
    is mirrored horizontally in the frame, and it is negative when the
    frame width is NaN. *)
Theorem isFaceCentered_margins
  (points : list (list number)) (left top right bottom width height : Q) :
  (isFaceCentered (boxOf points left top right bottom) (Num width) (Num height)
   = true
   <-> ((3 # 10) * width <= (left + right) / 2 <= (7 # 10) * width
        /\ (1 # 4) * height <= (top + bottom) / 2 <= (3 # 4) * height)%Q)
  /\ isFaceCentered (boxOf points (width - right) top (width - left) bottom)
       (Num width) (Num height)
     = isFaceCentered (boxOf points left top right bottom)
         (Num width) (Num height)
  /\ isFaceCentered (boxOf points left top right bottom) NaN (Num height)
     = false.
Proof.
  assert (Hiff : forall l r,
    isFaceCentered (boxOf points l top r bottom) (Num width) (Num height) = true
    <-> ((3 # 10) * width <= (l + r) / 2 <= (7 # 10) * width
         /\ (1 # 4) * height <= (top + bottom) / 2 <= (3 # 4) * height)%Q).
  { intros l r. unfold isFaceCentered, boxOf. cbn [topLeft bottomRight fst snd].
    rewrite andb_true_iff.
    unfold FACE_CENTER_TOLERANCE_X, FACE_CENTER_TOLERANCE_Y.
    rewrite !centered_axis. unfold Qdiv. change (/ 2)%Q with (1 # 2)%Q.
    split; intros [[H1 H2] [H3 H4]]; repeat split; lra. }
  split; [apply Hiff |]. split.
  - apply eq_true_iff_eq. rewrite !Hiff. unfold Qdiv. change (/ 2)%Q with (1 # 2)%Q.
    split; intros [[H1 H2] H3]; (split; [split |]; [| | exact H3]); lra.
  - reflexivity.
Qed.

(** ** The elapsed-time label *)

Lemma length_append (s1 s2 : string) :
  String.length (s1 +:+ s2) = (String.length s1 + String.length s2)%nat.
Proof. induction s1 as [| c s1 IH]; simpl; [reflexivity | now f_equal]. Qed.

Lemma two_digit_field (n : Z) :
  0 <= n < 60 ->
  readTwoDigits (padStart2 (pretty n)) = Some n
  /\ String.length (padStart2 (pretty n)) = 2%nat.
Proof.
  intros Hn.
  assert (Hall : forallb
            (fun k => match readTwoDigits (padStart2 (pretty (Z.of_nat k))) with
                      | Some v => (v =? Z.of_nat k)
                      | None => false
                      end
                      && Nat.eqb (String.length (padStart2 (pretty (Z.of_nat k)))) 2)
            (seq 0 60) = true) by (vm_compute; reflexivity).
  rewrite forallb_forall in Hall.
  specialize (Hall (Z.to_nat n)).
  rewrite Z2Nat.id in Hall by lia.
  assert (Hin : In (Z.to_nat n) (seq 0 60)) by (apply in_seq; lia).
  specialize (Hall Hin). apply andb_true_iff in Hall as [Hread Hlen].
  split.
  - destruct (readTwoDigits (padStart2 (pretty n))) as [v |]; [| discriminate].
    apply Z.eqb_eq in Hread. now subst.
  - now apply Nat.eqb_eq.
Qed.

Lemma readElapsedSeconds_fields (mm ss : string) (m s : Z) :
  readTwoDigits mm = Some m -> readTwoDigits ss = Some s ->
  readElapsedSeconds (mm +:+ ":" +:+ ss) = Some (60 * m + s).
Proof.
  intros Hm Hs.
  destruct mm as [| a [| b [| ? ?]]]; try discriminate.
  destruct ss as [| d [| e [| ? ?]]]; try discriminate.
  change (String a (String b "") +:+ ":" +:+ String d (String e ""))
    with (String a (String b (String ":" (String d (String e ""))))).
  cbn [readElapsedSeconds]. rewrite Hm, Hs. reflexivity.
Qed.

(** X21. Under one hour the label of [formatElapsed] is five
    characters long, of the form mm:ss, and reads back as the whole
    number of seconds elapsed: the label shows the elapsed time to the
    second, and two readings get the same label exactly when they lie in
    the same second. *)
Theorem formatElapsed_under_one_hour (ms : Z) (Hms : 0 <= ms < 3600000) :
  String.length (formatElapsed ms) = 5%nat
  /\ readElapsedSeconds (formatElapsed ms) = Some (ms / 1000)
  /\ forall ms' : Z, 0 <= ms' < 3600000 ->
       (formatElapsed ms' = formatElapsed ms <-> ms' / 1000 = ms / 1000).
Proof.
  assert (Hshape : forall t : Z, 0 <= t < 3600000 ->
    formatElapsed t
    = padStart2 (pretty (t / 1000 / 60)) +:+ ":"
        +:+ padStart2 (pretty (t / 1000 mod 60))
    /\ 0 <= t / 1000 / 60 < 60 /\ 0 <= t / 1000 mod 60 < 60).
  { intros t Ht. unfold formatElapsed.
    assert (Hs : 0 <= t / 1000 < 3600)
      by (split; [apply Z.div_pos; lia | apply Z.div_lt_upper_bound; lia]).
    rewrite (Z.div_small (t / 1000) 3600) by lia.
    rewrite (Z.rem_small (t / 1000) 3600) by lia.
    rewrite Z.rem_mod_nonneg by lia. cbn [Z.ltb Z.compare].
    split; [reflexivity |]. split.
    - split; [apply Z.div_pos; lia | apply Z.div_lt_upper_bound; lia].
    - apply Z.mod_pos_bound. lia. }
  assert (Hread : forall t : Z, 0 <= t < 3600000 ->
    readElapsedSeconds (formatElapsed t) = Some (t / 1000)).
  { intros t Ht. destruct (Hshape t Ht) as (-> & Hm & Hs).
    destruct (two_digit_field _ Hm) as [Rm _].
    destruct (two_digit_field _ Hs) as [Rs _].
    rewrite (readElapsedSeconds_fields _ _ _ _ Rm Rs). f_equal.
    pose proof (Z.div_mod (t / 1000) 60). lia. }
  split; [| split].
  - destruct (Hshape ms Hms) as (-> & Hm & Hs).
    destruct (two_digit_field _ Hm) as [_ Lm].
    destruct (two_digit_field _ Hs) as [_ Ls].
    rewrite !length_append, Lm, Ls. reflexivity.
  - apply Hread, Hms.
  - intros ms' Hms'. split.
    + intros Heq. pose proof (Hread ms' Hms') as H1. rewrite Heq, Hread in H1 by exact Hms.
      now injection H1.
    + intros Heq. destruct (Hshape ms Hms) as (-> & _). destruct (Hshape ms' Hms') as (-> & _).
      now rewrite Heq.
Qed.

Lemma formatElapsed_under_one_hour_witness :
  formatElapsed 754321 = "12:34"
  /\ readElapsedSeconds (formatElapsed 754321) = Some 754.
Proof.
  assert (H : 0 <= 754321 < 3600000) by lia.
  destruct (formatElapsed_under_one_hour 754321 H) as (_ & Hread & _).
  split; [reflexivity | exact Hread].
Defined.

(** ** The summary of flagged events *)

Lemma countFor_bumpCount (type type' : string) (counts : list (string * nat)) :
  countFor type (bumpCount type' counts)
  = if String.eqb type' type then S (countFor type counts)
    else countFor type counts.
Proof.
  induction counts as [| [key count] counts IH]; cbn [bumpCount countFor].
  - destruct (String.eqb_spec type' type); reflexivity.
  - destruct (String.eqb_spec key type') as [-> | Hne]; cbn [countFor].
    + destruct (String.eqb_spec type' type); reflexivity.
    + destruct (String.eqb_spec key type) as [-> | Hne'].
      * destruct (String.eqb_spec type' type); [congruence | reflexivity].
      * exact IH.
Qed.

Lemma bumpCount_keys (type : string) (counts : list (string * nat)) :
  (In type (map fst counts) /\ map fst (bumpCount type counts) = map fst counts)
  \/ (~ In type (map fst counts)
      /\ map fst (bumpCount type counts) = (map fst counts ++ [type])%list).
Proof.
  induction counts as [| [key count] counts IH]; cbn [bumpCount map fst app].
  - right. split; [intros [] | reflexivity].
  - destruct (String.eqb_spec key type) as [-> | Hne]; cbn [map fst].
    + left. split; [now left | reflexivity].
    + destruct IH as [[Hin Heq] | [Hnin Heq]]; rewrite Heq.
      * left. split; [now right | reflexivity].
      * right. split; [| reflexivity]. intros [H | H]; [congruence | contradiction].
Qed.

Lemma bumpCount_entries (type : string) (counts : list (string * nat)) :
  NoDup (map fst counts) ->
  Forall (fun entry => (0 < entry.2)%nat) counts ->
  NoDup (map fst (bumpCount type counts))
  /\ Forall (fun entry => (0 < entry.2)%nat) (bumpCount type counts).
Proof.
  intros Hnd Hpos. split.
  - destruct (bumpCount_keys type counts) as [[_ ->] | [Hnin ->]]; [exact Hnd |].
    apply NoDup_app. split; [exact Hnd |]. split.
    + intros x Hx Hin. apply list_elem_of_singleton in Hin. subst.
      apply Hnin. now apply list_elem_of_In.
    + apply NoDup_singleton.
  - induction Hpos as [| [key count] counts Hc Hpos IH]; cbn [bumpCount].
    + repeat constructor.
    + destruct (String.eqb key type).
      * constructor; [cbn; lia | exact Hpos].
      * constructor; [exact Hc |]. apply IH. now inversion Hnd.
Qed.

Lemma countFor_entry (counts : list (string * nat)) (type : string) (count : nat) :
  NoDup (map fst counts) -> In (type, count) counts ->
  countFor type counts = count.
Proof.
  induction counts as [| [key c] counts IH]; intros Hnd Hin; [destruct Hin |].
  cbn [countFor]. cbn [map fst] in Hnd. apply NoDup_cons in Hnd as [Hnin Hnd].
  destruct Hin as [Heq | Hin].
  - injection Heq as -> ->. now rewrite String.eqb_refl.
  - destruct (String.eqb_spec key type) as [-> | Hne]; [| now apply IH].
    exfalso. apply Hnin. apply list_elem_of_In.
    apply (in_map fst) in Hin. exact Hin.
Qed.

Lemma countsOf_fold (relevant : list SessionEvent.t) :
  forall counts : list (string * nat),
    NoDup (map fst counts) ->
    Forall (fun entry => (0 < entry.2)%nat) counts ->
    let counts' :=
      fold_left (fun counts e => bumpCount (SessionEvent.type e) counts)
        relevant counts in
    NoDup (map fst counts')
    /\ Forall (fun entry => (0 < entry.2)%nat) counts'
    /\ forall type,
         countFor type counts'
         = (countFor type counts
            + length (List.filter
                        (fun e => String.eqb (SessionEvent.type e) type)
                        relevant))%nat.
Proof.
  induction relevant as [| e relevant IH]; intros counts Hnd Hpos;
    cbn [fold_left List.filter].
  - repeat split; [exact Hnd | exact Hpos | intros; cbn; lia].
  - destruct (bumpCount_entries (SessionEvent.type e) counts Hnd Hpos)
      as [Hnd' Hpos'].
    destruct (IH _ Hnd' Hpos') as (H1 & H2 & H3).
    repeat split; [exact H1 | exact H2 |].
    intros type. rewrite H3, countFor_bumpCount.
    destruct (String.eqb (SessionEvent.type e) type); cbn [length]; lia.
Qed.

Lemma filter_scored_type (events : list SessionEvent.t) (type : string) :
  scoredType type = true ->
  List.filter (fun e => String.eqb (SessionEvent.type e) type)
    (List.filter (fun e => scoredType (SessionEvent.type e)) events)
  = List.filter (fun e => String.eqb (SessionEvent.type e) type) events.
Proof.
  intros Hty. induction events as [| e events IH]; [reflexivity |].
  cbn [List.filter].
  destruct (scoredType (SessionEvent.type e)) eqn:Hs; cbn [List.filter].
  - now rewrite IH.
  - destruct (String.eqb_spec (SessionEvent.type e) type) as [Heq | _];
      [congruence | exact IH].
Qed.

Lemma relevant_total (events : list SessionEvent.t) :
  Z.of_nat
    (length (List.filter (fun e => scoredType (SessionEvent.type e)) events))
  = countEventsByType events "GAZE_AWAY"
    + countEventsByType events "FACE_ABSENT"
    + countEventsByType events "OBJECT_DETECTED"
    + countEventsByType events "TAB_SWITCH".
Proof.
  unfold countEventsByType.
  induction events as [| e events IH]; [reflexivity |].
  cbn [List.filter]. unfold scoredType at 1.
  destruct (String.eqb_spec (SessionEvent.type e) "GAZE_AWAY") as [Heq | H1];
    [try rewrite Heq; cbn [orb String.eqb Ascii.eqb Bool.eqb andb length]; lia |].
  destruct (String.eqb_spec (SessionEvent.type e) "FACE_ABSENT") as [Heq | H2];
    [try rewrite Heq; cbn [orb String.eqb Ascii.eqb Bool.eqb andb length]; lia |].
  destruct (String.eqb_spec (SessionEvent.type e) "OBJECT_DETECTED") as [Heq | H3];
    [try rewrite Heq; cbn [orb String.eqb Ascii.eqb Bool.eqb andb length]; lia |].
  destruct (String.eqb_spec (SessionEvent.type e) "TAB_SWITCH") as [Heq | H4];
    [try rewrite Heq; cbn [orb String.eqb Ascii.eqb Bool.eqb andb length]; lia |].
  cbn [orb]. exact IH.
Qed.

(** X22. [summarizeEvents] answers "No critical events flagged."
    exactly for the logs whose risk score is 0.  Otherwise it prints the
    entries of the object [counts] and the number of relevant events:
    [counts] has one entry for each scored type that occurs in the log,
    each with the number [countEventsByType] gives for that type, and
    the total is the sum of the four counts. *)
Theorem summarizeEvents_counts
  (events : list SessionEvent.t) (duration : number) :
  let relevant :=
    List.filter (fun e => scoredType (SessionEvent.type e)) events in
  (summarizeEvents events = "No critical events flagged."
   <-> score (calculateRiskScore (buildRiskInput events duration)) = 0)
  /\ (score (calculateRiskScore (buildRiskInput events duration)) <> 0 ->
      summarizeEvents events
      = "Summary: "
          +:+ String.concat ", "
                (map (fun entry =>
                        pretty entry.2 +:+ "x " +:+ replaceUnderscores entry.1)
                   (countsOf relevant))
          +:+ ". Total flagged: " +:+ pretty (length relevant))
  /\ NoDup (map fst (countsOf relevant))
  /\ (forall type count,
        In (type, count) (countsOf relevant)
        <-> scoredType type = true
            /\ 0 < countEventsByType events type
            /\ Z.of_nat count = countEventsByType events type)
  /\ Z.of_nat (length relevant)
     = countEventsByType events "GAZE_AWAY"
       + countEventsByType events "FACE_ABSENT"
       + countEventsByType events "OBJECT_DETECTED"
       + countEventsByType events "TAB_SWITCH".
Proof.
  cbv zeta.
  remember (List.filter (fun e => scoredType (SessionEvent.type e)) events)
    as relevant eqn:Hrel.
  destruct (countsOf_fold relevant [] NoDup_nil_2 (Forall_nil_2 _))
    as (Hnd & Hpos & Hcount).
  fold (countsOf relevant) in Hnd, Hpos, Hcount. cbn [countFor] in Hcount.
  assert (Hnone : summarizeEvents events = "No critical events flagged."
                  <-> score (calculateRiskScore (buildRiskInput events duration)) = 0);
    [| split; [exact Hnone |];
       split; [| split; [exact Hnd | split; [| subst relevant; apply relevant_total]]]].
  - rewrite score_zero_iff. unfold summarizeEvents. rewrite <- Hrel.
    destruct relevant as [| e rest].
    + split; [intros _ | reflexivity].
      apply Forall_forall. intros x Hx.
      destruct (scoredType (SessionEvent.type x)) eqn:Hs; [| reflexivity].
      assert (Hin : In x []).
      { rewrite Hrel. apply filter_In. split; [| exact Hs].
        now apply list_elem_of_In. }
      destruct Hin.
    + cbn [length Nat.eqb]. split; [discriminate |].
      intros Hall. exfalso.
      assert (Hin : In e (List.filter
                            (fun e => scoredType (SessionEvent.type e)) events))
        by (rewrite <- Hrel; now left).
      apply filter_In in Hin as [Hin Hs].
      rewrite Forall_forall in Hall. apply list_elem_of_In in Hin.
      specialize (Hall e Hin). congruence.
  - intros Hscore. unfold summarizeEvents. rewrite <- Hrel.
    destruct relevant as [| e rest]; [| reflexivity].
    exfalso. apply Hscore, Hnone. unfold summarizeEvents. now rewrite <- Hrel.
  - intros type count.
    assert (Hkeys : forall ty c, In (ty, c) (countsOf relevant) ->
                                 scoredType ty = true).
    { unfold countsOf. rewrite Hrel.
      assert (Hgen : forall l acc,
                Forall (fun e => scoredType (SessionEvent.type e) = true) l ->
                Forall (fun entry => scoredType entry.1 = true) acc ->
                Forall (fun entry => scoredType entry.1 = true)
                  (fold_left
                     (fun counts e => bumpCount (SessionEvent.type e) counts)
                     l acc)).
      { induction l as [| x l IHl]; intros acc Hl Hacc; [exact Hacc |].
        cbn [fold_left]. apply IHl; [now inversion Hl |].
        inversion Hl as [| ? ? Hx _]; subst.
        clear - Hx Hacc. induction Hacc as [| [k c] acc Hk Hacc IHa];
          cbn [bumpCount]; [repeat constructor; exact Hx |].
        destruct (String.eqb k (SessionEvent.type x));
          constructor; assumption. }
      intros ty c Hin.
      assert (Hf : Forall (fun entry => scoredType entry.1 = true)
                     (fold_left
                        (fun counts e => bumpCount (SessionEvent.type e) counts)
                        (List.filter
                           (fun e => scoredType (SessionEvent.type e)) events)
                        [])).
      { apply Hgen; [| constructor]. apply Forall_forall. intros x Hx.
        apply list_elem_of_In, filter_In in Hx. tauto. }
      rewrite Forall_forall in Hf. apply list_elem_of_In in Hin.
      exact (Hf _ Hin). }
    split.
    + intros Hin. pose proof (Hkeys _ _ Hin) as Hs.
      pose proof (countFor_entry _ _ _ Hnd Hin) as Hc.
      rewrite Hcount, Hrel in Hc.
      rewrite filter_scored_type in Hc by exact Hs.
      rewrite Forall_forall in Hpos. apply list_elem_of_In in Hin.
      specialize (Hpos _ Hin). cbn [snd] in Hpos.
      unfold countEventsByType. split; [exact Hs |]. lia.
    + intros (Hs & Hposc & Hc).
      assert (Hfor : countFor type (countsOf relevant) = count).
      { rewrite Hcount, Hrel. rewrite filter_scored_type by exact Hs.
        unfold countEventsByType in Hc. lia. }
      assert (Hcpos : (0 < count)%nat) by lia.
      clear - Hfor Hcpos. induction (countsOf relevant) as [| [k c] l IH];
        cbn [countFor] in Hfor; [lia |].
      destruct (String.eqb_spec k type) as [-> | Hne].
      * subst. now left.
      * right. now apply IH.
Qed.

(** ** From the end of a session to the report request *)

Lemma fold_store_addEvent (logged : list SessionEvent.t) :
  forall st : SessionStore.State,
    let st' := fold_left (fun st e => SessionStore.addEvent e st) logged st in
    SessionStore.events st' = (SessionStore.events st ++ logged)%list
    /\ SessionStore.isSessionActive st' = SessionStore.isSessionActive st
    /\ SessionStore.sessionStartTime st' = SessionStore.sessionStartTime st
    /\ SessionStore.sessionEndTime st' = SessionStore.sessionEndTime st.
Proof.
  induction logged as [| e logged IH]; intros st; cbn [fold_left].
  - cbn zeta. now rewrite app_nil_r.
  - destruct (IH (SessionStore.addEvent e st)) as (H1 & H2 & H3 & H4).
    cbn zeta. rewrite H1, H2, H3, H4. cbn. now rewrite <- app_assoc.
Qed.

(** X23. A session started at [t0], with the events [logged], ended
    through [handleEndSession] (clock readings other than 0): the store
    keeps exactly the logged events, whatever it held before the start;
    the duration shown is end minus start; the report button is offered
    exactly when something was logged and the session lasted 5000 ms;
    [handleGenerateReport] hands over the snapshot frozen at the end,
    not one rebuilt from later values; and when the button is offered,
    the two clock readings of the end differ by at most 500 ms and the
    focus ratio lies in [0, 1], the hook requests the report. *)
Theorem ended_session_report
  (st0 : SessionStore.State) (frozen0 : option GeminiPayload.t)
  (t0 endNow t1 now : Z) (logged : list SessionEvent.t)
  (ratio : Q) (laterRatio : number)
  (Hstart : t0 <> 0) (Hend : t1 <> 0) :
  let out :=
    Page.handleEndSession frozen0 (activeSession t0 logged st0) endNow t1
      (Num ratio) in
  let snapshot := buildGeminiPayload logged (Js.ofZ (endNow - t0)) (Num ratio) in
  SessionStore.events out.2 = logged
  /\ Page.computedDurationMs out.2 now = t1 - t0
  /\ (Page.canGenerateReport out.2 now false = true
      <-> logged <> [] /\ 5000 <= t1 - t0)
  /\ Page.handleGenerateReport out.1 out.2 laterRatio = Some snapshot
  /\ (Page.canGenerateReport out.2 now false = true ->
      t1 - 500 <= endNow -> (0 <= ratio <= 1)%Q ->
      generateReport false (payloadObject snapshot) = Requested).
Proof.
  intros out snapshot.
  destruct (fold_store_addEvent logged (SessionStore.startSession t0 st0))
    as (Hev & Hact & Hst & Hen).
  fold (activeSession t0 logged st0) in Hev, Hact, Hst, Hen.
  cbn [SessionStore.startSession SessionStore.events
       SessionStore.isSessionActive SessionStore.sessionStartTime
       SessionStore.sessionEndTime app] in Hev, Hact, Hst, Hen.
  assert (Ht0 : (t0 =? 0) = false) by now apply Z.eqb_neq.
  assert (Ht1 : (t1 =? 0) = false) by now apply Z.eqb_neq.
  assert (Hout1 : out.1 = Some snapshot).
  { unfold out, Page.handleEndSession. cbn [fst].
    rewrite Hact, Hst, Hev. cbn [Page.truthy default from_option id].
    rewrite Ht0. reflexivity. }
  assert (Hdur : Page.computedDurationMs out.2 now = t1 - t0).
  { unfold out, Page.handleEndSession, Page.computedDurationMs. cbn [snd].
    cbn [SessionStore.endSession SessionStore.sessionEndTime
         SessionStore.sessionStartTime SessionStore.isSessionActive].
    rewrite Hst. cbn [Page.truthy default from_option id].
    rewrite Ht0, Ht1. reflexivity. }
  assert (Hcan : Page.canGenerateReport out.2 now false = true
                 <-> logged <> [] /\ 5000 <= t1 - t0).
  { unfold Page.canGenerateReport. rewrite Hdur.
    unfold out, Page.handleEndSession, Page.sessionEnded. cbn [snd].
    cbn [SessionStore.endSession SessionStore.sessionEndTime
         SessionStore.sessionStartTime SessionStore.isSessionActive
         SessionStore.events].
    rewrite Hst, Hev. unfold Page.MIN_DURATION_FOR_REPORT_MS.
    rewrite !andb_true_iff, !bool_decide_eq_true, Nat.ltb_lt, Z.leb_le.
    destruct logged as [| e rest]; cbn [length negb]; split.
    - intros [[[_ H] _] _]. lia.
    - intros [H _]. congruence.
    - intros [[_ H] _]. split; [discriminate | exact H].
    - intros [_ H]. repeat split; try discriminate; [lia | exact H]. }
  split; [exact Hev |]. split; [exact Hdur |]. split; [exact Hcan |].
  split; [rewrite Hout1; reflexivity |].
  intros Hoffered Hclock Hratio. apply Hcan in Hoffered as [_ Hlong].
  assert (Hd : (4500 <= inject_Z (endNow - t0))%Q).
  { change 4500%Q with (inject_Z 4500). rewrite <- Zle_Qle. lia. }
  assert (Hd' : (500 <= inject_Z (endNow - t0))%Q).
  { change 500%Q with (inject_Z 500). rewrite <- Zle_Qle. lia. }
  destruct (built_payload_fields logged (inject_Z (endNow - t0)) ratio Hd' Hratio)
    as (Fd & Hdurv & Hrisk & Hfocus).
  pose proof (seconds_at_least_five _ Hd) as Hsec.
  unfold snapshot, Js.ofZ at 1, generateReport.
  rewrite Hdurv, Hrisk, Hfocus, Fd.
  unfold MIN_SESSION_DURATION_SEC. rewrite lt_ofZ.
  destruct (Z.ltb_spec (Js.Qround (Qred (inject_Z (endNow - t0) / inject_Z 1000))) 5);
    [lia | reflexivity].
Qed.

Lemma ended_session_report_witness :
  Page.canGenerateReport
    (Page.handleEndSession None
       (activeSession 1000 exampleEvents SessionStore.initialState)
       121000 121002 (Num (88 # 100))).2 130000 false = true
  /\ generateReport false
       (payloadObject
          (buildGeminiPayload exampleEvents (Js.ofZ (121000 - 1000))
             (Num (88 # 100))))
     = Requested.
Proof.
  assert (H0 : 1000 <> 0) by lia.
  assert (H1 : 121002 <> 0) by lia.
  destruct (ended_session_report SessionStore.initialState None
              1000 121000 121002 130000 exampleEvents (88 # 100) NaN H0 H1)
    as (_ & _ & Hcan & _ & Hreq).
  assert (Hoffered : Page.canGenerateReport
    (Page.handleEndSession None
       (activeSession 1000 exampleEvents SessionStore.initialState)
       121000 121002 (Num (88 # 100))).2 130000 false = true).
  { apply Hcan. split; [discriminate | lia]. }
  split; [exact Hoffered |].
  apply Hreq; [exact Hoffered | lia | lra].
Defined.
